(** * dual_net: a shallow embedding of the dual policy/value network module

    The development follows [src/py/dual_net.py].  Python floats are
    idealised as exact numbers: rationals ([Q]) wherever the code only adds,
    multiplies and divides, and reals ([R]) for the one place that takes a
    logarithm.  Where a property depends on how floats round, the numeric
    code is embedded once more in double precision (module [Binary64]).
    TensorFlow objects (graphs, sessions, checkpoints on disk) are modelled
    by explicit stores that are threaded through the calls. *)

From Stdlib Require Import ZArith QArith Qabs Qround Qreals Reals Lra Lia List.
From Stdlib Require Import SpecFloat.
From stdpp Require Import gmap strings pretty list fin_maps.

Local Open Scope Z_scope.

(** ** Python exceptions and fallible computations *)

Inductive exn : Set :=
| ZeroDivisionError   (* int or float division by zero *)
| OverflowError       (* a float that is too large for the operation *)
| ValueError          (* math domain error, malformed argument *)
| TypeError           (* an operand of the wrong type, e.g. [None] *)
| KeyError            (* a missing dict key *)
| OutOfRangeError     (* tf.errors.OutOfRangeError: input pipeline exhausted *)
| NotFoundError       (* tf.errors.NotFoundError: nothing saved under a name *)
| FailedPreconditionError  (* a variable is read before it is initialised *)
| InvalidArgumentError.    (* a placeholder is evaluated without a feed *)

#[global] Instance exn_eq_dec : EqDecision exn.
Proof. solve_decision. Defined.

Inductive result (A : Type) : Type :=
| Ok (a : A)
| Raise (e : exn).
Arguments Ok {A} a.
Arguments Raise {A} e.

Definition bind {A B : Type} (m : result A) (k : A -> result B) : result B :=
  match m with
  | Ok a => k a
  | Raise e => Raise e
  end.

Declare Scope result_scope.
Delimit Scope result_scope with result.
Notation "x <- m ;; k" := (bind m (fun x => k))
  (at level 100, m at next level, right associativity, only parsing)
  : result_scope.
Open Scope result_scope.

(** ** Python values and the arithmetic of [_round_power_of_two] *)

(** The values a hyperparameter dict can hold.  Overrides are stored as they
    are given, so the type is not restricted to numbers. *)
Inductive pyval : Type :=
| PInt (z : Z)
| PFloat (q : Q)
| PStr (s : string)
| PNone.

(** [math.log(x, base)]: the quotient of two natural logarithms.  Either
    logarithm raises [ValueError] outside its domain, and the division
    raises when [log(base)] is zero. *)
Definition math_log (x base : R) : result R :=
  if Rle_dec x 0 then Raise ValueError
  else if Rle_dec base 0 then Raise ValueError
  else if Req_dec_T base 1 then Raise ZeroDivisionError
  else Ok (ln x / ln base)%R.

(** [math.floor] on the reals. *)
Definition Rfloor (x : R) : Z := up x - 1.

(** [round(x)] with one argument: the nearest integer, a tie going to the
    even neighbour. *)
Definition py_round (x : R) : Z :=
  let f := Rfloor x in
  let d := (x - IZR f)%R in
  if Rlt_dec d (1 / 2) then f
  else if Rlt_dec (1 / 2) d then f + 1
  else if Z.even f then f else f + 1.

(** [int(z)] of an integer. *)
Definition py_int (z : Z) : Z := z.

(** [b ** e] on two integers: an integer for a non-negative exponent, and
    the float [1 / b ** -e] otherwise. *)
Definition py_pow (b e : Z) : result pyval :=
  if 0 <=? e then Ok (PInt (b ^ e))
  else if b =? 0 then Raise ZeroDivisionError
  else Ok (PFloat (/ inject_Z (b ^ (- e)))).

(** [a * b] where [a] is an integer literal. *)
Definition py_mul_int (a : Z) (b : pyval) : result pyval :=
  match b with
  | PInt z => Ok (PInt (a * z))
  | PFloat q => Ok (PFloat (inject_Z a * q))
  | PStr _ | PNone => Raise TypeError
  end.

Definition _round_power_of_two (n : Q) : result pyval :=
  l <- math_log (Q2R n) 2 ;;
  py_pow 2 (py_int (py_round l)).

(** The real number a numeric Python value stands for, and the logarithm
    to base two, to state properties with. *)
Definition to_R (v : pyval) : R :=
  match v with
  | PInt z => IZR z
  | PFloat q => Q2R q
  | PStr _ | PNone => 0
  end.

Definition log2 (x : R) : R := (ln x / ln 2)%R.

(** ** Hyperparameters *)

(** [go.N], the board dimension, is a constant of a module that is not part
    of this file; it is an argument here. *)
Definition get_default_hyperparams (go_N : Z) (overrides : gmap string pyval)
  : result (gmap string pyval) :=
  k <- _round_power_of_two (inject_Z (go_N ^ 2) / 3) ;;
  fc_width <- py_mul_int 2 k ;;
  let hparams : gmap string pyval :=
    <["k"%string := k]>
    (<["fc_width"%string := fc_width]>
    (<["num_shared_layers"%string := PInt go_N]>
    (<["l2_strength"%string := PFloat 2e-4]>
    (<["momentum"%string := PFloat 0.9]> ∅)))) in
  (* hparams.update: the overrides win over the defaults *)
  Ok (overrides ∪ hparams).

(** [hparams[key]] *)
Definition getitem (hparams : gmap string pyval) (key : string) : result pyval :=
  match hparams !! key with
  | Some v => Ok v
  | None => Raise KeyError
  end.

(** ** Python numerics used by the statistics collector *)

(** [sum(l)]: a left fold starting from the integer [0]. *)
Definition py_sum (l : list Q) : Q := fold_left Qplus l 0%Q.

(** [len(l)] *)
Definition len {A : Type} (l : list A) : Z := Z.of_nat (length l).

(** [a / b] with an integer divisor: true division, which raises on zero. *)
Definition py_truediv (a : Q) (b : Z) : result Q :=
  if Z.eqb b 0 then Raise ZeroDivisionError else Ok (a / inject_Z b)%Q.

(** ** StatisticsCollector *)

Module StatisticsCollector.

Record t : Type := mk {
  policy_costs : list Q;
  value_costs : list Q;
  regularization_costs : list Q;
  combined_costs : list Q
}.

(** The value of the merged summary node [accuracy_summaries]: the four
    scalar summaries, each under the tag it was declared with. *)
Definition summary : Type := list (string * Q).

Definition accuracy_summaries (policy_error value_error reg_error cost : Q)
  : summary :=
  [ ("Policy error"%string, policy_error);
    ("Value error"%string, value_error);
    ("Regularization error"%string, reg_error);
    ("Combined cost"%string, cost) ].

Definition __init__ : t := mk [] [] [] [].

Definition report (self : t)
    (policy_cost value_cost regularization_cost combined_cost : Q) : t :=
  mk (policy_costs self ++ [policy_cost])
     (value_costs self ++ [value_cost])
     (regularization_costs self ++ [regularization_cost])
     (combined_costs self ++ [combined_cost]).

(** [collect] returns the summary together with the collector after the
    call.  Every division precedes the first assignment, so a raised
    exception leaves the collector as it was. *)
Definition collect (self : t) : result (summary * t) :=
  avg_pol <- py_truediv (py_sum (policy_costs self)) (len (policy_costs self)) ;;
  avg_val <- py_truediv (py_sum (value_costs self)) (len (value_costs self)) ;;
  avg_reg <- py_truediv (py_sum (regularization_costs self))
                        (len (regularization_costs self)) ;;
  avg_cost <- py_truediv (py_sum (combined_costs self)) (len (combined_costs self)) ;;
  let self' := mk [] [] [] [] in
  Ok (accuracy_summaries avg_pol avg_val avg_reg avg_cost, self').

(** A history of calls made on one collector by a client that catches the
    exception of a failed [collect] and carries on. *)
Inductive call : Type :=
| Report (policy_cost value_cost regularization_cost combined_cost : Q)
| Collect.

Definition step (self : t) (c : call) : t :=
  match c with
  | Report p v r c => report self p v r c
  | Collect => match collect self with
               | Ok (_, self') => self'
               | Raise _ => self
               end
  end.

Definition run (cs : list call) : t := fold_left step cs __init__.

(** The reports made since the last [collect] of a history, oldest first. *)
Definition pending_step (acc : list (Q * Q * Q * Q)) (c : call)
  : list (Q * Q * Q * Q) :=
  match c with
  | Report p v r c => acc ++ [(p, v, r, c)]
  | Collect => []
  end.

Definition pending (cs : list call) : list (Q * Q * Q * Q) :=
  fold_left pending_step cs [].

Definition pol (x : Q * Q * Q * Q) : Q := x.1.1.1.
Definition val (x : Q * Q * Q * Q) : Q := x.1.1.2.
Definition reg (x : Q * Q * Q * Q) : Q := x.1.2.
Definition tot (x : Q * Q * Q * Q) : Q := x.2.

(** The four lists hold the four components of one list of reports. *)
Definition holds (self : t) (reports : list (Q * Q * Q * Q)) : Prop :=
  policy_costs self = map pol reports /\
  value_costs self = map val reports /\
  regularization_costs self = map reg reports /\
  combined_costs self = map tot reports.

End StatisticsCollector.

(** The arithmetic mean of a list, as mathematics writes it. *)
Fixpoint total (l : list Q) : Q :=
  match l with
  | [] => 0%Q
  | x :: l' => (x + total l')%Q
  end.

Definition mean (l : list Q) : Q := (total l / inject_Z (Z.of_nat (length l)))%Q.

(** ** The numeric code in double precision

    The definitions above take Python floats as exact numbers.  What
    [_round_power_of_two] and the [StatisticsCollector] compute on the
    machine depends on how floats round; this module embeds the two once
    more, from the same source lines, in IEEE 754 double precision as
    CPython does the arithmetic.  A double is a [spec_float] of the
    Standard Library, with 53 bits of precision. *)

Module Binary64.

Definition float : Type := spec_float.
Definition prec : Z := 53.
Definition emax : Z := 1024.

(** The double nearest to a rational, a tie going to the even
    neighbour: what Python makes of a decimal literal, and of an integer
    that meets a float. *)
Definition of_Q (q : Q) : float :=
  let a := Qnum q in
  let b := Zpos (Qden q) in
  match a with
  | 0 => S754_zero false
  | _ =>
      let k := Z.log2 b - Z.log2 (Z.abs a) + 64 in
      let num := if 0 <=? k then Z.abs a * 2 ^ k else Z.abs a in
      let den := if 0 <=? k then b else b * 2 ^ (- k) in
      let m := num / den in
      let r := num mod den in
      let l := if r =? 0 then loc_Exact
               else loc_Inexact (Z.compare (2 * r) den) in
      binary_round_aux prec emax (a <? 0) m (- k) l
  end.

Definition of_int (z : Z) : float := of_Q (inject_Z z).

(** The rational that a finite double stands for. *)
Definition value (x : float) : Q :=
  match x with
  | S754_finite s m e =>
      ((if s then inject_Z (Zneg m) else inject_Z (Zpos m)) * 2 ^ e)%Q
  | _ => 0%Q
  end.

Definition is_finite (x : float) : bool :=
  match x with
  | S754_zero _ | S754_finite _ _ _ => true
  | _ => false
  end.

Definition is_zero (x : float) : bool :=
  match x with
  | S754_zero _ => true
  | _ => false
  end.

(** [x + y] and [x / y] on two floats. *)
Definition add : float -> float -> float := SFadd prec emax.
Definition div : float -> float -> float := SFdiv prec emax.

(** What a [tf.float32] placeholder keeps of a double that is fed to
    it: the nearest number of single precision. *)
Definition float32 (x : float) : float :=
  match x with
  | S754_finite s m e => binary_round 24 128 s m e
  | _ => x
  end.

(** The two kinds of number that [_round_power_of_two] returns. *)
Inductive num : Type :=
| PyInt (z : Z)
| PyFloat (x : float).

Definition num_value (v : num) : Q :=
  match v with
  | PyInt z => inject_Z z
  | PyFloat x => value x
  end.

(** [round(x)] on a float: the nearest integer, a tie going to the even
    neighbour; there is no integer for a NaN or an infinity. *)
Definition round_half_even (q : Q) : Z :=
  let f := Qfloor q in
  match (q - inject_Z f ?= 1 # 2)%Q with
  | Lt => f
  | Gt => f + 1
  | Eq => if Z.even f then f else f + 1
  end.

Definition py_round (x : float) : result Z :=
  match x with
  | S754_nan => Raise ValueError
  | S754_infinity _ => Raise OverflowError
  | _ => Ok (round_half_even (value x))
  end.

Definition py_int (z : Z) : Z := z.

(** The double [2.0 ** e] for a negative integer [e]: the power itself
    while it can be represented, down to the smallest subnormal number,
    and zero below. *)
Definition pow2 (e : Z) : float :=
  if e <? -1074 then S754_zero false
  else if e <? -1022 then S754_finite false (Z.to_pos (2 ^ (e + 1074))) (-1074)
  else S754_finite false (Z.to_pos (2 ^ 52)) (e - 52).

(** [2 ** e] on an integer [e]: an integer for a non-negative exponent,
    a float otherwise. *)
Definition pow_of_two (e : Z) : num :=
  if 0 <=? e then PyInt (2 ^ e) else PyFloat (pow2 e).

Section Log.

(** The function [log] of the C library, on positive finite doubles.
    The C standard does not say how it rounds. *)
Variable libm_log : float -> float.

(** One logarithm of [math.log]: outside the domain it raises
    [ValueError]; a NaN and the positive infinity pass through. *)
Definition m_log (x : float) : result float :=
  match x with
  | S754_nan => Ok S754_nan
  | S754_infinity false => Ok x
  | S754_finite false _ _ => Ok (libm_log x)
  | _ => Raise ValueError
  end.

(** [math.log(x, base)]: the quotient of the two logarithms, as
    floats. *)
Definition math_log (x base : float) : result float :=
  num <- m_log x ;;
  den <- m_log base ;;
  if is_zero den then Raise ZeroDivisionError else Ok (div num den).

Definition _round_power_of_two (n : float) : result num :=
  l <- math_log n (of_int 2) ;;
  e <- py_round l ;;
  Ok (pow_of_two (py_int e)).

End Log.

(** The logarithm rounded to the nearest double, computed in fixed point
    with 200 binary places from the series of the inverse hyperbolic
    tangent.  This is what [log] of the GNU C library returns at all
    but rare arguments. *)
Definition places : Z := 200.

Fixpoint atanh_series (terms : nat) (k : Z) (zpow z2 acc : Z) : Z :=
  match terms with
  | O => acc
  | S terms' =>
      atanh_series terms' (k + 2) ((zpow * z2) / 2 ^ places) z2 (acc + zpow / k)
  end.

Definition atanh_fixed (z : Z) : Z :=
  atanh_series 70 1 z ((z * z) / 2 ^ places) 0.

Definition ln2_fixed : Z := 2 * atanh_fixed (2 ^ places / 3).

Definition log_double (x : float) : float :=
  match x with
  | S754_finite false m e =>
      let d := Z.log2 (Zpos m) + 1 in
      let M := Zpos m * 2 ^ (53 - d) in
      let E := e - (53 - d) in
      let z := ((M - 2 ^ 52) * 2 ^ places) / (M + 2 ^ 52) in
      of_Q (Qmake ((E + 52) * ln2_fixed + 2 * atanh_fixed z)
                  (Z.to_pos (2 ^ places)))
  | _ => S754_nan
  end.

(** [sum(l)] on floats: the integer [0] first becomes a float, and the
    elements are added to it from left to right, each sum rounded. *)
Definition py_sum (l : list float) : float := fold_left add l (of_int 0).

(** [a / b] with an integer divisor: it raises on zero, and divides by
    the divisor as a float otherwise. *)
Definition py_truediv (a : float) (b : Z) : result float :=
  if Z.eqb b 0 then Raise ZeroDivisionError else Ok (div a (of_int b)).

(** [sum(l) / len(l)] *)
Definition average (l : list float) : result float :=
  py_truediv (py_sum l) (len l).

Module StatisticsCollector.

Record t : Type := mk {
  policy_costs : list float;
  value_costs : list float;
  regularization_costs : list float;
  combined_costs : list float
}.

(** The merged summary: the four scalars, each under its tag, as the
    [tf.float32] placeholders hold them. *)
Definition summary : Type := list (string * float).

Definition accuracy_summaries (policy_error value_error reg_error cost : float)
  : summary :=
  [ ("Policy error"%string, float32 policy_error);
    ("Value error"%string, float32 value_error);
    ("Regularization error"%string, float32 reg_error);
    ("Combined cost"%string, float32 cost) ].

Definition __init__ : t := mk [] [] [] [].

Definition report (self : t)
    (policy_cost value_cost regularization_cost combined_cost : float) : t :=
  mk (policy_costs self ++ [policy_cost])
     (value_costs self ++ [value_cost])
     (regularization_costs self ++ [regularization_cost])
     (combined_costs self ++ [combined_cost]).

Definition collect (self : t) : result (summary * t) :=
  avg_pol <- average (policy_costs self) ;;
  avg_val <- average (value_costs self) ;;
  avg_reg <- average (regularization_costs self) ;;
  avg_cost <- average (combined_costs self) ;;
  let self' := mk [] [] [] [] in
  Ok (accuracy_summaries avg_pol avg_val avg_reg avg_cost, self').

(** The collector after a sequence of reports on a new one, or on one
    that was just collected. *)
Definition reported (reports : list (float * float * float * float)) : t :=
  fold_left (fun self x => report self x.1.1.1 x.1.1.2 x.1.2 x.2)
            reports __init__.

Definition pol (x : float * float * float * float) : float := x.1.1.1.
Definition val (x : float * float * float * float) : float := x.1.1.2.
Definition reg (x : float * float * float * float) : float := x.1.2.
Definition tot (x : float * float * float * float) : float := x.2.

End StatisticsCollector.

(** The double that [sum(l) / len(l)] is on a list that is not empty. *)
Definition float_mean (l : list float) : float :=
  div (py_sum l) (of_int (len l)).

(** The doubles that Python reads the literals of the scenarios as. *)
Definition d0_5 : float := of_Q 0.5.
Definition d0_3 : float := of_Q 0.3.
Definition d0_01 : float := of_Q 0.01.
Definition d0_81 : float := of_Q 0.81.
Definition d0_1 : float := of_Q 0.1.

(** Three reports, each of four times [0.1]. *)
Definition three_tenths : list (float * float * float * float) :=
  [ (d0_1, d0_1, d0_1, d0_1); (d0_1, d0_1, d0_1, d0_1);
    (d0_1, d0_1, d0_1, d0_1) ].

(** A double whose logarithm to base two lies just below one and a
    half: [0x1.6a09e667f3bccp+1], the largest double below the square
    root of eight. *)
Definition sqrt8 : float := S754_finite false 6369051672525772 (-51).

End Binary64.

(** ** TensorFlow graphs

    A graph is what the layer functions of [tf.layers] leave behind: the
    variables they declared, and how often each layer name was used (the
    second use of [conv2d] is named [conv2d_1], and so on).  A symbolic
    tensor is represented by its shape. *)

Definition shape : Type := list Z.

(** The elements of a tensor value, in row-major order. *)
Definition tensor : Type := list Q.

Inductive initializer : Set := Zeros | Ones | GlorotUniform.

Record variable : Type := Var {
  var_op : string;          (* the name of the variable's op *)
  var_trainable : bool;
  var_shape : shape;
  var_init : initializer
}.

(** [v.name] *)
Definition name (v : variable) : string := var_op v +:+ ":0".

Record Graph : Type := mkGraph {
  variables : list variable;
  scopes : gmap string nat
}.

Definition empty_graph : Graph := mkGraph [] ∅.

(** Code that runs under [with graph.as_default()] and only adds to that
    graph: a state and exception monad over the one graph. *)
Definition Build (A : Type) : Type := Graph -> result A * Graph.

Definition bret {A : Type} (a : A) : Build A := fun g => (Ok a, g).

Definition bbind {A B : Type} (m : Build A) (k : A -> Build B) : Build B :=
  fun g => match m g with
           | (Ok a, g') => k a g'
           | (Raise e, g') => (Raise e, g')
           end.

Definition braise {A : Type} (e : exn) : Build A := fun g => (Raise e, g).

Definition blift {A : Type} (r : result A) : Build A := fun g => (r, g).

Declare Scope build_scope.
Delimit Scope build_scope with build.
Notation "x <- m ;; k" := (bbind m (fun x => k))
  (at level 100, m at next level, right associativity, only parsing) : build_scope.
Notation "m ;;; k" := (bbind m (fun _ => k))
  (at level 100, right associativity, only parsing) : build_scope.

Local Open Scope build_scope.

(** A fresh layer name: [base] at first, then [base_1], [base_2], ... *)
Definition unique_name (base : string) : Build string :=
  fun g =>
    let n := default 0%nat (scopes g !! base) in
    let s := if Nat.eqb n 0 then base else base +:+ "_" +:+ pretty n in
    (Ok s, mkGraph (variables g) (<[base := S n]> (scopes g))).

Definition add_variable (v : variable) : Build unit :=
  fun g => (Ok tt, mkGraph (variables g ++ [v]) (scopes g)).

(** [tf.trainable_variables()] and [tf.global_variables()] *)
Definition trainable_variables : Build (list variable) :=
  fun g => (Ok (filter (fun v => var_trainable v = true) (variables g)), g).

Definition global_variables : Build (list variable) :=
  fun g => (Ok (variables g), g).

(** The last dimension of a shape: the channels of a feature map. *)
Definition channels (s : shape) : Z := List.last s 0.

Definition int_of (v : pyval) : result Z :=
  match v with
  | PInt z => Ok z
  | _ => Raise TypeError
  end.

Definition float_of (v : pyval) : result Q :=
  match v with
  | PInt z => Ok (inject_Z z)
  | PFloat q => Ok q
  | _ => Raise TypeError
  end.

Module layers.

(** [tf.layers.conv2d(inputs, filters, kernel_size, padding="same")].
    The layer takes its name first; a negative number of filters is
    refused when the kernel is declared, before any variable exists. *)
Definition conv2d (inputs : shape) (filters : Z) (kernel_size : Z * Z)
  : Build shape :=
  scope <- unique_name "conv2d" ;;
  if filters <? 0 then braise ValueError
  else
    add_variable (Var (scope +:+ "/kernel") true
                      [kernel_size.1; kernel_size.2; channels inputs; filters]
                      GlorotUniform) ;;;
    add_variable (Var (scope +:+ "/bias") true [filters] Zeros) ;;;
    bret (removelast inputs ++ [filters]).

(** [tf.layers.batch_normalization(inputs, center, scale, training)] *)
Definition batch_normalization (inputs : shape) (center scale training : bool)
  : Build shape :=
  scope <- unique_name "batch_normalization" ;;
  (if scale
   then add_variable (Var (scope +:+ "/gamma") true [channels inputs] Ones)
   else bret tt) ;;;
  (if center
   then add_variable (Var (scope +:+ "/beta") true [channels inputs] Zeros)
   else bret tt) ;;;
  add_variable (Var (scope +:+ "/moving_mean") false [channels inputs] Zeros) ;;;
  add_variable (Var (scope +:+ "/moving_variance") false [channels inputs] Ones) ;;;
  bret inputs.

(** [tf.layers.dense(inputs, units)]: a negative number of units is
    refused like a negative number of filters. *)
Definition dense (inputs : shape) (units : Z) : Build shape :=
  scope <- unique_name "dense" ;;
  if units <? 0 then braise ValueError
  else
    add_variable (Var (scope +:+ "/kernel") true [channels inputs; units]
                      GlorotUniform) ;;;
    add_variable (Var (scope +:+ "/bias") true [units] Zeros) ;;;
    bret (removelast inputs ++ [units]).

End layers.

(** Element-wise operations keep the shape. *)
Definition relu (x : shape) : shape := x.
Definition softmax (x : shape) : shape := x.
Definition tanh (x : shape) : shape := x.
Definition tf_add (x y : shape) : shape := x.

(** In a static shape a negative entry stands for a dimension that is
    not known when the graph is built (the batch dimension of a
    placeholder).  The number of such dimensions, and the number of
    elements that the known ones account for. *)
Fixpoint unknown_dims (s : shape) : nat :=
  match s with
  | [] => 0%nat
  | d :: s' => if d <? 0 then S (unknown_dims s') else unknown_dims s'
  end.

Fixpoint known_elements (s : shape) : Z :=
  match s with
  | [] => 1
  | d :: s' => (if d <? 0 then 1 else d) * known_elements s'
  end.

(** [tf.reshape(x, s)] with a list of integers [s], in which [-1] asks
    for a dimension to be inferred.  The check is the one made when the
    graph is built: a size below [-1] or two sizes to infer are refused;
    when both sides are known their numbers of elements must agree, and
    when one dimension is open on one side only, the known elements of
    that side must divide the elements of the other.  What is left open is
    checked when the graph runs.  The static shape is the one asked for. *)
Definition reshape (x : shape) (s : shape) : result shape :=
  if existsb (fun d => d <? -1) s then Raise ValueError
  else
    match unknown_dims x, unknown_dims s with
    | _, S (S _) => Raise ValueError
    | O, O =>
        if known_elements x =? known_elements s then Ok s else Raise ValueError
    | O, 1%nat =>
        if (0 <? known_elements s)
           && negb (known_elements x mod known_elements s =? 0)
        then Raise ValueError else Ok s
    | 1%nat, O =>
        if negb (known_elements x =? 0)
           && negb (known_elements s mod known_elements x =? 0)
        then Raise ValueError else Ok s
    | _, _ => Ok s
    end.

Close Scope build_scope.

(** ** The network and its training objective *)

Definition EXAMPLES_PER_GENERATION : Z := 2000000.
Definition TRAIN_BATCH_SIZE : Z := 16.

(** [sub in s] on strings *)
Fixpoint contains (sub s : string) : bool :=
  String.prefix sub s ||
  match s with
  | EmptyString => false
  | String _ s' => contains sub s'
  end.

(** Where the tensors of an input dict get their values from at run time:
    from a feed, or from the iterator of an input pipeline. *)
Inductive input_source : Set :=
| Placeholders
| Iterator (it : nat).

(** The dict with keys [pos_tensor], [pi_tensor] and [value_tensor]. *)
Record InputTensors : Type := mkInput {
  pos_tensor : shape;
  pi_tensor : shape;
  value_tensor : shape;
  source : input_source
}.

(** The dict returned by [dual_net]. *)
Record OutputTensors : Type := mkOutput {
  logits : shape;
  policy_output : shape;
  value_output : shape
}.

(** The tensor [l2_cost] as an expression over the graph's variables:
    [coefficient * tf.add_n([tf.nn.l2_loss(v) for v in terms])]. *)
Record L2Cost : Type := mkL2 {
  coefficient : Q;
  terms : list string
}.

(** The dict returned by [train_ops].  The two data-dependent costs are
    determined by [inputs]; [combined_cost] is the sum of the three costs. *)
Record TrainTensors : Type := mkTrain {
  inputs : InputTensors;
  l2_cost : L2Cost;
  momentum : Q;
  global_step : string
}.

Section Net.

(** [go.N] and [features.NEW_FEATURES_PLANES]: constants of modules that
    are not part of this file. *)
Variable go_N : Z.
Variable NEW_FEATURES_PLANES : Z.

Local Open Scope build_scope.

Definition get_inference_input : Build InputTensors :=
  bret (mkInput [-1; go_N; go_N; NEW_FEATURES_PLANES]
                [-1; go_N * go_N + 1]
                [-1]
                Placeholders).

Definition dual_net (input_tensors : InputTensors) (batch_size : Z)
    (train_mode : bool) (hparams : gmap string pyval) : Build OutputTensors :=
  let my_batchn inputs center scale :=
    layers.batch_normalization inputs center scale train_mode in
  k <- blift (getitem hparams "k") ;;
  let my_conv2d inputs filters kernel_size :=
    (f <- blift (int_of filters) ;; layers.conv2d inputs f kernel_size) in
  let my_res_layer inputs :=
    (c1 <- my_conv2d inputs k (3, 3) ;;
     int_layer1 <- my_batchn c1 true true ;;
     let initial_output := relu int_layer1 in
     c2 <- my_conv2d initial_output k (3, 3) ;;
     int_layer2 <- my_batchn c2 true true ;;
     bret (relu (tf_add inputs int_layer2))) in
  c0 <- my_conv2d (pos_tensor input_tensors) k (3, 3) ;;
  b0 <- my_batchn c0 true true ;;
  let initial_output := relu b0 in
  (* the shared stack *)
  n <- blift (v <- getitem hparams "num_shared_layers" ;; int_of v)%result ;;
  shared_output <-
    fold_left (fun acc _ => shared_output <- acc ;; my_res_layer shared_output)
              (seq 0 (Z.to_nat n)) (bret initial_output) ;;
  (* policy head *)
  pc <- my_conv2d shared_output (PInt 2) (1, 1) ;;
  pb <- my_batchn pc false false ;;
  let policy_conv := relu pb in
  policy_flat <- blift (reshape policy_conv [batch_size; go_N * go_N * 2]) ;;
  logits <- layers.dense policy_flat (go_N * go_N + 1) ;;
  let policy_output := softmax logits in
  (* value head *)
  vc <- my_conv2d shared_output (PInt 1) (1, 1) ;;
  vb <- my_batchn vc false false ;;
  let value_conv := relu vb in
  value_flat <- blift (reshape value_conv [batch_size; go_N * go_N]) ;;
  fc_width <- blift (v <- getitem hparams "fc_width" ;; int_of v)%result ;;
  vh <- layers.dense value_flat fc_width ;;
  let value_fc_hidden := relu vh in
  vo <- layers.dense value_fc_hidden 1 ;;
  value_out <- blift (reshape vo [batch_size]) ;;
  let value_output := tanh value_out in
  bret (mkOutput logits policy_output value_output).

(** [tf.add_n] refuses an empty list when the graph is built. *)
Definition add_n (l : list string) : result (list string) :=
  match l with
  | [] => Raise ValueError
  | _ => Ok l
  end.

Definition train_ops (input_tensors : InputTensors)
    (output_tensors : OutputTensors) (hparams : gmap string pyval)
  : Build TrainTensors :=
  global_step <- unique_name "global_step" ;;
  add_variable (Var global_step false [] Zeros) ;;;
  tvars <- trainable_variables ;;
  sum <- blift (add_n (map name
                 (filter (fun v => contains "bias" (name v) = false) tvars))) ;;
  let l2_cost := mkL2 1e-4 sum in
  momentum <- blift (v <- getitem hparams "momentum" ;; float_of v)%result ;;
  (* minimize: one momentum accumulator per trainable variable *)
  tvars' <- trainable_variables ;;
  fold_left (fun acc v => acc ;;;
               add_variable (Var (var_op v +:+ "/Momentum") false
                                 (var_shape v) Zeros))
            tvars' (bret tt) ;;;
  bret (mkTrain input_tensors l2_cost momentum (global_step +:+ ":0")).

(** The histogram summaries: one per trainable variable, under its name. *)
Definition logging_ops : Build (list string) :=
  tvars <- trainable_variables ;;
  bret (map name tvars).

End Net.

(** ** The world: graphs, sessions, input pipelines and files

    Graphs and sessions are objects with an identity: the stores below map
    an identifier to the object's current state, so that two references to
    one session see each other's updates and two sessions do not. *)

Record Batch : Type := mkBatch {
  batch_pos : tensor;
  batch_pi : tensor;
  batch_value : tensor
}.

Record Session : Type := mkSession {
  graph : nat;                       (* the graph the session was opened on *)
  values : gmap string tensor        (* the initialised variables *)
}.

Inductive file : Type :=
| MetaGraphDef (g : Graph)                   (* [path.meta] *)
| TensorBundle (vals : gmap string tensor).  (* [path.index] and its data *)

Inductive log_event : Type :=
| GraphEvent (g : nat)
| ScalarEvent (summary : list (string * Q)) (step : Q)
| HistogramEvent (summary : list (string * tensor)) (step : Q).

(** The calls into the runtime that the properties below speak about, in
    the order they were made. *)
Inductive tf_call : Type :=
| TrainStep (sess : nat)                 (* a run of the training tensors *)
| Exhausted (sess : nat)                 (* such a run, ended by [OutOfRangeError] *)
| Initialized (sess : nat)               (* a run of a variable initializer *)
| Restored (sess : nat) (path : string)
| Saved (sess : nat) (path : string).

Record World : Type := mkWorld {
  graphs : gmap nat Graph;
  sessions : gmap nat Session;
  default_graph : list nat;          (* the stack of [as_default] blocks *)
  iterators : gmap nat (list Batch); (* what each input pipeline still holds *)
  files : gmap string file;
  logs : gmap string (list log_event);
  stderr : list string;
  history : list tf_call;            (* the calls that reached the runtime *)
  tf_random : nat -> shape -> tensor; (* TensorFlow's random generator *)
  tf_cursor : nat;
  py_random : nat -> nat;             (* Python's [random] module *)
  py_cursor : nat
}.

(** Functional updates of one field. *)
Definition set_graphs (f : gmap nat Graph -> gmap nat Graph)
    (w : World) : World :=
  mkWorld (f (graphs w)) (sessions w) (default_graph w) (iterators w) (files w)
          (logs w) (stderr w) (history w) (tf_random w)
          (tf_cursor w) (py_random w) (py_cursor w).

Definition set_sessions (f : gmap nat Session -> gmap nat Session)
    (w : World) : World :=
  mkWorld (graphs w) (f (sessions w)) (default_graph w) (iterators w) (files w)
          (logs w) (stderr w) (history w) (tf_random w)
          (tf_cursor w) (py_random w) (py_cursor w).

Definition set_default_graph (f : list nat -> list nat)
    (w : World) : World :=
  mkWorld (graphs w) (sessions w) (f (default_graph w)) (iterators w) (files w)
          (logs w) (stderr w) (history w) (tf_random w)
          (tf_cursor w) (py_random w) (py_cursor w).

Definition set_iterators (f : gmap nat (list Batch) -> gmap nat (list Batch))
    (w : World) : World :=
  mkWorld (graphs w) (sessions w) (default_graph w) (f (iterators w)) (files w)
          (logs w) (stderr w) (history w) (tf_random w)
          (tf_cursor w) (py_random w) (py_cursor w).

Definition set_files (f : gmap string file -> gmap string file)
    (w : World) : World :=
  mkWorld (graphs w) (sessions w) (default_graph w) (iterators w) (f (files w))
          (logs w) (stderr w) (history w) (tf_random w)
          (tf_cursor w) (py_random w) (py_cursor w).

Definition set_logs (f : gmap string (list log_event) -> gmap string (list log_event))
    (w : World) : World :=
  mkWorld (graphs w) (sessions w) (default_graph w) (iterators w) (files w)
          (f (logs w)) (stderr w) (history w) (tf_random w)
          (tf_cursor w) (py_random w) (py_cursor w).

Definition set_stderr (f : list string -> list string)
    (w : World) : World :=
  mkWorld (graphs w) (sessions w) (default_graph w) (iterators w) (files w)
          (logs w) (f (stderr w)) (history w) (tf_random w)
          (tf_cursor w) (py_random w) (py_cursor w).

Definition set_history (f : list tf_call -> list tf_call)
    (w : World) : World :=
  mkWorld (graphs w) (sessions w) (default_graph w) (iterators w) (files w)
          (logs w) (stderr w) (f (history w)) (tf_random w)
          (tf_cursor w) (py_random w) (py_cursor w).

Definition set_tf_cursor (f : nat -> nat)
    (w : World) : World :=
  mkWorld (graphs w) (sessions w) (default_graph w) (iterators w) (files w)
          (logs w) (stderr w) (history w) (tf_random w)
          (f (tf_cursor w)) (py_random w) (py_cursor w).

Definition set_py_cursor (f : nat -> nat)
    (w : World) : World :=
  mkWorld (graphs w) (sessions w) (default_graph w) (iterators w) (files w)
          (logs w) (stderr w) (history w) (tf_random w)
          (tf_cursor w) (py_random w) (f (py_cursor w)).

(** Effectful code: a state and exception monad over the world.  A raised
    exception keeps the effects that preceded it. *)
Definition M (A : Type) : Type := World -> result A * World.

Definition ret {A : Type} (a : A) : M A := fun w => (Ok a, w).

Definition raise {A : Type} (e : exn) : M A := fun w => (Raise e, w).

Definition mbind {A B : Type} (m : M A) (k : A -> M B) : M B :=
  fun w => match m w with
           | (Ok a, w') => k a w'
           | (Raise e, w') => (Raise e, w')
           end.

Definition lift {A : Type} (r : result A) : M A := fun w => (r, w).

Declare Scope world_scope.
Delimit Scope world_scope with world.
Notation "x <- m ;; k" := (mbind m (fun x => k))
  (at level 100, m at next level, right associativity, only parsing) : world_scope.
Notation "m ;;; k" := (mbind m (fun _ => k))
  (at level 100, right associativity, only parsing) : world_scope.

(** [try: body except e: handler] *)
Definition try_except {A : Type} (body : M A) (e : exn) (handler : M A) : M A :=
  fun w => match body w with
           | (Ok a, w') => (Ok a, w')
           | (Raise e', w') => if decide (e' = e) then handler w' else (Raise e', w')
           end.

(** [keeps P m]: running [m] leaves the part [P] of the world as it was,
    whether [m] returns or raises. *)
Definition keeps {A X : Type} (P : World -> X) (m : M A) : Prop :=
  forall w, P (m w).2 = P w.

(** ** TensorFlow's runtime: graphs made default, sessions, savers *)

Local Open Scope world_scope.

(** Graph [0] is the process-wide default graph. *)
Definition get_default_graph : M nat :=
  fun w => (Ok (hd 0%nat (default_graph w)), w).

(** [tf.Graph()] *)
Definition tf_Graph : M nat :=
  fun w =>
    let g := fresh ({[0%nat]} ∪ dom (graphs w)) in
    (Ok g, set_graphs (insert g empty_graph) w).

(** [tf.Session(graph=g)] *)
Definition tf_Session (g : nat) : M nat :=
  fun w =>
    let s := fresh (dom (sessions w)) in
    (Ok s, set_sessions (insert s (mkSession g ∅)) w).

(** [sess.graph] *)
Definition sess_graph (sess : nat) : M nat :=
  fun w => match sessions w !! sess with
           | Some s => (Ok (graph s), w)
           | None => (Raise ValueError, w)
           end.

(** [with g.as_default(): body]; the block is left on an exception too. *)
Definition as_default {A : Type} (g : nat) (body : M A) : M A :=
  fun w =>
    let (r, w') := body (set_default_graph (cons g) w) in
    (r, set_default_graph (drop 1) w').

(** Graph-building code acts on the graph that is the default one. *)
Definition build {A : Type} (b : Build A) : M A :=
  fun w =>
    let g := hd 0%nat (default_graph w) in
    let (r, G) := b (default empty_graph (graphs w !! g)) in
    (r, set_graphs (insert g G) w).

(** [os.path.exists(p)] *)
Definition os_path_exists (p : string) : M bool :=
  fun w => (Ok (bool_decide (is_Some (files w !! p))), w).

(** [print(s, file=sys.stderr)] *)
Definition print_stderr (s : string) : M unit :=
  fun w => (Ok tt, set_stderr (fun l => l ++ [s]) w).

(** The number of elements of a tensor of a given shape. *)
Definition num_elements (s : shape) : nat := Z.to_nat (fold_right Z.mul 1 s).

(** The value an initializer gives to a variable. *)
Definition initial_value (v : variable) : M tensor :=
  fun w =>
    match var_init v with
    | Zeros => (Ok (replicate (num_elements (var_shape v)) 0%Q), w)
    | Ones => (Ok (replicate (num_elements (var_shape v)) 1%Q), w)
    | GlorotUniform =>
        (Ok (tf_random w (tf_cursor w) (var_shape v)), set_tf_cursor S w)
    end.

(** The op made by [tf.global_variables_initializer()]: it belongs to the
    graph that was the default one, and covers the variables of that
    moment. *)
Record init_op : Type := mkInit {
  init_graph : nat;
  init_vars : list variable
}.

Definition global_variables_initializer : M init_op :=
  g <- get_default_graph ;;
  vars <- build global_variables ;;
  ret (mkInit g vars).

Definition assign (sess : nat) (x : string) (t : tensor) : M unit :=
  fun w => match sessions w !! sess with
           | Some s => (Ok tt, set_sessions
                                 (insert sess (mkSession (graph s) (<[x := t]> (values s)))) w)
           | None => (Raise ValueError, w)
           end.

(** An entry in the history of calls. *)
Definition record (c : tf_call) : M unit :=
  fun w => (Ok tt, set_history (fun h => h ++ [c]) w).

(** Every variable of a list gets its initial value, in order. *)
Definition init_all (sess : nat) (vars : list variable) : M unit :=
  fold_left (fun acc v => acc ;;; t <- initial_value v ;; assign sess (name v) t)
            vars (ret tt).

(** [sess.run(op)] for an initializer op. *)
Definition run_init (sess : nat) (op : init_op) : M unit :=
  g <- sess_graph sess ;;
  if negb (Nat.eqb g (init_graph op)) then raise ValueError
  else init_all sess (init_vars op) ;;; record (Initialized sess).

(** [tf.train.Saver()]: a saver for the variables of the default graph,
    which must have some. *)
Record saver : Type := mkSaver {
  saver_graph : nat;
  saver_vars : list variable
}.

Definition Saver : M saver :=
  g <- get_default_graph ;;
  vars <- build global_variables ;;
  match vars with
  | [] => raise ValueError
  | _ => ret (mkSaver g vars)
  end.

(** The saved tensors of a list of variables, looked up by name. *)
Definition lookup_all (vals : gmap string tensor) (vars : list variable)
  : option (list (string * tensor)) :=
  mapM (fun v => (fun t => (name v, t)) <$> vals !! name v) vars.

(** [saver.restore(sess, save_path)] *)
Definition restore (sv : saver) (sess : nat) (save_path : option string) : M unit :=
  fun w =>
    match save_path, sessions w !! sess with
    | None, _ | _, None => (Raise ValueError, w)
    | Some p, Some s =>
        if negb (Nat.eqb (graph s) (saver_graph sv)) then (Raise ValueError, w)
        else match files w !! (p +:+ ".index") with
             | Some (TensorBundle vals) =>
                 match lookup_all vals (saver_vars sv) with
                 | Some kvs =>
                     (Ok tt, set_history (fun h => h ++ [Restored sess p])
                               (set_sessions
                                  (insert sess (mkSession (graph s)
                                                  (list_to_map kvs ∪ values s))) w))
                 | None => (Raise NotFoundError, w)
                 end
             | _ => (Raise NotFoundError, w)
             end
    end.

(** [saver.save(sess, save_path)]: writes the tensors under [path.index]
    and the graph under [path.meta]. *)
Definition save (sv : saver) (sess : nat) (save_path : option string) : M unit :=
  fun w =>
    match save_path, sessions w !! sess with
    | None, _ => (Raise TypeError, w)
    | _, None => (Raise ValueError, w)
    | Some p, Some s =>
        if negb (Nat.eqb (graph s) (saver_graph sv)) then (Raise ValueError, w)
        else match lookup_all (values s) (saver_vars sv) with
             | Some kvs =>
                 (Ok tt, set_history (fun h => h ++ [Saved sess p])
                           (set_files
                              (fun fs =>
                                 <[p +:+ ".index" := TensorBundle (list_to_map kvs)]>
                                 (<[p +:+ ".meta" :=
                                      MetaGraphDef (default empty_graph
                                                      (graphs w !! graph s))]> fs)) w))
             | None => (Raise FailedPreconditionError, w)
             end
    end.

Close Scope world_scope.

(** The graph that is the default one, as it stands. *)
Definition current_graph (w : World) : Graph :=
  default empty_graph (graphs w !! hd 0%nat (default_graph w)).

(** ** Running the training tensors *)

(** [tf.nn.l2_loss(t)]: half the sum of the squares. *)
Definition l2_loss (t : tensor) : Q :=
  (fold_left Qplus (map (fun x => x * x) t) 0 / 2)%Q.

(** The value of [tf.add_n] on scalars. *)
Definition add_n_value (l : list Q) : Q :=
  match l with
  | [] => 0%Q
  | x :: l' => fold_left Qplus l' x
  end.

(** The value of the tensor [l2_cost] under the variables of a session. *)
Definition eval_l2_cost (c : L2Cost) (vals : gmap string tensor) : result Q :=
  match mapM (fun x => vals !! x) (terms c) with
  | Some ts => Ok (coefficient c * add_n_value (map l2_loss ts))%Q
  | None => Raise FailedPreconditionError
  end.

(** What one run of the dict of training tensors gives back. *)
Module fetched.
Record t : Type := mk {
  policy_cost : Q;
  value_cost : Q;
  l2_cost : Q;
  combined_cost : Q;
  global_step : tensor
}.
End fetched.

(** Modelled from the spec: [preprocessing.get_input_tensors] is not part
    of this file.  The example source is a blocking pull-one-batch
    operation that signals exhaustion; [tf_records] stands for the batches
    it will hand out, in order. *)
Definition get_input_tensors (go_N NEW_FEATURES_PLANES : Z) (batch_size : Z)
    (tf_records : list Batch) : M InputTensors :=
  fun w =>
    let it := fresh (dom (iterators w)) in
    (Ok (mkInput [batch_size; go_N; go_N; NEW_FEATURES_PLANES]
                 [batch_size; go_N * go_N + 1]
                 [batch_size]
                 (Iterator it)),
     set_iterators (insert it tf_records) w).

(** [tf.summary.FileWriter(logdir, graph)] and [logger.add_summary]. *)
Definition FileWriter (logdir : string) (g : nat) : M string :=
  fun w => (Ok logdir,
            set_logs (fun l => <[logdir := default [] (l !! logdir) ++ [GraphEvent g]]> l) w).

Definition add_summary (logger : string) (ev : log_event) : M unit :=
  fun w => (Ok tt,
            set_logs (fun l => <[logger := default [] (l !! logger) ++ [ev]]> l) w).

Section Kernels.

(** The numeric kernels of the network: the two data-dependent costs of
    a batch under the current variables, and the new value the optimizer
    gives to a variable. *)
Variable policy_cost_of : gmap string tensor -> Batch -> Q.
Variable value_cost_of : gmap string tensor -> Batch -> Q.
Variable apply_gradients :
  Q -> Batch -> gmap string tensor -> string -> tensor -> tensor.

(** [sess.run(train_tensors)]: pulls one batch, evaluates the costs,
    updates every variable and advances the step counter. *)
Definition run_train (sess : nat) (tt : TrainTensors) : M fetched.t :=
  fun w =>
    match sessions w !! sess, source (inputs tt) with
    | None, _ => (Raise ValueError, w)
    | _, Placeholders => (Raise InvalidArgumentError, w)
    | Some s, Iterator it =>
        match iterators w !! it with
        | None | Some [] =>
            (Raise OutOfRangeError, set_history (fun h => h ++ [Exhausted sess]) w)
        | Some (b :: rest) =>
            let w1 := set_iterators (insert it rest) w in
            match eval_l2_cost (l2_cost tt) (values s),
                  values s !! global_step tt with
            | Ok l2, Some gs =>
                let pc := policy_cost_of (values s) b in
                let vc := value_cost_of (values s) b in
                let gs' := map (fun x => x + 1)%Q gs in
                let vals' :=
                  <[global_step tt := gs']>
                  (map_imap (fun x t =>
                               Some (apply_gradients (momentum tt) b (values s) x t))
                            (values s)) in
                (Ok (fetched.mk pc vc l2 (pc + vc + l2)%Q gs'),
                 set_history (fun h => h ++ [TrainStep sess])
                   (set_sessions (insert sess (mkSession (graph s) vals')) w1))
            | _, _ => (Raise FailedPreconditionError, w1)
            end
        end
    end.

(** [sess.run(weight_tensors)]: the current value of each listed
    variable. *)
Definition run_weights (sess : nat) (weight_tensors : list string)
  : M (list (string * tensor)) :=
  fun w =>
    match sessions w !! sess with
    | None => (Raise ValueError, w)
    | Some s =>
        match mapM (fun x => (fun t => (x, t)) <$> values s !! x) weight_tensors with
        | Some l => (Ok l, w)
        | None => (Raise FailedPreconditionError, w)
        end
    end.

End Kernels.

(** ** DualNetworkTrainer *)

Module DualNetworkTrainer.
Section Trainer.

Variable go_N : Z.
Variable NEW_FEATURES_PLANES : Z.
Variable policy_cost_of : gmap string tensor -> Batch -> Q.
Variable value_cost_of : gmap string tensor -> Batch -> Q.
Variable apply_gradients :
  Q -> Batch -> gmap string tensor -> string -> tensor -> tensor.

Local Open Scope world_scope.

(** The fields are set by the constructor and never assigned again; the
    session is a reference into the store of sessions. *)
Record t : Type := mk {
  hparams : gmap string pyval;
  save_file : option string;
  sess : nat
}.

Definition __init__ (save_file : option string) (hparams : gmap string pyval)
  : M t :=
  hparams <- lift (get_default_hyperparams go_N hparams) ;;
  g <- tf_Graph ;;
  sess <- tf_Session g ;;
  ret (mk hparams save_file sess).

Definition initialize_weights (self : t) (init_from : option string) : M unit :=
  exists_ <- match save_file self with
             | Some f => os_path_exists (f +:+ ".meta")
             | None => ret false
             end ;;
  if (exists_ : bool) then
    sv <- Saver ;;
    restore sv (sess self) (save_file self)
  else
    match init_from with
    | Some p =>
        print_stderr ("Initializing from " +:+ p) ;;;
        sv <- Saver ;;
        restore sv (sess self) init_from
    | None =>
        print_stderr "Bootstrapping with random weights" ;;;
        op <- global_variables_initializer ;;
        run_init (sess self) op
    end.

Definition save_weights (self : t) : M unit :=
  g <- sess_graph (sess self) ;;
  as_default g (
    sv <- Saver ;;
    save sv (sess self) (save_file self)).

(** The block of [bootstrap] under [with sess.graph.as_default()]. *)
Definition bootstrap_block (self : t) (sess : nat) : M unit :=
  input_tensors <- build (get_inference_input go_N NEW_FEATURES_PLANES) ;;
  output_tensors <- build (dual_net go_N input_tensors TRAIN_BATCH_SIZE true
                                    (hparams self)) ;;
  train_tensors <- build (train_ops input_tensors output_tensors (hparams self)) ;;
  op <- global_variables_initializer ;;
  run_init sess op ;;;
  sv <- Saver ;;
  save sv sess (save_file self).

Definition bootstrap (self : t) : M unit :=
  g <- tf_Graph ;;
  sess <- tf_Session g ;;
  g <- sess_graph sess ;;
  as_default g (bootstrap_block self sess).

(** What the loop of [train] works with: the tensors to run, and, when
    logging is on, the collector and the writer. *)
Record context : Type := mkContext {
  ctx_train_tensors : TrainTensors;
  ctx_weight_tensors : list string;
  ctx_logging : option (StatisticsCollector.t * string)
}.

(** The part of [train] before its loop. *)
Definition train_setup (self : t) (tf_records : list Batch)
    (init_from logdir : option string) : M context :=
  input_tensors <- get_input_tensors go_N NEW_FEATURES_PLANES
                                     TRAIN_BATCH_SIZE tf_records ;;
  output_tensors <- build (dual_net go_N input_tensors TRAIN_BATCH_SIZE true
                                    (hparams self)) ;;
  train_tensors <- build (train_ops input_tensors output_tensors (hparams self)) ;;
  weight_tensors <- build logging_ops ;;
  initialize_weights self init_from ;;;
  logging <- match logdir with
             | Some d =>
                 let training_stats := StatisticsCollector.__init__ in
                 g <- sess_graph (sess self) ;;
                 logger <- FileWriter d g ;;
                 ret (Some (training_stats, logger))
             | None => ret None
             end ;;
  ret (mkContext train_tensors weight_tensors logging).

(** One iteration of the loop, after a successful run of the training
    tensors: what is done when logging is on. *)
Definition log_step (self : t) (weight_tensors : list string) (i : Z)
    (tensor_values : fetched.t) (training_stats : StatisticsCollector.t)
    (logger : string) : M StatisticsCollector.t :=
  let training_stats :=
    StatisticsCollector.report training_stats
      (fetched.policy_cost tensor_values)
      (fetched.value_cost tensor_values)
      (fetched.l2_cost tensor_values)
      (fetched.combined_cost tensor_values) in
  if i mod 100 =? 0 then
    r <- lift (StatisticsCollector.collect training_stats) ;;
    let '(accuracy_summaries, training_stats) := r in
    weight_summaries <- run_weights (sess self) weight_tensors ;;
    let global_step := hd 0%Q (fetched.global_step tensor_values) in
    add_summary logger (ScalarEvent accuracy_summaries global_step) ;;;
    add_summary logger (HistogramEvent weight_summaries global_step) ;;;
    ret training_stats
  else ret training_stats.

(** [for i in range(...)], with the indices still to visit. *)
Fixpoint train_loop (self : t) (train_tensors : TrainTensors)
    (weight_tensors : list string)
    (indices : list Z) (logging : option (StatisticsCollector.t * string))
  : M unit :=
  match indices with
  | [] => ret tt
  | i :: indices' =>
      r <- try_except
             (tensor_values <- run_train policy_cost_of value_cost_of
                                         apply_gradients (sess self) train_tensors ;;
              ret (Some tensor_values))
             OutOfRangeError
             (ret None) ;;
      match r with
      | None => ret tt                          (* break *)
      | Some tensor_values =>
          logging' <- match logging with
                      | Some (training_stats, logger) =>
                          training_stats <- log_step self weight_tensors i
                                              tensor_values training_stats logger ;;
                          ret (Some (training_stats, logger))
                      | None => ret None
                      end ;;
          train_loop self train_tensors weight_tensors indices' logging'
      end
  end.

(** [range(n)] *)
Definition range (n : Z) : list Z := map Z.of_nat (seq 0 (Z.to_nat n)).

Definition train (self : t) (tf_records : list Batch)
    (init_from logdir : option string) (num_steps : option Z) : M unit :=
  let num_steps := match num_steps with
                   | None => EXAMPLES_PER_GENERATION / TRAIN_BATCH_SIZE
                   | Some n => n
                   end in
  g <- sess_graph (sess self) ;;
  as_default g (
    ctx <- train_setup self tf_records init_from logdir ;;
    train_loop self (ctx_train_tensors ctx) (ctx_weight_tensors ctx)
               (range num_steps) (ctx_logging ctx) ;;;
    save_weights self).

End Trainer.
End DualNetworkTrainer.

(** ** Worlds to run the definitions in *)

(** An empty world: no graph but the default one, no session, no file, and
    random generators that always give the same draw. *)
Definition empty_world : World :=
  mkWorld ∅ ∅ [] ∅ ∅ ∅ [] [] (fun _ _ => [1%Q]) 0 (fun _ => 0%nat) 0.

(** Whether the trainer's own save location holds a checkpoint: the test
    that [initialize_weights] makes first. *)
Definition own_checkpoint (self : DualNetworkTrainer.t) (w : World) : bool :=
  match DualNetworkTrainer.save_file self with
  | Some f => bool_decide (is_Some (files w !! (f +:+ ".meta")))
  | None => false
  end.

(** A world in which a trainer finds two checkpoints: one under its own
    save location [model], one under [old].  The graph of its session has
    one variable. *)
Definition two_checkpoints : World :=
  mkWorld {[ 1%nat := mkGraph [Var "w" true [1] Zeros] ∅ ]}
          {[ 0%nat := mkSession 1 ∅ ]}
          [1%nat]
          ∅
          (<["model.meta"%string := MetaGraphDef empty_graph]>
           (<["model.index"%string := TensorBundle {[ "w:0"%string := [2%Q] ]}]>
            (<["old.index"%string := TensorBundle {[ "w:0"%string := [1%Q] ]}]> ∅)))
          ∅ [] [] (fun _ _ => [1%Q]) 0 (fun _ => 0%nat) 0.

Definition model_trainer : DualNetworkTrainer.t :=
  DualNetworkTrainer.mk ∅ (Some "model"%string) 0.

(** A quickly executing network, with the hyperparameters that the local
    reinforcement-learning loop patches in, and a trainer for it whose
    session is open on an empty graph. *)
Definition quick_hparams : gmap string pyval :=
  <["k"%string := PInt 1]>
  (<["fc_width"%string := PInt 2]>
  (<["num_shared_layers"%string := PInt 1]>
  (<["l2_strength"%string := PFloat 2e-4]>
  (<["momentum"%string := PFloat 0.9]> ∅)))).

Definition quick_trainer : DualNetworkTrainer.t :=
  DualNetworkTrainer.mk quick_hparams (Some "model"%string) 0.

Definition quick_world : World :=
  mkWorld {[ 1%nat := empty_graph ]} {[ 0%nat := mkSession 1 ∅ ]} [] ∅ ∅ ∅ [] []
          (fun _ _ => [1%Q]) 0 (fun _ => 0%nat) 0.

(** A source of three batches, and kernels that keep the weights. *)
Definition three_batches : list Batch :=
  [mkBatch [] [] []; mkBatch [] [] []; mkBatch [] [] []].

Definition unit_cost (vals : gmap string tensor) (b : Batch) : Q := 1.

Definition keep_weights (momentum : Q) (b : Batch) (vals : gmap string tensor)
    (x : string) (t : tensor) : tensor := t.

(** A graph with one weight and one bias, and their values. *)
Definition small_graph : Graph :=
  mkGraph [Var "dense/kernel" true [2] GlorotUniform;
           Var "dense/bias" true [1] Zeros] ∅.

Definition small_values : gmap string tensor :=
  <["dense/kernel:0"%string := [1; 2]%Q]> (<["dense/bias:0"%string := [3%Q]]> ∅).

Definition no_input : InputTensors := mkInput [] [] [] Placeholders.
Definition no_output : OutputTensors := mkOutput [] [] [].

Definition with_l2_strength (x : Q) : gmap string pyval :=
  <["l2_strength"%string := PFloat x]> (<["momentum"%string := PFloat 0.9]> ∅).

(** ** Predicates on worlds used in the statements *)

(** [confined g s w w']: from [w] to [w'] no graph other than [g] and no
    session other than [s] has changed, and the stack of default graphs is
    the same. *)
Definition confined (g s : nat) (w w' : World) : Prop :=
  (forall g0, g0 <> g -> graphs w' !! g0 = graphs w !! g0) /\
  (forall s0, s0 <> s -> sessions w' !! s0 = sessions w !! s0) /\
  default_graph w' = default_graph w.

(** [stays_in g s m]: run while [g] is the default graph, [m] is confined
    to [g] and [s], whether it returns or raises. *)
Definition stays_in {A : Type} (g s : nat) (m : M A) : Prop :=
  forall w, hd 0%nat (default_graph w) = g -> confined g s w (m w).2.

(** [ready s g w]: session [s] is open on graph [g], which is the default
    graph and has variables, and every variable of [g] is initialised in
    [s]. *)
Definition ready (s g : nat) (w : World) : Prop :=
  hd 0%nat (default_graph w) = g /\
  variables (current_graph w) <> [] /\
  exists ss, sessions w !! s = Some ss /\ graph ss = g /\
             forall v, v ∈ variables (current_graph w) ->
                       is_Some (values ss !! name v).

(** [in_context s w]: session [s] is open on the graph that is the default
    one, as inside [with sess.graph.as_default()]. *)
Definition in_context (s : nat) (w : World) : Prop :=
  exists ss, sessions w !! s = Some ss /\ graph ss = hd 0%nat (default_graph w).

(** [restorable p w]: under the path [p] there is a checkpoint that holds
    a tensor for every variable of the default graph, which has some. *)
Definition restorable (p : string) (w : World) : Prop :=
  exists vals,
    files w !! (p +:+ ".index") = Some (TensorBundle vals) /\
    variables (current_graph w) <> [] /\
    forall v, v ∈ variables (current_graph w) -> is_Some (vals !! name v).

(** [restored_from s p w w']: from [w] to [w'] the variables of the default
    graph were given, in session [s], the tensors saved under [p], by one
    restore. *)
Definition restored_from (s : nat) (p : string) (w w' : World) : Prop :=
  exists vals ss',
    files w !! (p +:+ ".index") = Some (TensorBundle vals) /\
    sessions w' !! s = Some ss' /\
    (forall v, v ∈ variables (current_graph w) ->
       is_Some (vals !! name v) /\ values ss' !! name v = vals !! name v) /\
    history w' = history w ++ [Restored s p].

(** [initialised s w w']: from [w] to [w'] every variable of the default
    graph was given a value in session [s], by one run of the
    initializer. *)
Definition initialised (s : nat) (w w' : World) : Prop :=
  exists ss',
    sessions w' !! s = Some ss' /\
    (forall v, v ∈ variables (current_graph w) -> is_Some (values ss' !! name v)) /\
    history w' = history w ++ [Initialized s].

(** [runnable tt wts G]: the training tensors and the weight summaries
    read only variables of the graph [G], and the batches come from an
    iterator. *)
Definition runnable (train_tensors : TrainTensors) (weight_tensors : list string)
    (G : Graph) : Prop :=
  (forall x, x ∈ terms (l2_cost train_tensors) ->
             exists v, v ∈ variables G /\ name v = x) /\
  (exists v, v ∈ variables G /\ name v = global_step train_tensors) /\
  (forall x, x ∈ weight_tensors -> exists v, v ∈ variables G /\ name v = x).

(** [same_runtime w w']: the two worlds differ at most in what was logged
    and printed and in the state of the random generators. *)
Definition same_runtime (w w' : World) : Prop :=
  sessions w' = sessions w /\ graphs w' = graphs w /\
  default_graph w' = default_graph w /\ iterators w' = iterators w /\
  files w' = files w /\ history w' = history w.

(** ** Predicates on graph-building code *)

(** [grows m]: whatever [m] returns or raises, the variables the graph had
    are still there, in front of those that [m] declared. *)
Definition grows {A : Type} (m : Build A) : Prop :=
  forall G, variables G `prefix_of` variables (m G).2.

(** [builds_alike R m m']: from every graph, [m] and [m'] leave the same
    graph behind, and either both return, with results related by [R], or
    both raise the same exception. *)
Definition builds_alike {A : Type} (R : A -> A -> Prop) (m m' : Build A) : Prop :=
  forall G,
    (m G).2 = (m' G).2 /\
    match (m G).1, (m' G).1 with
    | Ok a, Ok a' => R a a'
    | Raise e, Raise e' => e = e'
    | _, _ => False
    end.

(** [gives n a m]: from every graph, [m] returns [a], having declared
    exactly [n] variables. *)
Definition gives {A : Type} (n : nat) (a : A) (m : Build A) : Prop :=
  forall G, exists G',
    m G = (Ok a, G') /\ length (variables G') = (length (variables G) + n)%nat.

(** Two shapes that differ in the batch dimension only: [b] in front of
    [t] and [b'] in front of [t]. *)
Definition batches (b b' : Z) (t : shape) (s s' : shape) : Prop :=
  s = b :: t /\ s' = b' :: t.

(** The batch dimension of the input fits the batch size that [dual_net]
    is given: it is that size, or it is open. *)
Definition batch_fits (b batch_size : Z) : Prop :=
  (b = -1 \/ b = batch_size) /\ -1 <= batch_size.

(** The variables that the regulariser of [train_ops] sums over: the
    trainable ones whose name does not contain [bias]. *)
Definition regularised (G : Graph) : list variable :=
  filter (fun v => contains "bias" (name v) = false)
         (filter (fun v => var_trainable v = true) (variables G)).

(** ** Board symmetries *)

Module symmetries.

(** Modelled from the spec: the module [symmetries] is not part of this
    file.  The spec gives it the board's eight dihedral symmetries, one
    chosen independently per example by [randomize_symmetries], and
    [invert_symmetries], which applies the inverse symmetry per example.
    A symmetry is given by where each cell of the result comes from. *)
Inductive symmetry : Set :=
| identity | rot90 | rot180 | rot270
| transpose | flipud | antitranspose | fliplr.

Definition SYMMETRIES : list symmetry :=
  [identity; rot90; rot180; rot270; transpose; flipud; antitranspose; fliplr].

(** Modelled from the spec: the inverse of each of the eight symmetries. *)
Definition invert_symmetry (s : symmetry) : symmetry :=
  match s with
  | rot90 => rot270
  | rot270 => rot90
  | _ => s
  end.

(** Modelled from the spec: the cell of an [n] by [n] board that a
    symmetry moves to row [i], column [j]. *)
Definition source_cell (s : symmetry) (n : nat) (ij : nat * nat) : nat * nat :=
  let '(i, j) := ij in
  match s with
  | identity => (i, j)
  | rot90 => (j, n - 1 - i)
  | rot180 => (n - 1 - i, n - 1 - j)
  | rot270 => (n - 1 - j, i)
  | transpose => (j, i)
  | flipud => (n - 1 - i, j)
  | antitranspose => (n - 1 - j, n - 1 - i)
  | fliplr => (i, n - 1 - j)
  end%nat.

Section Boards.
Context {A : Type}.

(** A board: its rows, each a list of cells. *)
Definition cell (d : A) (b : list (list A)) (ij : nat * nat) : A :=
  nth ij.2 (nth ij.1 b []) d.

(** Modelled from the spec: a symmetry applied to a square board. *)
Definition apply_symmetry (d : A) (s : symmetry) (b : list (list A))
  : list (list A) :=
  let n := length b in
  map (fun i => map (fun j => cell d b (source_cell s n (i, j))) (seq 0 n))
      (seq 0 n).
End Boards.

(** The rows of a flat list of cells, [n] cells to a row. *)
Fixpoint rows {A : Type} (n : nat) (count : nat) (l : list A) : list (list A) :=
  match count with
  | O => []
  | S count' => take n l :: rows n count' (drop n l)
  end.

(** A feature tensor of shape [N, N, planes]: a board whose cells are the
    vectors of plane values. *)
Definition feature : Type := list (list (list Q)).

(** A policy: [N * N] move probabilities, row by row, then the pass
    move. *)
Definition pi : Type := list Q.

(** Modelled from the spec: a symmetry on a feature tensor. *)
Definition apply_symmetry_feat (s : symmetry) (f : feature) : feature :=
  apply_symmetry [] s f.

(** Modelled from the spec: a symmetry on a policy permutes the board
    moves and keeps the pass move. *)
Definition apply_symmetry_pi (go_N : nat) (s : symmetry) (p : pi) : pi :=
  concat (apply_symmetry 0%Q s (rows go_N go_N (take (go_N * go_N) p)))
  ++ drop (go_N * go_N) p.

(** [random.choice(SYMMETRIES)] *)
Definition random_choice : M symmetry :=
  fun w =>
    (Ok (nth (py_random w (py_cursor w) mod 8) SYMMETRIES identity),
     set_py_cursor S w).

Local Open Scope world_scope.

(** Modelled from the spec: one symmetry is drawn per example, and
    applied to that example. *)
Fixpoint randomize_symmetries_feat (features : list feature)
  : M (list symmetry * list feature) :=
  match features with
  | [] => ret ([], [])
  | f :: features' =>
      s <- random_choice ;;
      r <- randomize_symmetries_feat features' ;;
      ret (s :: r.1, apply_symmetry_feat s f :: r.2)
  end.

(** Modelled from the spec: each policy gets the inverse of the symmetry
    that was used for its example. *)
Definition invert_symmetries_pi (go_N : nat) (symmetries : list symmetry)
    (pis : list pi) : list pi :=
  zip_with (fun s p => apply_symmetry_pi go_N (invert_symmetry s) p)
           symmetries pis.

Close Scope world_scope.

End symmetries.

(** ** DualNetwork *)

Module DualNetwork.
Section Inference.

Variable go_N : Z.
Variable NEW_FEATURES_PLANES : Z.

(** [features.extract_features] and the positions it reads belong to
    modules that are not part of this file. *)
Variable Position : Type.
Variable extract_features : Position -> symmetries.feature.

(** The forward pass of the network under the variables of a session:
    the policies and the values of a batch of feature tensors. *)
Variable forward :
  gmap string tensor -> list symmetries.feature -> list symmetries.pi * list Q.

Local Open Scope world_scope.

Record t : Type := mk {
  save_file : option string;
  hparams : gmap string pyval;
  inference_input : option InputTensors;
  inference_output : option OutputTensors;
  sess : nat
}.

Definition initialize_weights (self : t) (save_file : string) : M unit :=
  sv <- Saver ;;
  restore sv (sess self) (Some save_file).

Definition initialize_graph (self : t) : M t :=
  g <- sess_graph (sess self) ;;
  as_default g (
    input_tensors <- build (get_inference_input go_N NEW_FEATURES_PLANES) ;;
    output_tensors <- build (dual_net go_N input_tensors (-1) false (hparams self)) ;;
    let self := mk (save_file self) (hparams self)
                   (Some input_tensors) (Some output_tensors) (sess self) in
    match save_file self with
    | Some f => initialize_weights self f
    | None => op <- global_variables_initializer ;; run_init (sess self) op
    end ;;;
    ret self).

Definition __init__ (save_file : option string) (hparams : gmap string pyval)
  : M t :=
  hparams <- lift (get_default_hyperparams go_N hparams) ;;
  g <- tf_Graph ;;
  sess <- tf_Session g ;;
  initialize_graph (mk save_file hparams None None sess).

(** [sess.run(self.inference_output, feed_dict=...)]: a fetch that is
    [None] is refused with [TypeError].  What the run computes from a
    feed is the parameter [forward]; the checks that the run makes on
    the feed itself (an empty list of examples, an example of another
    shape than the placeholder) are not part of the model. *)
Definition run_inference (self : t) (processed : list symmetries.feature)
  : M (list symmetries.pi * list Q) :=
  fun w =>
    match sessions w !! sess self, inference_output self with
    | Some s, Some _ => (Ok (forward (values s) processed), w)
    | Some _, None => (Raise TypeError, w)
    | None, _ => (Raise ValueError, w)
    end.

Definition run_many (self : t) (positions : list Position)
    (use_random_symmetry : bool) : M (list symmetries.pi * list Q) :=
  let processed := map extract_features positions in
  r <- (if use_random_symmetry
        then symmetries.randomize_symmetries_feat processed
        else ret ([], processed)) ;;
  let '(syms_used, processed) := r in
  outputs <- run_inference self processed ;;
  let '(probabilities, value) := outputs in
  let probabilities :=
    if use_random_symmetry
    then symmetries.invert_symmetries_pi (Z.to_nat go_N) syms_used probabilities
    else probabilities in
  ret (probabilities, value).

End Inference.
End DualNetwork.

(** The symmetries that the next [n] draws of Python's random generator
    choose, and the world after [n] draws. *)
Definition drawn_symmetries (w : World) (n : nat) : list symmetries.symmetry :=
  map (fun i => nth (py_random w (py_cursor w + i) mod 8)
                    symmetries.SYMMETRIES symmetries.identity)
      (seq 0 n).

Definition after_draws (n : nat) (w : World) : World :=
  Nat.iter n (set_py_cursor S) w.

(** A world whose random generator will draw the given numbers first. *)
Definition with_draws (draws : list nat) (w : World) : World :=
  mkWorld (graphs w) (sessions w) (default_graph w) (iterators w) (files w)
          (logs w) (stderr w) (history w) (tf_random w) (tf_cursor w)
          (fun i => nth (i - py_cursor w) draws 0%nat) (py_cursor w).

(** The position of a symmetry in [SYMMETRIES]. *)
Definition symmetry_index (s : symmetries.symmetry) : nat :=
  match s with
  | symmetries.identity => 0
  | symmetries.rot90 => 1
  | symmetries.rot180 => 2
  | symmetries.rot270 => 3
  | symmetries.transpose => 4
  | symmetries.flipud => 5
  | symmetries.antitranspose => 6
  | symmetries.fliplr => 7
  end%nat.

(** A board is square when it has as many rows as each row has cells. *)
Definition square {A : Type} (b : list (list A)) : Prop :=
  Forall (fun row => length row = length b) b.

(** An inference engine on a 2 by 2 board, with a network that answers
    every example with the same policy and the same value, in a world whose
    next two draws choose a quarter turn and a three-quarter turn. *)
Definition tiny_features (position : nat) : symmetries.feature :=
  [[[1%Q]; [2%Q]]; [[3%Q]; [4%Q]]].

Definition tiny_forward (vals : gmap string tensor) (fed : list symmetries.feature)
  : list symmetries.pi * list Q :=
  (map (fun _ => [1; 2; 3; 4; 0]%Q) fed, map (fun _ => 0.5%Q) fed).

Definition tiny_engine : DualNetwork.t :=
  DualNetwork.mk None ∅ None (Some (mkOutput [] [] [])) 0.

Definition tiny_world : World :=
  with_draws [1; 3]%nat
    (mkWorld {[ 1%nat := empty_graph ]} {[ 0%nat := mkSession 1 ∅ ]} [] ∅ ∅ ∅ [] []
             (fun _ _ => [1%Q]) 0 (fun _ => 0%nat) 0).

(** * Properties *)

(** ** Fallible computations *)

Lemma bind_Ok {A B : Type} (m : result A) (k : A -> result B) (b : B) :
  bind m k = Ok b -> exists a, m = Ok a /\ k a = Ok b.
Proof. destruct m as [a|e]; simpl; [eauto | discriminate]. Qed.

Lemma py_truediv_zero (a : Q) : py_truediv a 0 = Raise ZeroDivisionError.
Proof. reflexivity. Qed.

Lemma py_truediv_nonzero (a : Q) (b : Z) :
  b <> 0 -> py_truediv a b = Ok (a / inject_Z b)%Q.
Proof.
  intros Hb. unfold py_truediv.
  destruct (Z.eqb_spec b 0) as [->|_]; [contradiction | reflexivity].
Qed.

Lemma len_zero {A : Type} (l : list A) : len l = 0 <-> l = [].
Proof.
  unfold len. destruct l as [|x l]; simpl; split; intros H; try reflexivity.
  - lia.
  - discriminate.
Qed.

(** ** The statistics collector *)

Lemma fold_left_Qplus (l : list Q) (a : Q) :
  (fold_left Qplus l a == a + total l)%Q.
Proof.
  revert a. induction l as [|x l IH]; intros a; simpl.
  - ring.
  - rewrite IH. ring.
Qed.

Lemma py_sum_total (l : list Q) : (py_sum l == total l)%Q.
Proof. unfold py_sum. rewrite fold_left_Qplus. ring. Qed.

Lemma py_sum_len_mean (l : list Q) : (py_sum l / inject_Z (len l) == mean l)%Q.
Proof. unfold mean, len. rewrite py_sum_total. reflexivity. Qed.

Module StatisticsCollectorFacts.
Import StatisticsCollector.

Lemma holds_init : holds __init__ [].
Proof. repeat split. Qed.

Lemma holds_report self reports p v r c :
  holds self reports -> holds (report self p v r c) (reports ++ [(p, v, r, c)]).
Proof.
  intros (Hp & Hv & Hr & Hc). unfold holds, report; simpl.
  rewrite !map_app, Hp, Hv, Hr, Hc. repeat split.
Qed.

Lemma collect_empty self : holds self [] -> collect self = Raise ZeroDivisionError.
Proof. intros (Hp & _). unfold collect. rewrite Hp. reflexivity. Qed.

Lemma collect_nonempty self reports :
  holds self reports -> reports <> [] ->
  collect self =
  Ok (accuracy_summaries
        (py_sum (map pol reports) / inject_Z (len (map pol reports)))
        (py_sum (map val reports) / inject_Z (len (map val reports)))
        (py_sum (map reg reports) / inject_Z (len (map reg reports)))
        (py_sum (map tot reports) / inject_Z (len (map tot reports))),
      __init__).
Proof.
  intros (Hp & Hv & Hr & Hc) Hne. unfold collect.
  rewrite Hp, Hv, Hr, Hc.
  assert (Hlen : forall f : Q * Q * Q * Q -> Q, len (map f reports) <> 0).
  { intros f H. apply len_zero in H. destruct reports; [congruence | discriminate]. }
  rewrite !py_truediv_nonzero by apply Hlen. reflexivity.
Qed.

Lemma run_snoc cs c : run (cs ++ [c]) = step (run cs) c.
Proof. unfold run. rewrite fold_left_app. reflexivity. Qed.

Lemma pending_snoc cs c : pending (cs ++ [c]) = pending_step (pending cs) c.
Proof. unfold pending. rewrite fold_left_app. reflexivity. Qed.

(** After any history of calls the collector holds exactly the reports
    made since the last [collect]. *)
Lemma holds_run cs : holds (run cs) (pending cs).
Proof.
  induction cs as [|c cs IH] using rev_ind.
  - apply holds_init.
  - rewrite run_snoc, pending_snoc. destruct c as [p v r c|]; simpl.
    + by apply holds_report.
    + destruct (pending cs) as [|x reports] eqn:E.
      * rewrite (collect_empty _ IH). exact IH.
      * rewrite (collect_nonempty _ _ IH) by discriminate. apply holds_init.
Qed.

(** C5.  After any history of calls, [collect] raises exactly when no
    [report] was made since the last [collect]; the exception is then
    [ZeroDivisionError], and [collect] raises no other exception. *)
Theorem collect_fails_iff_empty (cs : list call) :
  (collect (run cs) = Raise ZeroDivisionError <-> pending cs = []) /\
  (forall e, collect (run cs) = Raise e -> e = ZeroDivisionError) /\
  (pending cs = [] <->
     policy_costs (run cs) = [] /\ value_costs (run cs) = [] /\
     regularization_costs (run cs) = [] /\ combined_costs (run cs) = []).
Proof.
  pose proof (holds_run cs) as H.
  destruct (pending cs) as [|x reports] eqn:E.
  - pose proof (collect_empty _ H) as Hc. destruct H as (Hp & Hv & Hr & Hco).
    repeat split; auto.
    intros e He. congruence.
  - assert (Hne : x :: reports <> []) by discriminate.
    pose proof (collect_nonempty _ _ H Hne) as Hc.
    destruct H as (Hp & Hv & Hr & Hco).
    split; [|split].
    + split; intros H'; [congruence | discriminate].
    + intros e He. congruence.
    + split; [discriminate|]. intros (Hp' & _). rewrite Hp in Hp'. discriminate.
Qed.

Lemma collect_fails_iff_empty_witness :
  collect (run [Report 1 2 3 6; Collect]) = Raise ZeroDivisionError.
Proof.
  apply (proj1 (collect_fails_iff_empty [Report 1 2 3 6; Collect])).
  reflexivity.
Defined.

(** C9.  The four accumulator lists always have equal length: the
    constructor leaves all four empty, [report] appends exactly one
    element to each, a successful [collect] leaves all four empty, and
    so the four lengths agree after every history of calls. *)
Theorem lists_equal_length :
  (policy_costs __init__ = [] /\ value_costs __init__ = [] /\
   regularization_costs __init__ = [] /\ combined_costs __init__ = []) /\
  (forall self p v r c,
      policy_costs (report self p v r c) = policy_costs self ++ [p] /\
      value_costs (report self p v r c) = value_costs self ++ [v] /\
      regularization_costs (report self p v r c) =
        regularization_costs self ++ [r] /\
      combined_costs (report self p v r c) = combined_costs self ++ [c]) /\
  (forall self summary self',
      collect self = Ok (summary, self') ->
      policy_costs self' = [] /\ value_costs self' = [] /\
      regularization_costs self' = [] /\ combined_costs self' = []) /\
  (forall cs : list call,
      length (policy_costs (run cs)) = length (value_costs (run cs)) /\
      length (value_costs (run cs)) = length (regularization_costs (run cs)) /\
      length (regularization_costs (run cs)) = length (combined_costs (run cs))).
Proof.
  split; [repeat split|]. split; [intros; repeat split|]. split.
  - intros self summary self' H. unfold collect in H.
    repeat (apply bind_Ok in H; destruct H as (? & _ & H)).
    injection H as _ <-. repeat split.
  - intros cs. destruct (holds_run cs) as (Hp & Hv & Hr & Hc).
    rewrite Hp, Hv, Hr, Hc, !length_map. repeat split.
Qed.

Lemma lists_equal_length_witness :
  policy_costs __init__ = [] /\
  length (policy_costs (run [Report 1 2 3 6; Report 4 5 6 15; Collect; Report 0 0 0 0]))
  = length (combined_costs (run [Report 1 2 3 6; Report 4 5 6 15; Collect; Report 0 0 0 0])) /\
  combined_costs (mk [] [] [] []) = [].
Proof.
  destruct lists_equal_length as (Hi & _ & Hc & Hr).
  split; [exact (proj1 Hi)|]. split.
  - destruct (Hr [Report 1 2 3 6; Report 4 5 6 15; Collect; Report 0 0 0 0])
      as (H1 & H2 & H3).
    rewrite H1, H2, H3. reflexivity.
  - apply (Hc (mk [1%Q] [2%Q] [3%Q] [6%Q]) (accuracy_summaries 1 2 3 6)).
    reflexivity.
Defined.

End StatisticsCollectorFacts.

(** ** What a computation leaves alone

    [keeps P m]: running [m] does not change the part [P] of the world,
    whatever it returns or raises. *)

Lemma keeps_ret {A X : Type} (P : World -> X) (a : A) : keeps P (ret a).
Proof. intros w. reflexivity. Qed.

Lemma keeps_raise {A X : Type} (P : World -> X) (e : exn) : keeps P (@raise A e).
Proof. intros w. reflexivity. Qed.

Lemma keeps_lift {A X : Type} (P : World -> X) (r : result A) : keeps P (lift r).
Proof. intros w. reflexivity. Qed.

Lemma keeps_bind {A B X : Type} (P : World -> X) (m : M A) (k : A -> M B) :
  keeps P m -> (forall a, keeps P (k a)) -> keeps P (mbind m k).
Proof.
  intros Hm Hk w. unfold mbind. specialize (Hm w).
  destruct (m w) as [[a|e] w1]; simpl in *; [|exact Hm].
  rewrite Hk. exact Hm.
Qed.

Lemma keeps_try_except {A X : Type} (P : World -> X) (m h : M A) (e : exn) :
  keeps P m -> keeps P h -> keeps P (try_except m e h).
Proof.
  intros Hm Hh w. unfold try_except. specialize (Hm w).
  destruct (m w) as [[a|e'] w1]; simpl in *; [exact Hm|].
  destruct (decide (e' = e)); simpl; [|exact Hm].
  rewrite Hh. exact Hm.
Qed.

Lemma keeps_build {A X : Type} (P : World -> X) (b : Build A) :
  (forall f w, P (set_graphs f w) = P w) -> keeps P (build b).
Proof.
  intros HP w. unfold build.
  destruct (b _) as [r G]. simpl. apply HP.
Qed.

Lemma keeps_as_default {A X : Type} (P : World -> X) (g : nat) (body : M A) :
  (forall f w, P (set_default_graph f w) = P w) ->
  keeps P body -> keeps P (as_default g body).
Proof.
  intros HP Hb w. unfold as_default.
  specialize (Hb (set_default_graph (cons g) w)).
  destruct (body _) as [r w1]. simpl in *. rewrite HP, Hb. apply HP.
Qed.

Lemma keeps_get_default_graph {X : Type} (P : World -> X) :
  keeps P get_default_graph.
Proof. intros w. reflexivity. Qed.

Lemma keeps_sess_graph {X : Type} (P : World -> X) (s : nat) :
  keeps P (sess_graph s).
Proof. intros w. unfold sess_graph. by destruct (sessions w !! s). Qed.

Lemma keeps_os_path_exists {X : Type} (P : World -> X) (p : string) :
  keeps P (os_path_exists p).
Proof. intros w. reflexivity. Qed.

Lemma keeps_print_stderr {X : Type} (P : World -> X) (s : string) :
  (forall f w, P (set_stderr f w) = P w) -> keeps P (print_stderr s).
Proof. intros HP w. apply HP. Qed.

Lemma keeps_initial_value {X : Type} (P : World -> X) (v : variable) :
  (forall f w, P (set_tf_cursor f w) = P w) -> keeps P (initial_value v).
Proof.
  intros HP w. unfold initial_value. destruct (var_init v); simpl; auto.
Qed.

Lemma keeps_assign {X : Type} (P : World -> X) (s : nat) (x : string) (t : tensor) :
  (forall f w, P (set_sessions f w) = P w) -> keeps P (assign s x t).
Proof.
  intros HP w. unfold assign. destruct (sessions w !! s); simpl; auto.
Qed.

Lemma keeps_fold {A X : Type} (P : World -> X) (f : A -> M unit) (l : list A)
    (m : M unit) :
  keeps P m -> (forall a, keeps P (f a)) ->
  keeps P (fold_left (fun acc a => mbind acc (fun _ => f a)) l m).
Proof.
  revert m. induction l as [|a l IH]; intros m Hm Hf; simpl; [exact Hm|].
  apply IH; [|exact Hf]. apply keeps_bind; auto.
Qed.

Lemma keeps_global_variables_initializer {X : Type} (P : World -> X) :
  (forall f w, P (set_graphs f w) = P w) -> keeps P global_variables_initializer.
Proof.
  intros HP. unfold global_variables_initializer.
  apply keeps_bind; [apply keeps_get_default_graph|]. intros g.
  apply keeps_bind; [by apply keeps_build|]. intros vars. apply keeps_ret.
Qed.

Lemma keeps_Saver {X : Type} (P : World -> X) :
  (forall f w, P (set_graphs f w) = P w) -> keeps P Saver.
Proof.
  intros HP. unfold Saver.
  apply keeps_bind; [apply keeps_get_default_graph|]. intros g.
  apply keeps_bind; [by apply keeps_build|]. intros [|v vars].
  - apply keeps_raise.
  - apply keeps_ret.
Qed.

(** The runs of an initializer, of [restore] and of [save] are recorded in
    the history when they succeed, and only then. *)
Lemma mbind_Ok {A B : Type} (m : M A) (k : A -> M B) (w w' : World) (b : B) :
  mbind m k w = (Ok b, w') ->
  exists a w1, m w = (Ok a, w1) /\ k a w1 = (Ok b, w').
Proof.
  unfold mbind. destruct (m w) as [[a|e] w1]; [eauto | discriminate].
Qed.

Lemma keeps_init_all {X : Type} (P : World -> X) (s : nat) (vars : list variable) :
  (forall f w, P (set_tf_cursor f w) = P w) ->
  (forall f w, P (set_sessions f w) = P w) ->
  keeps P (init_all s vars).
Proof.
  intros H1 H2. unfold init_all.
  apply (keeps_fold P (fun v => mbind (initial_value v)
                                  (fun t => assign s (name v) t))).
  - apply keeps_ret.
  - intros v. apply keeps_bind; [by apply keeps_initial_value|].
    intros t. by apply keeps_assign.
Qed.

Lemma run_init_history (s : nat) (op : init_op) (w w' : World) :
  run_init s op w = (Ok tt, w') -> history w' = history w ++ [Initialized s].
Proof.
  unfold run_init. intros H.
  apply mbind_Ok in H as (g & w0 & Hg & H).
  pose proof (keeps_sess_graph history s w) as H0. rewrite Hg in H0.
  destruct (negb _); [discriminate|].
  apply mbind_Ok in H as ([] & w1 & Hi & H).
  pose proof (keeps_init_all history s (init_vars op)
                ltac:(reflexivity) ltac:(reflexivity) w0) as H1.
  rewrite Hi in H1. injection H as <-. simpl in *. congruence.
Qed.

Lemma restore_history (sv : saver) (s : nat) (p : option string) (w w' : World) :
  restore sv s p w = (Ok tt, w') ->
  exists f, p = Some f /\ history w' = history w ++ [Restored s f].
Proof.
  unfold restore. destruct p as [f|]; [|by destruct (sessions w !! s)].
  destruct (sessions w !! s) as [ss|]; [|discriminate].
  destruct (negb _); [discriminate|].
  destruct (files w !! _) as [[G|vals]|]; try discriminate.
  destruct (lookup_all _ _); [|discriminate].
  intros [= <-]. eauto.
Qed.

Lemma save_history (sv : saver) (s : nat) (p : option string) (w w' : World) :
  save sv s p w = (Ok tt, w') ->
  exists f, p = Some f /\ history w' = history w ++ [Saved s f] /\
            is_Some (files w' !! (f +:+ ".index")) /\
            is_Some (files w' !! (f +:+ ".meta")).
Proof.
  unfold save. destruct p as [f|]; [|discriminate].
  destruct (sessions w !! s) as [ss|]; [|discriminate].
  destruct (negb _); [discriminate|].
  destruct (lookup_all _ _); [|discriminate].
  intros [= <-]. exists f. simpl. split; [done|]. split; [done|]. split.
  - rewrite lookup_insert_eq. eauto.
  - apply lookup_insert_is_Some'. right. rewrite lookup_insert_eq. eauto.
Qed.

Lemma keeps_at {A X : Type} (P : World -> X) (m : M A) (w w' : World)
    (r : result A) :
  keeps P m -> m w = (r, w') -> P w' = P w.
Proof. intros H E. specialize (H w). by rewrite E in H. Qed.

(** ** Savers and initializers *)

Lemma build_global_variables (w : World) :
  build global_variables w =
  (Ok (variables (current_graph w)),
   set_graphs (insert (hd 0%nat (default_graph w)) (current_graph w)) w).
Proof. reflexivity. Qed.

(** A saver covers the variables of the graph that is the default one. *)
Lemma Saver_Ok (w w1 : World) (sv : saver) :
  Saver w = (Ok sv, w1) ->
  saver_graph sv = hd 0%nat (default_graph w) /\
  saver_vars sv = variables (current_graph w) /\
  saver_vars sv <> [] /\
  w1 = set_graphs (insert (hd 0%nat (default_graph w)) (current_graph w)) w.
Proof.
  unfold Saver, mbind, get_default_graph. rewrite build_global_variables.
  destruct (variables (current_graph w)) as [|v vars] eqn:E; [discriminate|].
  intros [= <- <-]. done.
Qed.

Lemma Saver_nonempty (w : World) :
  variables (current_graph w) <> [] ->
  Saver w =
  (Ok (mkSaver (hd 0%nat (default_graph w)) (variables (current_graph w))),
   set_graphs (insert (hd 0%nat (default_graph w)) (current_graph w)) w).
Proof.
  intros Hne. unfold Saver, mbind, get_default_graph.
  rewrite build_global_variables.
  destruct (variables (current_graph w)) as [|v vars] eqn:E; [done|].
  reflexivity.
Qed.

Lemma current_graph_reinsert (w : World) :
  current_graph
    (set_graphs (insert (hd 0%nat (default_graph w)) (current_graph w)) w)
  = current_graph w.
Proof. unfold current_graph. simpl. by rewrite lookup_insert_eq. Qed.

(** What [lookup_all] finds is what the map holds under each name. *)
Lemma lookup_all_Some (vals : gmap string tensor) (vars : list variable)
    (kvs : list (string * tensor)) :
  lookup_all vals vars = Some kvs ->
  forall v, v ∈ vars ->
    exists t, vals !! name v = Some t /\
              (list_to_map kvs : gmap string tensor) !! name v = Some t.
Proof.
  unfold lookup_all. rewrite mapM_Some. induction 1 as [|v kv vars kvs Hv _ IH].
  - intros v Hin. by apply elem_of_nil in Hin.
  - destruct (vals !! name v) as [t|] eqn:E; [|discriminate].
    injection Hv as <-. intros v' Hin. simpl.
    destruct (decide (name v = name v')) as [Heq|Hne].
    + exists t. rewrite <- Heq, lookup_insert_eq. done.
    + rewrite lookup_insert_ne by done.
      apply elem_of_cons in Hin as [->|Hin]; [done|]. by apply IH.
Qed.

Lemma lookup_all_is_Some (vals : gmap string tensor) (vars : list variable) :
  (forall v, v ∈ vars -> is_Some (vals !! name v)) ->
  is_Some (lookup_all vals vars).
Proof.
  intros H. unfold lookup_all. apply mapM_is_Some. apply Forall_forall.
  intros v Hin. destruct (H v Hin) as [t Ht]. unfold compose. rewrite Ht. by eexists.
Qed.

(** A successful [restore] reads the bundle saved under the path and gives
    every variable of the saver the tensor saved under its name. *)
Lemma restore_Ok (sv : saver) (s : nat) (p : option string) (w w' : World) :
  restore sv s p w = (Ok tt, w') ->
  exists f vals ss ss',
    p = Some f /\
    files w !! (f +:+ ".index") = Some (TensorBundle vals) /\
    sessions w !! s = Some ss /\
    sessions w' !! s = Some ss' /\
    graph ss' = graph ss /\
    graph ss = saver_graph sv /\
    (forall v, v ∈ saver_vars sv ->
       is_Some (vals !! name v) /\ values ss' !! name v = vals !! name v) /\
    w' = set_history (fun h => h ++ [Restored s f])
           (set_sessions (insert s ss') w).
Proof.
  unfold restore. destruct p as [f|]; [|by destruct (sessions w !! s)].
  destruct (sessions w !! s) as [ss|]; [|discriminate].
  destruct (Nat.eqb_spec (graph ss) (saver_graph sv)) as [Hg|]; [|discriminate].
  simpl. destruct (files w !! _) as [[G|vals]|] eqn:Ef; try discriminate.
  destruct (lookup_all _ _) as [kvs|] eqn:E; [|discriminate].
  intros [= <-]. exists f, vals, ss.
  exists (mkSession (graph ss) (list_to_map kvs ∪ values ss)). simpl.
  rewrite lookup_insert_eq. do 6 (split; [done|]). split; [|done].
  intros v Hin. destruct (lookup_all_Some _ _ _ E v Hin) as (t & Hv & Ht).
  rewrite Hv. split; [eauto|]. simpl. by rewrite (lookup_union_Some_l _ _ _ _ Ht).
Qed.

(** Initialising a list of variables gives each of them a value and takes
    none away. *)
Lemma init_all_snoc (s : nat) (vars : list variable) (v : variable) :
  init_all s (vars ++ [v]) =
  mbind (init_all s vars)
        (fun _ => mbind (initial_value v) (fun t => assign s (name v) t)).
Proof. unfold init_all. by rewrite fold_left_app. Qed.

Lemma initial_value_Ok (v : variable) (w : World) :
  exists t wt,
    initial_value v w = (Ok t, wt) /\
    sessions wt = sessions w /\ graphs wt = graphs w /\
    default_graph wt = default_graph w /\ files wt = files w /\
    history wt = history w /\ iterators wt = iterators w.
Proof.
  unfold initial_value. destruct (var_init v); eexists; eexists; (split; [reflexivity|done]).
Qed.

Lemma init_all_Ok (s : nat) (vars : list variable) (w : World) (ss : Session) :
  sessions w !! s = Some ss ->
  exists w' ss',
    init_all s vars w = (Ok tt, w') /\
    sessions w' !! s = Some ss' /\
    graph ss' = graph ss /\
    dom (values ss) ⊆ dom (values ss') /\
    (forall v, v ∈ vars -> is_Some (values ss' !! name v)) /\
    (forall s0, s0 <> s -> sessions w' !! s0 = sessions w !! s0) /\
    graphs w' = graphs w /\ default_graph w' = default_graph w /\
    files w' = files w /\ history w' = history w /\
    iterators w' = iterators w.
Proof.
  intros Hs. induction vars as [|v vars IH] using rev_ind.
  - exists w, ss. repeat split; try done. intros v Hin. by apply elem_of_nil in Hin.
  - destruct IH as (w1 & ss1 & H1 & Hs1 & Hg1 & Hd1 & Hv1 & Ho1 & Hgr & Hdg & Hf & Hh & Hit).
    rewrite init_all_snoc. unfold mbind at 1. rewrite H1. unfold mbind.
    destruct (initial_value_Ok v w1) as (t & wt & -> & Hws & Hwg & Hwd & Hwf & Hwh & Hwi).
    unfold assign.
    rewrite Hws, Hs1. eexists. eexists. split; [reflexivity|]. simpl.
    rewrite lookup_insert_eq. split; [done|]. simpl. split; [done|].
    split; [|split; [|split]].
    + rewrite dom_insert. set_solver.
    + intros v' Hin. apply elem_of_app in Hin as [Hin|Hin].
      * destruct (decide (name v = name v')) as [->|Hne].
        -- rewrite lookup_insert_eq. eauto.
        -- rewrite lookup_insert_ne by done. by apply Hv1.
      * apply list_elem_of_singleton in Hin as ->. rewrite lookup_insert_eq. eauto.
    + intros s0 Hne. rewrite lookup_insert_ne by done. rewrite Hws. by apply Ho1.
    + rewrite Hwg, Hwd, Hwf, Hwh, Hwi. done.
Qed.

(** ** The trainer: where the weights come from *)

Module InitializeWeightsFacts.
Import DualNetworkTrainer.

Lemma initialize_weights_own self init_from w :
  own_checkpoint self w = true ->
  initialize_weights self init_from w =
  mbind Saver (fun sv => restore sv (sess self) (save_file self)) w.
Proof.
  unfold own_checkpoint, initialize_weights. intros H.
  destruct (save_file self) as [f|]; [|discriminate].
  unfold mbind at 1, os_path_exists. by rewrite H.
Qed.

Lemma initialize_weights_other self init_from w :
  own_checkpoint self w = false ->
  initialize_weights self init_from w =
  match init_from with
  | Some p =>
      mbind (print_stderr ("Initializing from " +:+ p)) (fun _ =>
      mbind Saver (fun sv => restore sv (sess self) init_from)) w
  | None =>
      mbind (print_stderr "Bootstrapping with random weights") (fun _ =>
      mbind global_variables_initializer (fun op => run_init (sess self) op)) w
  end.
Proof.
  unfold own_checkpoint, initialize_weights. intros H.
  destruct (save_file self) as [f|].
  - unfold mbind at 1, os_path_exists. rewrite H. by destruct init_from.
  - unfold mbind at 1, ret. by destruct init_from.
Qed.

(** Restoring through a fresh saver: the session's variables get the
    tensors of the bundle saved under the path. *)
Lemma Saver_restore_Ok s p w w' :
  mbind Saver (fun sv => restore sv s p) w = (Ok tt, w') ->
  exists f vals ss',
    p = Some f /\
    files w !! (f +:+ ".index") = Some (TensorBundle vals) /\
    sessions w' !! s = Some ss' /\
    graph ss' = hd 0%nat (default_graph w) /\
    (forall v, v ∈ variables (current_graph w) ->
       is_Some (vals !! name v) /\ values ss' !! name v = vals !! name v) /\
    variables (current_graph w) <> [] /\
    (forall s0, s0 <> s -> sessions w' !! s0 = sessions w !! s0) /\
    current_graph w' = current_graph w /\
    default_graph w' = default_graph w /\
    iterators w' = iterators w /\
    files w' = files w /\
    history w' = history w ++ [Restored s f].
Proof.
  intros H. apply mbind_Ok in H as (sv & w1 & HS & H).
  apply Saver_Ok in HS as (Hg & Hv & Hne & ->).
  apply restore_Ok in H
    as (f & vals & ss & ss' & -> & Hf & Hs & Hs' & Hg' & Hg'' & Hvals & ->).
  exists f, vals, ss'. simpl in *. rewrite <- Hv.
  do 3 (split; [done|]). split; [congruence|]. do 2 (split; [done|]).
  split; [intros s0 Hne0; by rewrite lookup_insert_ne|].
  split; [|done]. apply current_graph_reinsert.
Qed.

Lemma global_variables_initializer_eq w :
  global_variables_initializer w =
  (Ok (mkInit (hd 0%nat (default_graph w)) (variables (current_graph w))),
   set_graphs (insert (hd 0%nat (default_graph w)) (current_graph w)) w).
Proof. reflexivity. Qed.

(** Running a fresh initializer: every variable of the default graph
    gets a value. *)
Lemma initializer_run_Ok s w w' :
  mbind global_variables_initializer (fun op => run_init s op) w = (Ok tt, w') ->
  exists ss',
    sessions w' !! s = Some ss' /\
    graph ss' = hd 0%nat (default_graph w) /\
    (forall v, v ∈ variables (current_graph w) -> is_Some (values ss' !! name v)) /\
    (forall s0, s0 <> s -> sessions w' !! s0 = sessions w !! s0) /\
    current_graph w' = current_graph w /\
    default_graph w' = default_graph w /\
    iterators w' = iterators w /\
    files w' = files w /\
    history w' = history w ++ [Initialized s].
Proof.
  unfold mbind at 1. rewrite global_variables_initializer_eq.
  set (w1 := set_graphs _ w). unfold run_init. intros H.
  apply mbind_Ok in H as (g & w1' & Hg & H).
  unfold sess_graph in Hg.
  destruct (sessions w1 !! s) as [ss|] eqn:Hs; [|discriminate].
  injection Hg as <- <-. simpl in H.
  destruct (Nat.eqb_spec (graph ss) (hd 0%nat (default_graph w))) as [Hgr|];
    [|discriminate].
  simpl in H. apply mbind_Ok in H as ([] & w2 & Hi & H).
  destruct (init_all_Ok s (variables (current_graph w)) w1 ss Hs)
    as (w2' & ss' & Hi' & Hs' & Hg' & _ & Hv & Ho & Hgs & Hd & Hf & Hh & Hit).
  rewrite Hi in Hi'. injection Hi' as <-. injection H as <-.
  exists ss'. simpl. split; [done|]. split; [congruence|]. split; [done|].
  split; [done|]. split.
  { unfold current_graph. simpl. rewrite Hgs, Hd. apply current_graph_reinsert. }
  rewrite Hd, Hit, Hf, Hh. done.
Qed.

(** When a restore and when an initialisation return. *)
Lemma restore_returns (sv : saver) (s : nat) (f : string) (w : World)
    (ss : Session) (vals : gmap string tensor) :
  sessions w !! s = Some ss ->
  graph ss = saver_graph sv ->
  files w !! (f +:+ ".index") = Some (TensorBundle vals) ->
  (forall v, v ∈ saver_vars sv -> is_Some (vals !! name v)) ->
  exists w', restore sv s (Some f) w = (Ok tt, w').
Proof.
  intros Hs Hg Hf Hv. unfold restore. rewrite Hs, Hg, Nat.eqb_refl. simpl.
  rewrite Hf. destruct (lookup_all_is_Some vals (saver_vars sv) Hv) as [kvs ->].
  eauto.
Qed.

Lemma Saver_restore_returns (s : nat) (f : string) (w : World) (ss : Session)
    (vals : gmap string tensor) :
  sessions w !! s = Some ss ->
  graph ss = hd 0%nat (default_graph w) ->
  variables (current_graph w) <> [] ->
  files w !! (f +:+ ".index") = Some (TensorBundle vals) ->
  (forall v, v ∈ variables (current_graph w) -> is_Some (vals !! name v)) ->
  exists w', mbind Saver (fun sv => restore sv s (Some f)) w = (Ok tt, w').
Proof.
  intros Hs Hg Hne Hf Hv. unfold mbind. rewrite Saver_nonempty by done.
  by apply (restore_returns _ s f _ ss vals).
Qed.

Lemma initializer_run_returns (s : nat) (w : World) (ss : Session) :
  sessions w !! s = Some ss ->
  graph ss = hd 0%nat (default_graph w) ->
  exists w',
    mbind global_variables_initializer (fun op => run_init s op) w = (Ok tt, w').
Proof.
  intros Hs Hg. unfold mbind at 1. rewrite global_variables_initializer_eq.
  set (w1 := set_graphs _ w).
  assert (Hs1 : sessions w1 !! s = Some ss) by exact Hs.
  unfold run_init, mbind at 1, sess_graph. rewrite Hs1. cbn [init_graph init_vars].
  rewrite Hg, Nat.eqb_refl. cbn [negb].
  destruct (init_all_Ok s (variables (current_graph w)) w1 ss Hs1)
    as (w' & ss' & Hi & _).
  unfold mbind. rewrite Hi. unfold record. eauto.
Qed.

(** A restore through a fresh saver, and a run of a fresh initializer,
    in the words of the statements. *)
Lemma Saver_restore_from s p q w w' :
  mbind Saver (fun sv => restore sv s q) w = (Ok tt, w') ->
  q = Some p -> restored_from s p w w'.
Proof.
  intros H ->. apply Saver_restore_Ok in H
    as (f & vals & ss' & Hp & Hf & Hs & _ & Hv & _ & _ & _ & _ & _ & _ & Hh).
  injection Hp as <-. by exists vals, ss'.
Qed.

Lemma Saver_restore_restorable s p w :
  in_context s w -> restorable p w ->
  exists w', mbind Saver (fun sv => restore sv s (Some p)) w = (Ok tt, w').
Proof.
  intros (ss & Hs & Hg) (vals & Hf & Hne & Hv).
  by apply (Saver_restore_returns s p w ss vals).
Qed.

End InitializeWeightsFacts.

Module InitializeWeightsTheorems.
Import DualNetworkTrainer InitializeWeightsFacts.

(** C3.  [initialize_weights] follows a strict order of precedence.
    Called inside the graph of the trainer's session:

    - if the trainer's own save location holds a checkpoint, the call
      behaves the same for every [init_from]; whenever it returns, the
      weights were restored from the save location; and it does return
      when that checkpoint holds every variable of the graph;
    - otherwise, if [init_from] is given, whenever the call returns the
      weights were restored from [init_from], and it does return when
      the checkpoint there holds every variable of the graph;
    - otherwise the call returns, and every variable of the graph was
      given a value by a run of the initializer. *)
Theorem initialize_weights_precedence (self : t) (init_from : option string)
    (w : World) :
  in_context (sess self) w ->
  (own_checkpoint self w = true ->
     (forall init_from',
         initialize_weights self init_from' w = initialize_weights self init_from w) /\
     (forall f, save_file self = Some f ->
        (forall w', initialize_weights self init_from w = (Ok tt, w') ->
                    restored_from (sess self) f w w') /\
        (restorable f w ->
         exists w', initialize_weights self init_from w = (Ok tt, w')))) /\
  (own_checkpoint self w = false ->
     forall p, init_from = Some p ->
       (forall w', initialize_weights self init_from w = (Ok tt, w') ->
                   restored_from (sess self) p w w') /\
       (restorable p w ->
        exists w', initialize_weights self init_from w = (Ok tt, w'))) /\
  (own_checkpoint self w = false ->
     init_from = None ->
     exists w', initialize_weights self init_from w = (Ok tt, w') /\
                initialised (sess self) w w').
Proof.
  intros Hctx. split; [|split].
  - intros Hown. split.
    + intros init_from'. by rewrite !initialize_weights_own.
    + intros f Hf. rewrite initialize_weights_own by done. rewrite Hf. split.
      * intros w' H. by apply (Saver_restore_from _ f (Some f) w w').
      * intros Hr. by apply Saver_restore_restorable.
  - intros Hown p ->. rewrite initialize_weights_other by done.
    unfold mbind at 1, print_stderr. split.
    + intros w' H. exact (Saver_restore_from _ p (Some p) _ w' H eq_refl).
    + intros Hr.
      exact (Saver_restore_restorable _ p (set_stderr _ w) Hctx Hr).
  - intros Hown ->. rewrite initialize_weights_other by done.
    unfold mbind at 1, print_stderr. destruct Hctx as (ss & Hs & Hg).
    set (w1 := set_stderr _ w).
    destruct (initializer_run_returns (sess self) w1 ss Hs Hg) as [w' H].
    exists w'. split; [exact H|].
    apply initializer_run_Ok in H as (ss' & Hs' & _ & Hv & _ & _ & _ & _ & _ & Hh).
    by exists ss'.
Qed.

End InitializeWeightsTheorems.

Module InitializeWeightsExamples.
Import DualNetworkTrainer InitializeWeightsTheorems.

(** The three cases in one world, in which a checkpoint lies under
    [model] and another under [old]: a trainer that saves to [model]
    restores from there although [init_from] is [old]; a trainer that
    saves to [fresh], where nothing lies yet, restores from [old], and
    without [init_from] it initialises its variable. *)
Lemma initialize_weights_precedence_witness :
  (initialize_weights model_trainer None two_checkpoints =
     initialize_weights model_trainer (Some "old"%string) two_checkpoints /\
   exists w',
     initialize_weights model_trainer (Some "old"%string) two_checkpoints
       = (Ok tt, w') /\
     restored_from 0 "model" two_checkpoints w') /\
  (exists w',
     initialize_weights (mk ∅ (Some "fresh"%string) 0) (Some "old"%string)
                        two_checkpoints = (Ok tt, w') /\
     restored_from 0 "old" two_checkpoints w') /\
  (exists w',
     initialize_weights (mk ∅ (Some "fresh"%string) 0) None two_checkpoints
       = (Ok tt, w') /\
     initialised 0 two_checkpoints w').
Proof.
  assert (Hctx : in_context 0 two_checkpoints).
  { exists (mkSession 1 ∅). split; reflexivity. }
  assert (Hvars : variables (current_graph two_checkpoints)
                  = [Var "w" true [1] Zeros]) by (vm_compute; reflexivity).
  assert (Hr : forall p t,
             files two_checkpoints !! (p +:+ ".index")
               = Some (TensorBundle {[ "w:0"%string := t ]}) ->
             restorable p two_checkpoints).
  { intros p t Hp. exists {[ "w:0"%string := t ]}. split; [exact Hp|].
    rewrite Hvars. split; [discriminate|].
    intros v Hin. apply list_elem_of_singleton in Hin as ->.
    vm_compute. eauto. }
  split; [|split].
  - destruct (proj1 (initialize_weights_precedence model_trainer
                       (Some "old"%string) two_checkpoints Hctx))
      as [Hsame Hown]; [vm_compute; reflexivity|].
    split; [apply Hsame|].
    destruct (Hown "model"%string eq_refl) as [Hfrom Hreturns].
    destruct Hreturns as [w' Hw'].
    { apply (Hr "model"%string [2%Q]). vm_compute. reflexivity. }
    exists w'. split; [exact Hw' | exact (Hfrom w' Hw')].
  - destruct (proj1 (proj2 (initialize_weights_precedence
                              (mk ∅ (Some "fresh"%string) 0)
                              (Some "old"%string) two_checkpoints Hctx))
                ltac:(vm_compute; reflexivity) "old"%string eq_refl)
      as [Hfrom Hreturns].
    destruct Hreturns as [w' Hw'].
    { apply (Hr "old"%string [1%Q]). vm_compute. reflexivity. }
    exists w'. split; [exact Hw' | exact (Hfrom w' Hw')].
  - apply (proj2 (proj2 (initialize_weights_precedence
                           (mk ∅ (Some "fresh"%string) 0) None
                           two_checkpoints Hctx))).
    + vm_compute. reflexivity.
    + reflexivity.
Defined.

End InitializeWeightsExamples.

(** ** Computations confined to one graph and one session *)

Lemma confined_refl (g s : nat) (w : World) : confined g s w w.
Proof. by repeat split. Qed.

Lemma confined_trans (g s : nat) (w1 w2 w3 : World) :
  confined g s w1 w2 -> confined g s w2 w3 -> confined g s w1 w3.
Proof.
  intros (Hg & Hs & Hd) (Hg' & Hs' & Hd'). repeat split.
  - intros g0 Hne. by rewrite Hg', Hg.
  - intros s0 Hne. by rewrite Hs', Hs.
  - congruence.
Qed.

Lemma stays_in_ret {A : Type} (g s : nat) (a : A) : stays_in g s (ret a).
Proof. intros w _. apply confined_refl. Qed.

Lemma stays_in_raise {A : Type} (g s : nat) (e : exn) : stays_in g s (@raise A e).
Proof. intros w _. apply confined_refl. Qed.

Lemma stays_in_bind {A B : Type} (g s : nat) (m : M A) (k : A -> M B) :
  stays_in g s m -> (forall a, stays_in g s (k a)) -> stays_in g s (mbind m k).
Proof.
  intros Hm Hk w Hd. unfold mbind. specialize (Hm w Hd).
  destruct (m w) as [[a|e] w1]; simpl in *; [|exact Hm].
  eapply confined_trans; [exact Hm|]. apply Hk.
  destruct Hm as (_ & _ & ->). exact Hd.
Qed.

Lemma stays_in_build {A : Type} (g s : nat) (b : Build A) :
  stays_in g s (build b).
Proof.
  intros w Hd. unfold build. rewrite Hd. destruct (b _) as [r G]. simpl.
  repeat split. intros g0 Hne. simpl. by rewrite lookup_insert_ne.
Qed.

Lemma stays_in_Saver (g s : nat) : stays_in g s Saver.
Proof.
  unfold Saver. apply stays_in_bind; [intros w _; apply confined_refl|].
  intros g'. apply stays_in_bind; [apply stays_in_build|].
  intros [|v vars]; [apply stays_in_raise | apply stays_in_ret].
Qed.

Lemma stays_in_global_variables_initializer (g s : nat) :
  stays_in g s global_variables_initializer.
Proof.
  unfold global_variables_initializer.
  apply stays_in_bind; [intros w _; apply confined_refl|].
  intros g'. apply stays_in_bind; [apply stays_in_build|].
  intros vars. apply stays_in_ret.
Qed.

Lemma stays_in_assign (g s : nat) (x : string) (t : tensor) :
  stays_in g s (assign s x t).
Proof.
  intros w _. unfold assign. destruct (sessions w !! s) as [ss|]; simpl.
  - repeat split. intros s0 Hne. simpl. by rewrite lookup_insert_ne.
  - apply confined_refl.
Qed.

Lemma stays_in_initial_value (g s : nat) (v : variable) :
  stays_in g s (initial_value v).
Proof.
  intros w _. unfold initial_value. destruct (var_init v); by repeat split.
Qed.

Lemma stays_in_fold {A : Type} (g s : nat) (f : A -> M unit) (l : list A)
    (m : M unit) :
  stays_in g s m -> (forall a, stays_in g s (f a)) ->
  stays_in g s (fold_left (fun acc a => mbind acc (fun _ => f a)) l m).
Proof.
  revert m. induction l as [|a l IH]; intros m Hm Hf; simpl; [exact Hm|].
  apply IH; [|exact Hf]. apply stays_in_bind; auto.
Qed.

Lemma stays_in_run_init (g s : nat) (op : init_op) : stays_in g s (run_init s op).
Proof.
  unfold run_init. apply stays_in_bind.
  { intros w _. unfold sess_graph. destruct (sessions w !! s); apply confined_refl. }
  intros g'. destruct (negb _); [apply stays_in_raise|].
  apply stays_in_bind; [|intros _ w _; by repeat split].
  unfold init_all.
  apply (stays_in_fold g s (fun v => mbind (initial_value v)
                                       (fun t => assign s (name v) t))).
  - apply stays_in_ret.
  - intros v. apply stays_in_bind; [apply stays_in_initial_value|].
    intros t. apply stays_in_assign.
Qed.

Lemma stays_in_save (g s : nat) (sv : saver) (p : option string) :
  stays_in g s (save sv s p).
Proof.
  intros w _. unfold save. destruct p as [f|]; [|apply confined_refl].
  destruct (sessions w !! s) as [ss|]; [|apply confined_refl].
  destruct (negb _); [apply confined_refl|].
  destruct (lookup_all _ _); [|apply confined_refl]. by repeat split.
Qed.

Lemma stays_in_restore (g s : nat) (sv : saver) (p : option string) :
  stays_in g s (restore sv s p).
Proof.
  intros w _. unfold restore. destruct p as [f|]; [|apply confined_refl].
  destruct (sessions w !! s) as [ss|]; [|apply confined_refl].
  destruct (negb _); [apply confined_refl|].
  destruct (files w !! _) as [[G|vals]|]; try apply confined_refl.
  destruct (lookup_all _ _); [|apply confined_refl].
  repeat split. intros s0 Hne. simpl. by rewrite lookup_insert_ne.
Qed.

(** Leaving an [as_default] block restores the stack of default graphs. *)
Lemma as_default_confined {A : Type} (g s : nat) (body : M A) (w : World) :
  stays_in g s body -> confined g s w (as_default g body w).2.
Proof.
  intros Hb. unfold as_default.
  specialize (Hb (set_default_graph (cons g) w) eq_refl).
  destruct (body _) as [r w1]. simpl in *.
  destruct Hb as (Hg & Hs & Hd). repeat split; try done.
  simpl. by rewrite Hd.
Qed.

(** ** The trainer: [bootstrap] works in a context of its own *)

Module BootstrapFacts.
Import DualNetworkTrainer.

Section Bootstrap.
Variable go_N : Z.
Variable NEW_FEATURES_PLANES : Z.

Lemma bootstrap_eq (self : t) (w : World) :
  let g := fresh ({[0%nat]} ∪ dom (graphs w)) in
  let s := fresh (dom (sessions w)) in
  bootstrap go_N NEW_FEATURES_PLANES self w =
  as_default g (bootstrap_block go_N NEW_FEATURES_PLANES self s)
    (set_sessions (insert s (mkSession g ∅))
       (set_graphs (insert g empty_graph) w)).
Proof.
  simpl. unfold bootstrap, mbind at 1 2 3, tf_Graph, tf_Session, sess_graph.
  simpl. by rewrite lookup_insert_eq.
Qed.

Lemma block_stays_in (self : t) (g s : nat) : stays_in g s (bootstrap_block go_N NEW_FEATURES_PLANES self s).
Proof.
  unfold bootstrap_block.
  apply stays_in_bind; [apply stays_in_build|]. intros input_tensors.
  apply stays_in_bind; [apply stays_in_build|]. intros output_tensors.
  apply stays_in_bind; [apply stays_in_build|]. intros train_tensors.
  apply stays_in_bind; [apply stays_in_global_variables_initializer|]. intros op.
  apply stays_in_bind; [apply stays_in_run_init|]. intros _.
  apply stays_in_bind; [apply stays_in_Saver|]. intros sv.
  apply stays_in_save.
Qed.

Lemma block_Ok (self : t) (s : nat) (w w' : World) :
  bootstrap_block go_N NEW_FEATURES_PLANES self s w = (Ok tt, w') ->
  exists f, save_file self = Some f /\
            history w' = history w ++ [Initialized s; Saved s f] /\
            is_Some (files w' !! (f +:+ ".index")) /\
            is_Some (files w' !! (f +:+ ".meta")).
Proof.
  unfold bootstrap_block. intros H.
  apply mbind_Ok in H as (input_tensors & wa & Ha & H).
  apply mbind_Ok in H as (output_tensors & wb & Hb & H).
  apply mbind_Ok in H as (train_tensors & wc & Hc & H).
  apply mbind_Ok in H as (op & wd & Hd & H).
  apply mbind_Ok in H as ([] & we & He & H).
  apply mbind_Ok in H as (sv & wf & Hf & H).
  apply save_history in H as (f & Hsf & Hh & Hi & Hm).
  exists f. split; [done|]. split; [|done].
  rewrite Hh.
  rewrite (keeps_at history _ _ _ _ (keeps_Saver history ltac:(done)) Hf).
  rewrite (run_init_history _ _ _ _ He).
  rewrite (keeps_at history _ _ _ _
             (keeps_global_variables_initializer history ltac:(done)) Hd).
  rewrite (keeps_at history _ _ _ _ (keeps_build history _ ltac:(done)) Hc).
  rewrite (keeps_at history _ _ _ _ (keeps_build history _ ltac:(done)) Hb).
  rewrite (keeps_at history _ _ _ _ (keeps_build history _ ltac:(done)) Ha).
  by rewrite <- app_assoc.
Qed.

(** [bootstrap] changes no graph and no session that existed before
    the call, nor the default graph. *)
Lemma bootstrap_frame (self : t) (w w' : World) (r : result unit) :
  bootstrap go_N NEW_FEATURES_PLANES self w = (r, w') ->
  (forall s ss, sessions w !! s = Some ss -> sessions w' !! s = Some ss) /\
  (forall g G, graphs w !! g = Some G -> graphs w' !! g = Some G) /\
  graphs w' !! 0%nat = graphs w !! 0%nat /\
  default_graph w' = default_graph w.
Proof.
  rewrite bootstrap_eq.
  set (g := fresh ({[0%nat]} ∪ dom (graphs w))).
  set (s := fresh (dom (sessions w))).
  set (w2 := set_sessions _ _). intros H.
  pose proof (as_default_confined g s (bootstrap_block go_N NEW_FEATURES_PLANES self s) w2 (block_stays_in self g s))
    as (Hg & Hs & Hd).
  rewrite H in Hg, Hs, Hd. simpl in Hg, Hs, Hd.
  assert (Hfg : g ∉ ({[0%nat]} ∪ dom (graphs w) : gset nat)) by apply is_fresh.
  assert (Hfs : s ∉ dom (sessions w)) by apply is_fresh.
  split; [|split; [|split]].
  - intros s0 ss Hs0. rewrite Hs, lookup_insert_ne; [done| |].
    + intros <-. apply Hfs. apply elem_of_dom. eauto.
    + intros ->. apply Hfs. apply elem_of_dom. eauto.
  - intros g0 G Hg0. rewrite Hg, lookup_insert_ne; [done| |].
    + intros <-. apply Hfg. apply elem_of_union_r, elem_of_dom. eauto.
    + intros ->. apply Hfg. apply elem_of_union_r, elem_of_dom. eauto.
  - rewrite Hg, lookup_insert_ne; [done| |]; intros E; apply Hfg;
      rewrite <- ?E, ?E; set_solver.
  - exact Hd.
Qed.

(** When [bootstrap] returns, a session that did not exist before has
    been initialised and saved under the trainer's save location. *)
Lemma bootstrap_Ok (self : t) (w w' : World) :
  bootstrap go_N NEW_FEATURES_PLANES self w = (Ok tt, w') ->
  exists f s,
    save_file self = Some f /\
    sessions w !! s = None /\
    history w' = history w ++ [Initialized s; Saved s f] /\
    is_Some (files w' !! (f +:+ ".index")) /\
    is_Some (files w' !! (f +:+ ".meta")).
Proof.
  rewrite bootstrap_eq.
  set (g := fresh ({[0%nat]} ∪ dom (graphs w))).
  set (s := fresh (dom (sessions w))).
  set (w2 := set_sessions _ _). unfold as_default.
  destruct (bootstrap_block _ _ self s _) as [r w3] eqn:Hb. intros [= -> <-].
  apply block_Ok in Hb as (f & Hsf & Hh & Hi & Hm).
  exists f, s. split; [done|]. split.
  { apply not_elem_of_dom. apply is_fresh. }
  done.
Qed.

End Bootstrap.

End BootstrapFacts.

(** ** Rounding to a power of two *)

Section Rounding.
Local Open Scope R_scope.

Lemma ln_2_pos : 0 < ln 2.
Proof. rewrite <- ln_1. apply ln_increasing; lra. Qed.

Lemma Rfloor_bounds (x : R) : IZR (Rfloor x) <= x < IZR (Rfloor x) + 1.
Proof.
  unfold Rfloor. rewrite minus_IZR. destruct (archimed x) as [H1 H2]. lra.
Qed.

(** [round] never moves a number by more than a half. *)
Lemma py_round_close (x : R) : Rabs (IZR (py_round x) - x) <= 1 / 2.
Proof.
  pose proof (Rfloor_bounds x) as [H1 H2]. unfold py_round.
  destruct (Rlt_dec _ _) as [Hlt|Hge].
  - apply Rabs_le. lra.
  - destruct (Rlt_dec _ _) as [Hgt|Hle].
    + rewrite plus_IZR. apply Rabs_le. lra.
    + destruct (Z.even _); [|rewrite plus_IZR]; apply Rabs_le; lra.
Qed.

(** A number strictly within a half of an integer rounds to it. *)
Lemma py_round_unique (x : R) (e : Z) :
  IZR e - 1 / 2 < x < IZR e + 1 / 2 -> py_round x = e.
Proof.
  intros [Hlo Hhi]. pose proof (Rfloor_bounds x) as [H1 H2].
  assert (Hf : (Rfloor x = e \/ Rfloor x = e - 1)%Z).
  { assert (Rfloor x < e + 1)%Z by (apply lt_IZR; rewrite plus_IZR; lra).
    assert (e - 2 < Rfloor x)%Z by (apply lt_IZR; rewrite minus_IZR; lra).
    lia. }
  unfold py_round. destruct Hf as [Hf|Hf]; rewrite Hf in *.
  - destruct (Rlt_dec _ _) as [_|Hn]; [reflexivity | lra].
  - rewrite minus_IZR in *.
    destruct (Rlt_dec _ _) as [Hlt|_]; [lra|].
    destruct (Rlt_dec _ _) as [_|Hn]; [lia | lra].
Qed.

Lemma math_log_2 (x : R) : 0 < x -> math_log x 2 = Ok (log2 x).
Proof.
  intros Hx. unfold math_log.
  destruct (Rle_dec x 0); [lra|]. destruct (Rle_dec 2 0); [lra|].
  destruct (Req_dec_T 2 1); [lra | reflexivity].
Qed.

Lemma math_log_domain (x : R) : x <= 0 -> math_log x 2 = Raise ValueError.
Proof. intros Hx. unfold math_log. destruct (Rle_dec x 0); [reflexivity | lra]. Qed.

Lemma log2_powerRZ (e : Z) : log2 (powerRZ 2 e) = IZR e.
Proof.
  unfold log2. rewrite powerRZ_Rpower by lra. rewrite ln_Rpower.
  field. pose proof ln_2_pos. lra.
Qed.

Lemma Q2R_inject_Z (z : Z) : Q2R (inject_Z z) = IZR z.
Proof. unfold Q2R. simpl. lra. Qed.

Lemma IZR_pow_2 (e : Z) : (0 <= e)%Z -> IZR (2 ^ e) = powerRZ 2 e.
Proof.
  intros He. rewrite <- (Z2Nat.id e He), <- pow_IZR.
  rewrite <- pow_powerRZ. reflexivity.
Qed.

(** [2 ** e] is the real number two to the power [e], for either sign
    of [e]. *)
Lemma py_pow_2 (e : Z) :
  exists v, py_pow 2 e = Ok v /\ to_R v = powerRZ 2 e /\
            (v = PInt (2 ^ e) \/ (e < 0)%Z /\ exists q, v = PFloat q).
Proof.
  unfold py_pow. destruct (Z.leb_spec 0 e) as [He|He].
  - eexists. split; [reflexivity|]. split; [|by left]. simpl. by apply IZR_pow_2.
  - simpl. eexists. split; [reflexivity|]. split; [|right; eauto].
    simpl. rewrite Q2R_inv, Q2R_inject_Z.
    + rewrite IZR_pow_2 by lia.
      replace e with (- - e)%Z at 2 by lia.
      rewrite (powerRZ_neg' 2 (- e)). reflexivity.
    + intros H.
      assert (0 < 2 ^ (- e))%Z by (apply Z.pow_pos_nonneg; lia).
      unfold Qeq in H. simpl in H. lia.
Qed.

End Rounding.

Section RoundPowerOfTwo.
Local Open Scope R_scope.

Lemma Q2R_pos (n : Q) : (0 < n)%Q -> 0 < Q2R n.
Proof. intros H. apply Qlt_Rlt in H. by rewrite RMicromega.Q2R_0 in H. Qed.

Lemma round_power_of_two_eq (n : Q) :
  (0 < n)%Q ->
  _round_power_of_two n = py_pow 2 (py_round (log2 (Q2R n))).
Proof.
  intros Hn. unfold _round_power_of_two.
  rewrite math_log_2 by by apply Q2R_pos. reflexivity.
Qed.

(** The exponent chosen for [n] is the [e] with [2^(e-1/2) < n < 2^(e+1/2)],
    which squares decide. *)
Lemma log2_between (n : Q) (e : Z) :
  (0 < n)%Q ->
  (2 ^ (2 * e - 1) < n * n)%Q -> (n * n < 2 ^ (2 * e + 1))%Q ->
  IZR e - 1 / 2 < log2 (Q2R n) < IZR e + 1 / 2.
Proof.
  intros Hn Hlo Hhi. pose proof (Q2R_pos n Hn) as Hx. pose proof ln_2_pos as H2.
  assert (Hpow : forall z, Q2R (2 ^ z) = powerRZ 2 z).
  { intros z. rewrite RMicromega.Q2RpowerRZ by (left; discriminate).
    f_equal. unfold Q2R. simpl. lra. }
  assert (Hln : forall z, ln (powerRZ 2 z) = IZR z * ln 2).
  { intros z. pose proof (log2_powerRZ z) as H. unfold log2 in H.
    apply (f_equal (fun y => y * ln 2)) in H. rewrite <- H. field. lra. }
  apply Qlt_Rlt in Hlo, Hhi. rewrite Q2R_mult, Hpow in Hlo, Hhi.
  apply ln_increasing in Hlo; [|apply powerRZ_lt; lra].
  apply ln_increasing in Hhi; [|nra].
  rewrite ln_mult, Hln in Hlo, Hhi by done.
  rewrite minus_IZR, mult_IZR in Hlo. rewrite plus_IZR, mult_IZR in Hhi.
  unfold log2. split.
  - apply (Rmult_lt_reg_r (ln 2)); [done|].
    replace (ln (Q2R n) / ln 2 * ln 2) with (ln (Q2R n)) by (field; lra). lra.
  - apply (Rmult_lt_reg_r (ln 2)); [done|].
    replace (ln (Q2R n) / ln 2 * ln 2) with (ln (Q2R n)) by (field; lra). lra.
Qed.

Lemma round_power_of_two_eval (n : Q) (e : Z) :
  (0 < n)%Q ->
  (2 ^ (2 * e - 1) < n * n)%Q -> (n * n < 2 ^ (2 * e + 1))%Q ->
  _round_power_of_two n = py_pow 2 e.
Proof.
  intros Hn Hlo Hhi. rewrite round_power_of_two_eq by done.
  by rewrite (py_round_unique _ e (log2_between n e Hn Hlo Hhi)).
Qed.

(** The two examples of the docstring, and the filter widths of the
    usual boards. *)
Lemma round_power_of_two_84 : _round_power_of_two 84 = Ok (PInt 64).
Proof. by rewrite (round_power_of_two_eval 84 6). Qed.

Lemma round_power_of_two_120 : _round_power_of_two 120 = Ok (PInt 128).
Proof. by rewrite (round_power_of_two_eval 120 7). Qed.

Lemma round_power_of_two_19 :
  _round_power_of_two (inject_Z (19 ^ 2) / 3) = Ok (PInt 128).
Proof. by rewrite (round_power_of_two_eval _ 7). Qed.

Lemma round_power_of_two_9 :
  _round_power_of_two (inject_Z (9 ^ 2) / 3) = Ok (PInt 32).
Proof. by rewrite (round_power_of_two_eval _ 5). Qed.

Lemma round_power_of_two_1 :
  _round_power_of_two (inject_Z (1 ^ 2) / 3) = Ok (PFloat (/ 4)).
Proof. by rewrite (round_power_of_two_eval _ (-2)). Qed.

End RoundPowerOfTwo.

(** ** The hyperparameter resolver *)

Section Hyperparams.

Lemma board_cells_pos (go_N : Z) : go_N <> 0 -> (0 < inject_Z (go_N ^ 2) / 3)%Q.
Proof.
  intros HN. assert (0 < go_N ^ 2) by nia.
  unfold Qlt, Qdiv, Qmult, Qinv, inject_Z; simpl. lia.
Qed.

Lemma py_mul_int_2 (k : pyval) (e : Z) :
  to_R k = powerRZ 2 e ->
  (k = PInt (2 ^ e) \/ (e < 0) /\ exists q, k = PFloat q) ->
  exists fc_width, py_mul_int 2 k = Ok fc_width /\
                   to_R fc_width = (2 * to_R k)%R.
Proof.
  intros _ [->|(_ & q & ->)]; simpl; eexists; (split; [reflexivity|]); simpl.
  - by rewrite mult_IZR.
  - rewrite Q2R_mult. f_equal. unfold Q2R. simpl. lra.
Qed.

(** C8.  For every board dimension (a board has at least one cell, so
    the dimension is not zero) and every set of overrides, the resolver
    returns a mapping in which every key of the overrides has the
    override's value, whatever that value is, and every other key has its
    default: [k], the nearest
    power of two to a third of the number of cells, [fc_width], twice
    [k], [num_shared_layers], the board dimension, [l2_strength], 2e-4,
    and [momentum], 0.9. *)
Theorem get_default_hyperparams_spec (go_N : Z) (overrides : gmap string pyval) :
  go_N <> 0 ->
  exists k fc_width hparams,
    _round_power_of_two (inject_Z (go_N ^ 2) / 3) = Ok k /\
    py_mul_int 2 k = Ok fc_width /\
    to_R fc_width = (2 * to_R k)%R /\
    get_default_hyperparams go_N overrides = Ok hparams /\
    (forall key v, overrides !! key = Some v -> hparams !! key = Some v) /\
    (overrides !! "k"%string = None -> hparams !! "k"%string = Some k) /\
    (overrides !! "fc_width"%string = None ->
       hparams !! "fc_width"%string = Some fc_width) /\
    (overrides !! "num_shared_layers"%string = None ->
       hparams !! "num_shared_layers"%string = Some (PInt go_N)) /\
    (overrides !! "l2_strength"%string = None ->
       hparams !! "l2_strength"%string = Some (PFloat 2e-4)) /\
    (overrides !! "momentum"%string = None ->
       hparams !! "momentum"%string = Some (PFloat 0.9)) /\
    (forall key,
        key ∉ ["k"; "fc_width"; "num_shared_layers"; "l2_strength"; "momentum"]%string ->
        hparams !! key = overrides !! key).
Proof.
  intros HN. pose proof (board_cells_pos go_N HN) as Hpos.
  pose proof (round_power_of_two_eq _ Hpos) as Heq.
  destruct (py_pow_2 (py_round (log2 (Q2R (inject_Z (go_N ^ 2) / 3)))))
    as (k & Hk & HR & Hform).
  rewrite Hk in Heq.
  destruct (py_mul_int_2 k _ HR Hform) as (fc_width & Hfc & Hfc2).
  exists k, fc_width. eexists. split; [exact Heq|]. split; [exact Hfc|].
  split; [exact Hfc2|]. unfold get_default_hyperparams. rewrite Heq. simpl.
  rewrite Hfc. simpl. split; [reflexivity|].
  split; [intros key v Hov; by apply lookup_union_Some_l|].
  repeat split.
  1-5: intros Hov; rewrite lookup_union_r by done; by simplify_map_eq.
  intros key Hkey. rewrite !not_elem_of_cons in Hkey.
  destruct Hkey as (? & ? & ? & ? & ? & _).
  rewrite lookup_union_l; [done|]. by simplify_map_eq.
Qed.

Lemma get_default_hyperparams_spec_witness :
  exists k fc_width hparams,
    _round_power_of_two (inject_Z (19 ^ 2) / 3) = Ok k /\
    py_mul_int 2 k = Ok fc_width /\
    get_default_hyperparams 19 {[ "k"%string := PStr "wide" ]} = Ok hparams /\
    hparams !! "k"%string = Some (PStr "wide") /\
    hparams !! "fc_width"%string = Some fc_width /\
    hparams !! "num_shared_layers"%string = Some (PInt 19).
Proof.
  destruct (get_default_hyperparams_spec 19 {[ "k"%string := PStr "wide" ]})
    as (k & fc & hp & Hk & Hfc & _ & Hhp & Hov & _ & Hfcw & Hn & _); [lia|].
  exists k, fc, hp. split; [exact Hk|]. split; [exact Hfc|]. split; [exact Hhp|].
  split; [apply Hov; reflexivity|]. split; [apply Hfcw; reflexivity|].
  apply Hn; reflexivity.
Defined.

(** The defaults of the 19 by 19 and the 9 by 9 board. *)
Lemma get_default_hyperparams_19 :
  get_default_hyperparams 19 ∅ =
  Ok (<["k"%string := PInt 128]>
      (<["fc_width"%string := PInt 256]>
      (<["num_shared_layers"%string := PInt 19]>
      (<["l2_strength"%string := PFloat 2e-4]>
      (<["momentum"%string := PFloat 0.9]> ∅))))).
Proof.
  unfold get_default_hyperparams. rewrite round_power_of_two_19. simpl.
  by rewrite (left_id_L ∅ (∪)).
Qed.

Lemma get_default_hyperparams_9 (overrides : gmap string pyval) :
  get_default_hyperparams 9 overrides =
  Ok (overrides ∪
      <["k"%string := PInt 32]>
      (<["fc_width"%string := PInt 64]>
      (<["num_shared_layers"%string := PInt 9]>
      (<["l2_strength"%string := PFloat 2e-4]>
      (<["momentum"%string := PFloat 0.9]> ∅))))).
Proof.
  unfold get_default_hyperparams. by rewrite round_power_of_two_9.
Qed.

(** A board of dimension zero has no hyperparameters: the logarithm is
    taken of zero. *)
Lemma get_default_hyperparams_0 (overrides : gmap string pyval) :
  get_default_hyperparams 0 overrides = Raise ValueError.
Proof.
  unfold get_default_hyperparams, _round_power_of_two.
  rewrite math_log_domain; [reflexivity|].
  change (inject_Z (0 ^ 2) / 3)%Q with (0 # 3)%Q. unfold Q2R. simpl. lra.
Qed.

End Hyperparams.

(** ** The regularisation term of the training objective *)

Section L2.

(** C1, as the code has it.  [train_ops] never reads [l2_strength]: the
    tensors it builds are the same whatever value the hyperparameter
    has, and the coefficient of the L2 term is the constant 1e-4.  With
    the default strength 2e-4 and one weight tensor [(1, 2)], the cost is
    1e-4 * (1 + 4) / 2 and not 2e-4 * (1 + 4); doubling the strength
    leaves it as it is. *)
Theorem l2_cost_ignores_l2_strength :
  (forall input_tensors output_tensors hparams v G,
      train_ops input_tensors output_tensors
                (<["l2_strength"%string := v]> hparams) G =
      train_ops input_tensors output_tensors hparams G) /\
  (exists train_tensors G',
      train_ops no_input no_output (with_l2_strength 2e-4) small_graph =
        (Ok train_tensors, G') /\
      train_ops no_input no_output (with_l2_strength 4e-4) small_graph =
        (Ok train_tensors, G') /\
      coefficient (l2_cost train_tensors) = 1e-4%Q /\
      terms (l2_cost train_tensors) = ["dense/kernel:0"%string] /\
      exists c, eval_l2_cost (l2_cost train_tensors) small_values = Ok c /\
                (c == 1e-4 * ((1 * 1 + 2 * 2) / 2))%Q /\
                ~ (c == 2e-4 * (1 * 1 + 2 * 2))%Q).
Proof.
  split.
  - intros input_tensors output_tensors hparams v G.
    unfold train_ops, getitem. by rewrite lookup_insert_ne.
  - eexists. eexists. split; [vm_compute; reflexivity|].
    split; [vm_compute; reflexivity|].
    split; [reflexivity|]. split; [reflexivity|].
    eexists. split; [vm_compute; reflexivity|]. split; [reflexivity|].
    discriminate.
Qed.

End L2.

(** ** Symmetries and inference *)

Module SymmetryFacts.
Import symmetries.

(** The inverse symmetry undoes the move of every cell, in both
    orders. *)
Lemma source_cell_inverse (s : symmetry) (n i j : nat) :
  (i < n)%nat -> (j < n)%nat ->
  source_cell s n (source_cell (invert_symmetry s) n (i, j)) = (i, j) /\
  source_cell (invert_symmetry s) n (source_cell s n (i, j)) = (i, j).
Proof.
  intros Hi Hj. destruct s; simpl; split; f_equal; lia.
Qed.

Lemma source_cell_in_range (s : symmetry) (n i j : nat) :
  (i < n)%nat -> (j < n)%nat ->
  ((source_cell s n (i, j)).1 < n)%nat /\ ((source_cell s n (i, j)).2 < n)%nat.
Proof. intros Hi Hj. destruct s; simpl; lia. Qed.

Lemma invert_symmetry_involutive (s : symmetry) :
  invert_symmetry (invert_symmetry s) = s.
Proof. by destruct s. Qed.

Section Boards.
Context {A : Type} (d : A).

Lemma apply_symmetry_length (s : symmetry) (b : list (list A)) :
  length (apply_symmetry d s b) = length b.
Proof. unfold apply_symmetry. by rewrite length_map, length_seq. Qed.

Lemma apply_symmetry_square (s : symmetry) (b : list (list A)) :
  square (apply_symmetry d s b).
Proof.
  unfold square. rewrite apply_symmetry_length. unfold apply_symmetry.
  apply Forall_forall. intros row Hrow.
  apply list_elem_of_fmap in Hrow as (i & -> & _).
  by rewrite length_map, length_seq.
Qed.

Lemma cell_apply_symmetry (s : symmetry) (b : list (list A)) (i j : nat) :
  (i < length b)%nat -> (j < length b)%nat ->
  cell d (apply_symmetry d s b) (i, j) =
  cell d b (source_cell s (length b) (i, j)).
Proof.
  intros Hi Hj. unfold cell at 1, apply_symmetry. cbn [fst snd].
  set (n := length b).
  rewrite nth_indep
    with (d' := map (fun j => cell d b (source_cell s n (0%nat, j))) (seq 0 n))
    by by rewrite length_map, length_seq.
  rewrite (map_nth (fun i => map (fun j => cell d b (source_cell s n (i, j)))
                                 (seq 0 n)) (seq 0 n) 0%nat i).
  rewrite seq_nth by done. cbn [Nat.add].
  rewrite nth_indep with (d' := cell d b (source_cell s n (i, 0%nat)))
    by by rewrite length_map, length_seq.
  rewrite (map_nth (fun j => cell d b (source_cell s n (i, j))) (seq 0 n) 0%nat j).
  by rewrite seq_nth.
Qed.

(** Two square boards of one size with the same cells are equal. *)
Lemma board_ext (b1 b2 : list (list A)) :
  length b1 = length b2 -> square b1 -> square b2 ->
  (forall i j, (i < length b1)%nat -> (j < length b1)%nat ->
               cell d b1 (i, j) = cell d b2 (i, j)) ->
  b1 = b2.
Proof.
  intros Hlen Hs1 Hs2 Hcell.
  apply (nth_ext _ _ [] []); [done|]. intros i Hi.
  assert (Hr1 : length (nth i b1 []) = length b1).
  { eapply (proj1 (Forall_forall _ _) Hs1). apply list_elem_of_In, nth_In. lia. }
  assert (Hr2 : length (nth i b2 []) = length b2).
  { eapply (proj1 (Forall_forall _ _) Hs2). apply list_elem_of_In, nth_In. lia. }
  apply (nth_ext _ _ d d); [congruence|]. intros j Hj.
  apply (Hcell i j); lia.
Qed.

(** Round trip: a symmetry followed by its inverse gives the board
    back. *)
Lemma apply_symmetry_inverse (s : symmetry) (b : list (list A)) :
  square b ->
  apply_symmetry d (invert_symmetry s) (apply_symmetry d s b) = b.
Proof.
  intros Hsq. apply board_ext.
  - by rewrite !apply_symmetry_length.
  - apply apply_symmetry_square.
  - exact Hsq.
  - rewrite !apply_symmetry_length. intros i j Hi Hj.
    rewrite cell_apply_symmetry by by rewrite apply_symmetry_length.
    rewrite apply_symmetry_length.
    destruct (source_cell (invert_symmetry s) (length b) (i, j)) as [i' j'] eqn:E.
    pose proof (source_cell_in_range (invert_symmetry s) (length b) i j Hi Hj)
      as [Hi' Hj'].
    rewrite E in Hi', Hj'. simpl in Hi', Hj'.
    rewrite cell_apply_symmetry by done. rewrite <- E.
    by rewrite (proj1 (source_cell_inverse s (length b) i j Hi Hj)).
Qed.
End Boards.

(** Drawing one symmetry per example. *)
Lemma drawn_symmetries_S (w : World) (n : nat) :
  drawn_symmetries w (S n) =
  nth (py_random w (py_cursor w) mod 8) SYMMETRIES identity
  :: drawn_symmetries (set_py_cursor S w) n.
Proof.
  unfold drawn_symmetries. simpl. rewrite Nat.add_0_r. f_equal.
  rewrite <- seq_shift, map_map. apply map_ext. intros i.
  by rewrite Nat.add_succ_r.
Qed.

Lemma after_draws_S (n : nat) (w : World) :
  after_draws n (set_py_cursor S w) = after_draws (S n) w.
Proof. unfold after_draws. by rewrite Nat.iter_succ_r. Qed.

Lemma randomize_symmetries_feat_eq (features : list feature) (w : World) :
  randomize_symmetries_feat features w =
  (Ok (drawn_symmetries w (length features),
       zip_with apply_symmetry_feat (drawn_symmetries w (length features)) features),
   after_draws (length features) w).
Proof.
  revert w. induction features as [|f features IH]; intros w; [reflexivity|].
  simpl randomize_symmetries_feat. unfold mbind at 1, random_choice.
  unfold mbind at 1. rewrite IH. unfold ret.
  simpl length. rewrite drawn_symmetries_S, after_draws_S. reflexivity.
Qed.

Lemma after_draws_fields (n : nat) (w : World) :
  sessions (after_draws n w) = sessions w /\
  graphs (after_draws n w) = graphs w /\
  files (after_draws n w) = files w /\
  history (after_draws n w) = history w /\
  py_cursor (after_draws n w) = (n + py_cursor w)%nat.
Proof.
  unfold after_draws. induction n as [|n IH]; [done|].
  simpl. destruct IH as (-> & -> & -> & -> & ->). done.
Qed.

(** Any choice of symmetries, one per example, is the one drawn under
    some state of the random generator. *)
Lemma symmetry_of_index (s : symmetry) :
  nth (symmetry_index s mod 8) SYMMETRIES identity = s.
Proof. by destruct s. Qed.

Lemma draws_follow (target : list symmetry) (rnd : nat -> nat) (k : nat) :
  (forall i, (i < length target)%nat ->
             rnd (k + i)%nat = symmetry_index (nth i target identity)) ->
  map (fun i => nth (rnd (k + i)%nat mod 8) SYMMETRIES identity)
      (seq 0 (length target)) = target.
Proof.
  revert k. induction target as [|s target IH]; intros k H; [reflexivity|].
  cbn [length seq map]. f_equal.
  - rewrite (H 0%nat) by (simpl; lia). apply symmetry_of_index.
  - rewrite <- seq_shift, map_map. rewrite <- (IH (S k)) at 2.
    + apply map_ext. intros i. by rewrite Nat.add_succ_r.
    + intros i Hi. replace (S k + i)%nat with (k + S i)%nat by lia.
      apply (H (S i)). simpl. lia.
Qed.

Lemma drawn_symmetries_any (target : list symmetry) (w : World) :
  drawn_symmetries (with_draws (map symmetry_index target) w) (length target)
  = target.
Proof.
  unfold drawn_symmetries, with_draws. cbn [py_random py_cursor].
  apply (draws_follow target
           (fun i => nth (i - py_cursor w) (map symmetry_index target) 0%nat)
           (py_cursor w)).
  intros i Hi. cbv beta.
  replace (py_cursor w + i - py_cursor w)%nat with i by lia.
  rewrite nth_indep with (d' := symmetry_index identity) by by rewrite length_map.
  apply map_nth.
Qed.

End SymmetryFacts.

Module RunManyFacts.
Import symmetries DualNetwork SymmetryFacts.

Section RunMany.
Variable go_N : Z.
Variable NEW_FEATURES_PLANES : Z.
Variable Position : Type.
Variable extract_features : Position -> feature.
Variable forward : gmap string tensor -> list feature -> list pi * list Q.

Lemma drawn_symmetries_length (w : World) (n : nat) :
  length (drawn_symmetries w n) = n.
Proof. unfold drawn_symmetries. by rewrite length_map, length_seq. Qed.

Lemma map_lookup_Some {A B : Type} (f : A -> B) (l : list A) (i : nat) (x : A) :
  l !! i = Some x -> map f l !! i = Some (f x).
Proof.
  revert i. induction l as [|a l IH]; intros [|i] H; try done.
  - by injection H as ->.
  - by apply IH.
Qed.

(** C6.  With random symmetries on, [run_many] draws one symmetry per
    example, feeds the network each example's features under its own
    symmetry, gives back each policy under the inverse of that
    symmetry, and gives back the values as the network computed them.
    The inverse symmetry undoes the move of every cell, and every
    choice of symmetries, one per example, can be the one drawn. *)
Theorem run_many_symmetries (self : t) (positions : list Position) (w : World)
    (ss : Session) (out : OutputTensors) :
  sessions w !! sess self = Some ss ->
  inference_output self = Some out ->
  let n := length positions in
  let syms := drawn_symmetries w n in
  let fed := zip_with apply_symmetry_feat syms (map extract_features positions) in
  let raw := forward (values ss) fed in
  run_many go_N Position extract_features forward self positions true w =
    (Ok (zip_with (fun s p => apply_symmetry_pi (Z.to_nat go_N)
                                                (invert_symmetry s) p)
                  syms raw.1,
         raw.2),
     after_draws n w) /\
  length syms = n /\
  (forall i pos, positions !! i = Some pos ->
     exists s, syms !! i = Some s /\
               fed !! i = Some (apply_symmetry_feat s (extract_features pos))) /\
  (forall s m i j, (i < m)%nat -> (j < m)%nat ->
     source_cell s m (source_cell (invert_symmetry s) m (i, j)) = (i, j) /\
     source_cell (invert_symmetry s) m (source_cell s m (i, j)) = (i, j)) /\
  (forall target, length target = n ->
     drawn_symmetries (with_draws (map symmetry_index target) w) n = target) /\
  run_many go_N Position extract_features forward self positions false w =
    (Ok (forward (values ss) (map extract_features positions)), w).
Proof.
  intros Hs Hout n syms fed raw.
  split; [|split; [|split; [|split; [|split]]]].
  - unfold run_many, mbind at 1. rewrite randomize_symmetries_feat_eq.
    rewrite length_map. fold n syms fed.
    unfold mbind, run_inference.
    destruct (after_draws_fields n w) as (-> & _). rewrite Hs, Hout.
    fold raw. by destruct raw.
  - apply drawn_symmetries_length.
  - intros i pos Hpos.
    assert (Hi : (i < length syms)%nat).
    { unfold syms. rewrite drawn_symmetries_length.
      by apply lookup_lt_Some in Hpos. }
    apply lookup_lt_is_Some in Hi as [s Hsym]. exists s. split; [done|].
    unfold fed. rewrite lookup_zip_with, Hsym. simpl.
    by rewrite (map_lookup_Some _ _ _ _ Hpos).
  - intros s m i j Hi Hj. by apply source_cell_inverse.
  - intros target <-. apply drawn_symmetries_any.
  - unfold run_many, mbind, ret, run_inference. rewrite Hs, Hout.
    destruct (forward (values ss) (map extract_features positions)) as [p v].
    reflexivity.
Qed.

End RunMany.

End RunManyFacts.

Module RunManyExamples.
Import symmetries DualNetwork RunManyFacts.

Lemma run_many_symmetries_witness :
  sessions tiny_world !! 0%nat = Some (mkSession 1 ∅) /\
  inference_output tiny_engine = Some (mkOutput [] [] []) /\
  (run_many 2 nat tiny_features tiny_forward tiny_engine [7; 8]%nat true tiny_world).1
  = Ok ([[3; 1; 4; 2; 0]; [2; 4; 1; 3; 0]]%Q, [0.5; 0.5]%Q).
Proof.
  split; [reflexivity|]. split; [reflexivity|].
  rewrite (proj1 (run_many_symmetries 2 nat tiny_features tiny_forward
                    tiny_engine [7; 8]%nat tiny_world (mkSession 1 ∅)
                    (mkOutput [] [] []) eq_refl eq_refl)).
  vm_compute. reflexivity.
Defined.

End RunManyExamples.

Module BootstrapTheorems.
Import DualNetworkTrainer BootstrapFacts.

Lemma init_Ok (go_N : Z) (save_file : option string)
    (overrides : gmap string pyval) (w w1 : World) (self : t) :
  __init__ go_N save_file overrides w = (Ok self, w1) ->
  let g := fresh ({[0%nat]} ∪ dom (graphs w)) in
  let s := fresh (dom (sessions w)) in
  exists hparams,
    get_default_hyperparams go_N overrides = Ok hparams /\
    self = mk hparams save_file s /\
    w1 = set_sessions (insert s (mkSession g ∅))
           (set_graphs (insert g empty_graph) w).
Proof.
  unfold __init__, mbind at 1, lift.
  destruct (get_default_hyperparams go_N overrides) as [hp|e]; [|discriminate].
  unfold mbind, tf_Graph, tf_Session, ret. intros [= <- <-]. eauto.
Qed.

(** C10.  A trainer's constructor opens a new session on a new, empty
    graph, with no variable initialised.  [bootstrap] then works in a
    session and on a graph of its own: whether it returns or raises, it
    leaves every session and every graph that existed before the call as
    they were, the trainer's among them, so the trainer's graph is still
    empty and its variables still uninitialised.  When it returns, the
    checkpoint has been written, from that other session. *)
Theorem bootstrap_leaves_trainer_untouched (go_N NEW_FEATURES_PLANES : Z)
    (file : option string) (overrides : gmap string pyval)
    (w w1 : World) (self : t) :
  __init__ go_N file overrides w = (Ok self, w1) ->
  exists g,
    sessions w !! sess self = None /\ graphs w !! g = None /\ g <> 0%nat /\
    sessions w1 !! sess self = Some (mkSession g ∅) /\
    graphs w1 !! g = Some empty_graph /\
    forall r w2,
      bootstrap go_N NEW_FEATURES_PLANES self w1 = (r, w2) ->
      sessions w2 !! sess self = Some (mkSession g ∅) /\
      graphs w2 !! g = Some empty_graph /\
      (forall s ss, sessions w1 !! s = Some ss -> sessions w2 !! s = Some ss) /\
      (forall g' G, graphs w1 !! g' = Some G -> graphs w2 !! g' = Some G) /\
      default_graph w2 = default_graph w1 /\
      (r = Ok tt ->
       exists f s',
         file = Some f /\ s' <> sess self /\ sessions w1 !! s' = None /\
         history w2 = history w1 ++ [Initialized s'; Saved s' f] /\
         is_Some (files w2 !! (f +:+ ".index")) /\
         is_Some (files w2 !! (f +:+ ".meta"))).
Proof.
  intros Hinit. apply init_Ok in Hinit as (hp & _ & -> & ->).
  set (g := fresh ({[0%nat]} ∪ dom (graphs w))).
  set (s := fresh (dom (sessions w))).
  assert (Hfg : g ∉ ({[0%nat]} ∪ dom (graphs w) : gset nat)) by apply is_fresh.
  assert (Hfs : s ∉ dom (sessions w)) by apply is_fresh.
  exists g. simpl.
  split; [by apply not_elem_of_dom|].
  split; [apply not_elem_of_dom; set_solver|].
  split; [set_solver|].
  assert (Hs1 : (<[s := mkSession g ∅]> (sessions w)) !! s = Some (mkSession g ∅))
    by apply lookup_insert_eq.
  assert (Hg1 : (<[g := empty_graph]> (graphs w)) !! g = Some empty_graph)
    by apply lookup_insert_eq.
  split; [exact Hs1|]. split; [exact Hg1|].
  intros r w2 Hb.
  destruct (bootstrap_frame _ _ _ _ _ _ Hb) as (Hss & Hgs & _ & Hd).
  split; [by apply Hss|]. split; [by apply Hgs|].
  split; [exact Hss|]. split; [exact Hgs|]. split; [exact Hd|].
  intros ->. apply bootstrap_Ok in Hb as (f & s' & Hf & Hnone & Hh & Hi & Hm).
  exists f, s'. simpl in *. split; [done|]. split; [|done].
  intros ->. rewrite Hs1 in Hnone. discriminate.
Qed.

Lemma bootstrap_leaves_trainer_untouched_witness :
  exists self w1 g,
    __init__ 19 (Some "model"%string) ∅ empty_world = (Ok self, w1) /\
    sessions w1 !! sess self = Some (mkSession g ∅) /\
    graphs w1 !! g = Some empty_graph /\
    sessions (bootstrap 19 17 self w1).2 !! sess self = Some (mkSession g ∅) /\
    graphs (bootstrap 19 17 self w1).2 !! g = Some empty_graph.
Proof.
  set (g := fresh ({[0%nat]} ∪ dom (graphs empty_world))).
  set (s := fresh (dom (sessions empty_world))).
  assert (E : __init__ 19 (Some "model"%string) ∅ empty_world =
              (Ok (mk (<["k"%string := PInt 128]>
                       (<["fc_width"%string := PInt 256]>
                       (<["num_shared_layers"%string := PInt 19]>
                       (<["l2_strength"%string := PFloat 2e-4]>
                       (<["momentum"%string := PFloat 0.9]> ∅)))))
                      (Some "model"%string) s),
               set_sessions (insert s (mkSession g ∅))
                 (set_graphs (insert g empty_graph) empty_world))).
  { unfold __init__, mbind at 1, lift. rewrite get_default_hyperparams_19.
    reflexivity. }
  destruct (bootstrap_leaves_trainer_untouched 19 17 _ _ _ _ _ E)
    as (g' & _ & _ & _ & Hs & Hg & Hafter).
  eexists. eexists. exists g'. split; [exact E|]. split; [exact Hs|].
  split; [exact Hg|].
  destruct (bootstrap 19 17 _ _) as [r w2] eqn:Hb.
  destruct (Hafter r w2 eq_refl) as (Hs2 & Hg2 & _). split; [exact Hs2|exact Hg2].
Defined.

End BootstrapTheorems.

(** ** The trainer: the training loop *)

Lemma bbind_Ok {A B : Type} (m : Build A) (k : A -> Build B) (G G' : Graph) (b : B) :
  bbind m k G = (Ok b, G') ->
  exists a G1, m G = (Ok a, G1) /\ k a G1 = (Ok b, G').
Proof.
  unfold bbind. destruct (m G) as [[a|e] G1]; [eauto | discriminate].
Qed.

(** The momentum accumulators are appended to the graph, one per
    variable of the list. *)
Lemma momentum_slots (l : list variable) (m : Build unit) (G G1 : Graph) :
  m G = (Ok tt, G1) ->
  fold_left (fun acc v => bbind acc (fun _ =>
               add_variable (Var (var_op v +:+ "/Momentum") false (var_shape v) Zeros)))
            l m G
  = (Ok tt,
     mkGraph (variables G1 ++
              map (fun v => Var (var_op v +:+ "/Momentum") false (var_shape v) Zeros) l)
             (scopes G1)).
Proof.
  revert m G1. induction l as [|v l IH]; intros m G1 Hm; simpl.
  - rewrite Hm, app_nil_r. by destruct G1.
  - rewrite (IH _ (mkGraph (variables G1 ++
                 [Var (var_op v +:+ "/Momentum") false (var_shape v) Zeros])
                 (scopes G1))).
    + simpl. by rewrite <- app_assoc.
    + unfold bbind. rewrite Hm. reflexivity.
Qed.

(** What [train_ops] returns reads only variables of the graph it leaves
    behind. *)
Lemma train_ops_Ok (input_tensors : InputTensors) (output_tensors : OutputTensors)
    (hparams : gmap string pyval) (G G' : Graph) (train_tensors : TrainTensors) :
  train_ops input_tensors output_tensors hparams G = (Ok train_tensors, G') ->
  inputs train_tensors = input_tensors /\
  runnable train_tensors
           (map name (filter (fun v => var_trainable v = true) (variables G'))) G'.
Proof.
  unfold train_ops. intros H.
  apply bbind_Ok in H as (gs & G1 & Hgs & H).
  apply bbind_Ok in H as ([] & G2 & Hadd & H).
  apply bbind_Ok in H as (tvars & G3 & Htv & H).
  apply bbind_Ok in H as (sum & G4 & Hsum & H).
  apply bbind_Ok in H as (mom & G5 & Hmom & H).
  apply bbind_Ok in H as (tvars' & G6 & Htv' & H).
  apply bbind_Ok in H as ([] & G7 & Hslots & H).
  injection H as <- <-.
  injection Hadd as <-. injection Htv as <- <-.
  unfold blift in Hsum, Hmom. injection Hsum as Hsum <-. injection Hmom as _ <-.
  injection Htv' as <- <-.
  rewrite (momentum_slots _ (bret tt) _ _ eq_refl) in Hslots.
  injection Hslots as <-. cbn [variables scopes inputs] in *.
  split; [reflexivity|]. unfold runnable. cbn [l2_cost terms global_step variables].
  split; [|split].
  - intros x Hx. unfold add_n in Hsum.
    destruct (map name _) as [|y ys] eqn:E; [discriminate|].
    injection Hsum as <-. rewrite <- E in Hx.
    apply list_elem_of_fmap in Hx as (v & -> & Hv).
    apply list_elem_of_filter in Hv as [_ Hv].
    apply list_elem_of_filter in Hv as [_ Hv].
    exists v. split; [|done]. apply elem_of_app. by left.
  - exists (Var gs false [] Zeros). split; [|done].
    apply elem_of_app. left. apply elem_of_app. right. apply list_elem_of_here.
  - intros x Hx. apply list_elem_of_fmap in Hx as (v & -> & Hv).
    apply list_elem_of_filter in Hv as [_ Hv]. eauto.
Qed.

Lemma logging_ops_eq (G : Graph) :
  logging_ops G =
  (Ok (map name (filter (fun v => var_trainable v = true) (variables G))), G).
Proof. reflexivity. Qed.

Lemma build_eq {A : Type} (b : Build A) (w : World) :
  build b w =
  ((b (current_graph w)).1,
   set_graphs (insert (hd 0%nat (default_graph w)) (b (current_graph w)).2) w).
Proof. unfold build, current_graph. by destruct (b _). Qed.

Lemma build_Ok {A : Type} (b : Build A) (w w' : World) (a : A) :
  build b w = (Ok a, w') ->
  exists G',
    b (current_graph w) = (Ok a, G') /\
    current_graph w' = G' /\
    default_graph w' = default_graph w /\
    iterators w' = iterators w /\
    sessions w' = sessions w.
Proof.
  rewrite build_eq. destruct (b (current_graph w)) as [r G'] eqn:E.
  cbn [fst snd]. intros [= -> <-]. exists G'. split; [done|]. split; [|done].
  unfold current_graph. cbn [graphs default_graph set_graphs].
  by rewrite lookup_insert_eq.
Qed.

Lemma current_graph_build {A : Type} (b : Build A) (w : World) :
  current_graph (build b w).2 = (b (current_graph w)).2.
Proof.
  rewrite build_eq. unfold current_graph at 1. simpl. by rewrite lookup_insert_eq.
Qed.

Lemma same_runtime_refl (w : World) : same_runtime w w.
Proof. by repeat split. Qed.

Lemma same_runtime_current_graph (w w' : World) :
  same_runtime w w' -> current_graph w' = current_graph w.
Proof. intros (_ & Hg & Hd & _). unfold current_graph. by rewrite Hg, Hd. Qed.

Lemma ready_same_runtime (s g : nat) (w w' : World) :
  same_runtime w w' -> ready s g w -> ready s g w'.
Proof.
  intros Hsame (Hd & Hne & ss & Hs & Hg & Hv).
  pose proof (same_runtime_current_graph _ _ Hsame) as Hcg.
  destruct Hsame as (Hss & _ & Hdd & _).
  unfold ready. rewrite Hcg, Hdd, Hss. eauto 10.
Qed.

Lemma eval_l2_cost_Ok (c : L2Cost) (vals : gmap string tensor) :
  (forall x, x ∈ terms c -> is_Some (vals !! x)) ->
  exists q, eval_l2_cost c vals = Ok q.
Proof.
  intros H. unfold eval_l2_cost.
  assert (Hm : is_Some (mapM (fun x => vals !! x) (terms c))).
  { apply mapM_is_Some, Forall_forall. exact H. }
  destruct Hm as [ts ->]. eauto.
Qed.

Lemma collect_report (st : StatisticsCollector.t) (p v r c : Q) :
  exists summary,
    StatisticsCollector.collect (StatisticsCollector.report st p v r c) =
    Ok (summary, StatisticsCollector.__init__).
Proof.
  unfold StatisticsCollector.collect, StatisticsCollector.report. simpl.
  assert (Hlen : forall (l : list Q) (x : Q), len (l ++ [x]) <> 0).
  { intros l x. unfold len. rewrite length_app. simpl. lia. }
  rewrite !py_truediv_nonzero by apply Hlen. simpl. eauto.
Qed.

Section Loop.
Variable policy_cost_of : gmap string tensor -> Batch -> Q.
Variable value_cost_of : gmap string tensor -> Batch -> Q.
Variable apply_gradients :
  Q -> Batch -> gmap string tensor -> string -> tensor -> tensor.

(** With the pipeline empty, a run of the training tensors raises
    [OutOfRangeError] and changes nothing else. *)
Lemma run_train_exhausted (s g it : nat) (tt : TrainTensors) (w : World) :
  ready s g w ->
  source (inputs tt) = Iterator it ->
  iterators w !! it = Some [] ->
  run_train policy_cost_of value_cost_of apply_gradients s tt w =
  (Raise OutOfRangeError, set_history (fun h => h ++ [Exhausted s]) w).
Proof.
  intros (_ & _ & ss & Hs & _) Hsrc Hit. unfold run_train.
  by rewrite Hs, Hsrc, Hit.
Qed.

(** With a batch in the pipeline, a run succeeds: it takes the batch,
    keeps every variable initialised and is recorded in the history. *)
Lemma run_train_step (s g it : nat) (tt : TrainTensors) (wts : list string)
    (w : World) (b : Batch) (rest : list Batch) :
  ready s g w ->
  runnable tt wts (current_graph w) ->
  source (inputs tt) = Iterator it ->
  iterators w !! it = Some (b :: rest) ->
  exists tv w',
    run_train policy_cost_of value_cost_of apply_gradients s tt w = (Ok tv, w') /\
    ready s g w' /\
    current_graph w' = current_graph w /\
    default_graph w' = default_graph w /\
    files w' = files w /\
    iterators w' = <[it := rest]> (iterators w) /\
    history w' = history w ++ [TrainStep s].
Proof.
  intros (Hd & Hne & ss & Hs & Hg & Hv) (Hterms & (vg & Hvg & Hgs) & _) Hsrc Hit.
  unfold run_train. rewrite Hs, Hsrc, Hit.
  destruct (eval_l2_cost_Ok (l2_cost tt) (values ss)) as [l2 ->].
  { intros x Hx. destruct (Hterms x Hx) as (v & Hin & <-). by apply Hv. }
  destruct (Hv vg Hvg) as [gs Hgsv]. rewrite Hgs in Hgsv.
  destruct (values ss !! global_step tt) as [gs'|] eqn:Egs; [|discriminate].
  eexists. eexists. split; [reflexivity|].
  split; [|by repeat split].
  split; [exact Hd|]. split; [exact Hne|].
  eexists. split; [apply lookup_insert_eq|]. split; [exact Hg|].
  intros v Hin. cbn [values].
  destruct (decide (global_step tt = name v)) as [->|Hneq].
  - rewrite lookup_insert_eq. eauto.
  - rewrite lookup_insert_ne by done. rewrite map_lookup_imap.
    destruct (Hv v Hin) as [t ->]. simpl. eauto.
Qed.

(** Logging never fails once the variables are initialised, and touches
    only the log. *)
Lemma log_step_Ok (self : DualNetworkTrainer.t) (g : nat) (tt : TrainTensors)
    (wts : list string) (i : Z) (tv : fetched.t) (st : StatisticsCollector.t)
    (logger : string) (w : World) :
  ready (DualNetworkTrainer.sess self) g w ->
  runnable tt wts (current_graph w) ->
  exists st' w',
    DualNetworkTrainer.log_step self wts i tv st logger w = (Ok st', w') /\
    same_runtime w w'.
Proof.
  intros (Hd & Hne & ss & Hs & Hg & Hv) (_ & _ & Hw).
  unfold DualNetworkTrainer.log_step.
  destruct (i mod 100 =? 0); [|eexists; eexists; split; [reflexivity|by repeat split]].
  destruct (collect_report st (fetched.policy_cost tv) (fetched.value_cost tv)
              (fetched.l2_cost tv) (fetched.combined_cost tv)) as [summary Hc].
  unfold mbind at 1, lift. rewrite Hc.
  unfold mbind at 1, run_weights. rewrite Hs.
  assert (Hm : is_Some (mapM (fun x => (fun t => (x, t)) <$> values ss !! x) wts)).
  { apply mapM_is_Some, Forall_forall. intros x Hx. unfold compose.
    destruct (Hw x Hx) as (v & Hin & <-). destruct (Hv v Hin) as [t ->].
    by eexists. }
  destruct Hm as [l ->].
  eexists. eexists. split; [reflexivity|]. by repeat split.
Qed.

End Loop.

Module TrainFacts.
Import DualNetworkTrainer InitializeWeightsFacts InitializeWeightsTheorems.

(** However the weights are obtained, a successful [initialize_weights]
    leaves every variable of the default graph initialised in the
    trainer's session. *)
Lemma initialize_weights_Ok (self : t) (init_from : option string) (w w' : World) :
  initialize_weights self init_from w = (Ok tt, w') ->
  exists ss',
    sessions w' !! sess self = Some ss' /\
    graph ss' = hd 0%nat (default_graph w) /\
    (forall v, v ∈ variables (current_graph w) -> is_Some (values ss' !! name v)) /\
    current_graph w' = current_graph w /\
    default_graph w' = default_graph w /\
    iterators w' = iterators w.
Proof.
  destruct (own_checkpoint self w) eqn:Hown.
  - rewrite initialize_weights_own by done. intros H.
    apply Saver_restore_Ok in H
      as (f & vals & ss' & _ & _ & Hs & Hg & Hv & _ & _ & Hcg & Hd & Hit & _).
    exists ss'. repeat split; try done. intros v Hin.
    destruct (Hv v Hin) as [Hsome ->]. exact Hsome.
  - rewrite initialize_weights_other by done. destruct init_from as [p|]; intros H.
    + apply mbind_Ok in H as ([] & w1 & Hpr & H). injection Hpr as <-.
      apply Saver_restore_Ok in H
        as (f & vals & ss' & _ & _ & Hs & Hg & Hv & _ & _ & Hcg & Hd & Hit & _).
      exists ss'. repeat split; try done. intros v Hin.
      destruct (Hv v Hin) as [Hsome ->]. exact Hsome.
    + apply mbind_Ok in H as ([] & w1 & Hpr & H). injection Hpr as <-.
      apply initializer_run_Ok in H
        as (ss' & Hs & Hg & Hv & _ & Hcg & Hd & Hit & _).
      exists ss'. repeat split; done.
Qed.

Lemma ready_set_history (s g : nat) (f : list tf_call -> list tf_call) (w : World) :
  ready s g w -> ready s g (set_history f w).
Proof. intros H. exact H. Qed.

(** With every variable initialised, [save_weights] succeeds and writes
    the session's variables under the save location. *)
Lemma save_weights_Ok (self : t) (g : nat) (f : string) (w : World) :
  ready (sess self) g w ->
  save_file self = Some f ->
  exists w' vals ss,
    save_weights self w = (Ok tt, w') /\
    sessions w !! sess self = Some ss /\
    files w' !! (f +:+ ".index") = Some (TensorBundle vals) /\
    (forall v, v ∈ variables (current_graph w) ->
       is_Some (vals !! name v) /\ vals !! name v = values ss !! name v) /\
    is_Some (files w' !! (f +:+ ".meta")) /\
    default_graph w' = default_graph w /\
    history w' = history w ++ [Saved (sess self) f].
Proof.
  intros (Hd & Hne & ss & Hs & Hg & Hv) Hf.
  unfold save_weights, mbind at 1, sess_graph. rewrite Hs, Hg.
  unfold as_default.
  set (wp := set_default_graph (cons g) w).
  assert (Hcg : current_graph wp = current_graph w).
  { unfold current_graph, wp. simpl. by rewrite Hd. }
  unfold mbind at 1. rewrite Saver_nonempty by by rewrite Hcg.
  rewrite Hcg. unfold save. rewrite Hf. cbn [sessions set_graphs wp set_default_graph].
  rewrite Hs. cbn [saver_graph hd default_graph]. rewrite Hg, Nat.eqb_refl.
  cbn [negb saver_vars].
  destruct (lookup_all_is_Some (values ss) (variables (current_graph w)) Hv)
    as [kvs Hkvs].
  rewrite Hkvs. eexists. exists (list_to_map kvs), ss.
  split; [reflexivity|]. split; [done|]. cbn.
  split; [apply lookup_insert_eq|]. split; [|split; [|done]].
  - intros v Hin. destruct (lookup_all_Some _ _ _ Hkvs v Hin) as (t & Ht & Hl).
    rewrite Hl, Ht. eauto.
  - apply lookup_insert_is_Some'. right. rewrite lookup_insert_eq. eauto.
Qed.

End TrainFacts.

Module TrainTheorems.
Import DualNetworkTrainer TrainFacts.

Section Train.
Variable go_N : Z.
Variable NEW_FEATURES_PLANES : Z.
Variable policy_cost_of : gmap string tensor -> Batch -> Q.
Variable value_cost_of : gmap string tensor -> Batch -> Q.
Variable apply_gradients :
  Q -> Batch -> gmap string tensor -> string -> tensor -> tensor.

Lemma try_run (s : nat) (tensors : TrainTensors) (w : World) :
  try_except (mbind (run_train policy_cost_of value_cost_of apply_gradients s tensors) (fun tv => ret (Some tv)))
             OutOfRangeError (ret None) w =
  match run_train policy_cost_of value_cost_of apply_gradients s tensors w with
  | (Ok tv, w') => (Ok (Some tv), w')
  | (Raise e, w') =>
      if decide (e = OutOfRangeError) then (Ok None, w') else (Raise e, w')
  end.
Proof.
  unfold try_except, mbind. by destruct (run_train _ _ _ s tensors w) as [[tv|e] w'].
Qed.

(** The loop runs one step per batch until the indices or the batches
    run out, and stops at the run that finds the pipeline empty. *)
Lemma train_loop_spec (self : t) (g it : nat) (tensors : TrainTensors)
    (wts : list string) :
  source (inputs tensors) = Iterator it ->
  forall (indices : list Z) (bs : list Batch)
         (logging : option (StatisticsCollector.t * string)) (w : World),
    ready (sess self) g w ->
    runnable tensors wts (current_graph w) ->
    iterators w !! it = Some bs ->
    exists w',
      train_loop policy_cost_of value_cost_of apply_gradients
                 self tensors wts indices logging w = (Ok tt, w') /\
      ready (sess self) g w' /\
      current_graph w' = current_graph w /\
      default_graph w' = default_graph w /\
      files w' = files w /\
      history w' =
        history w ++
        replicate (length bs `min` length indices) (TrainStep (sess self)) ++
        (if (length bs <? length indices)%nat
         then [Exhausted (sess self)] else []).
Proof.
  intros Hsrc. induction indices as [|i indices IH]; intros bs logging w Hr Hrun Hit.
  - exists w. rewrite Nat.min_0_r. simpl. rewrite app_nil_r.
    split; [reflexivity|]. split; [exact Hr|]. by repeat split.
  - simpl train_loop. unfold mbind at 1.
    rewrite try_run. destruct bs as [|b bs].
    + rewrite (run_train_exhausted _ _ _ _ g it _ _ Hr Hsrc Hit).
      simpl. eexists. split; [reflexivity|]. split; [exact Hr|]. by repeat split.
    + destruct (run_train_step policy_cost_of value_cost_of apply_gradients
                  _ g it tensors wts w b bs Hr Hrun Hsrc Hit)
        as (tv & w1 & Hstep & Hr1 & Hcg1 & Hd1 & Hf1 & Hit1 & Hh1).
      rewrite Hstep. unfold mbind at 1.
      assert (Hlog : exists logging' w2,
        (match logging with
         | Some (training_stats, logger) =>
             mbind (log_step self wts i tv training_stats logger)
                   (fun training_stats => ret (Some (training_stats, logger)))
         | None => ret None
         end) w1 = (Ok logging', w2) /\ same_runtime w1 w2).
      { destruct logging as [[st logger]|].
        - destruct (log_step_Ok self g tensors wts i tv st logger w1 Hr1)
            as (st' & w2 & Hl & Hsame); [by rewrite Hcg1|].
          unfold mbind. rewrite Hl. eauto.
        - eexists. eexists. split; [reflexivity|apply same_runtime_refl]. }
      destruct Hlog as (logging' & w2 & -> & Hsame).
      pose proof (same_runtime_current_graph _ _ Hsame) as Hcg2.
      destruct (IH bs logging' w2) as (w' & Hloop & Hr' & Hcg' & Hd' & Hf' & Hh').
      * by apply (ready_same_runtime _ _ w1).
      * by rewrite Hcg2, Hcg1.
      * destruct Hsame as (_ & _ & _ & -> & _). rewrite Hit1.
        apply lookup_insert_eq.
      * exists w'. split; [exact Hloop|]. split; [exact Hr'|].
        destruct Hsame as (_ & _ & Hd2 & _ & Hf2 & Hh2).
        split; [congruence|]. split; [congruence|]. split; [congruence|].
        rewrite Hh', Hh2, Hh1. simpl. by rewrite <- app_assoc.
Qed.

(** When the part of [train] before the loop succeeds, the session is
    ready to run the tensors it returns, and the pipeline holds the
    records. *)
Lemma train_setup_Ok (self : t) (tf_records : list Batch)
    (init_from logdir : option string) (w w1 : World) (ctx : context) :
  train_setup go_N NEW_FEATURES_PLANES self tf_records init_from logdir w
    = (Ok ctx, w1) ->
  ready (sess self) (hd 0%nat (default_graph w)) w1 /\
  runnable (ctx_train_tensors ctx) (ctx_weight_tensors ctx) (current_graph w1) /\
  default_graph w1 = default_graph w /\
  exists it, source (inputs (ctx_train_tensors ctx)) = Iterator it /\
             iterators w1 !! it = Some tf_records.
Proof.
  unfold train_setup. intros H.
  apply mbind_Ok in H as (inp & wa & Ha & H).
  apply mbind_Ok in H as (out & wb & Hb & H).
  apply mbind_Ok in H as (tensors & wc & Hc & H).
  apply mbind_Ok in H as (wts & wd & Hd & H).
  apply mbind_Ok in H as ([] & we & He & H).
  apply mbind_Ok in H as (logging & wf & Hf & H).
  injection H as <- <-. cbn [ctx_train_tensors ctx_weight_tensors].
  (* the input pipeline *)
  set (it := fresh (dom (iterators w))).
  assert (Hsrc : source inp = Iterator it /\
                 iterators wa !! it = Some tf_records /\
                 default_graph wa = default_graph w).
  { unfold get_input_tensors in Ha. injection Ha as <- <-.
    split; [done|]. split; [apply lookup_insert_eq|done]. }
  destruct Hsrc as (Hsrc & Hita & Hda).
  (* the graph after [train_ops] *)
  apply build_Ok in Hb as (Gb & _ & _ & Hdb & Hitb & _).
  apply build_Ok in Hc as (G' & Hops & Hcgc & Hdc & Hitc & _).
  apply train_ops_Ok in Hops as (Hinp & Hrun).
  apply build_Ok in Hd as (Gd & Hlog & Hcgd & Hdd & Hitd & _).
  rewrite logging_ops_eq in Hlog. injection Hlog as <- <-.
  rewrite Hcgc in *.
  assert (Hdd' : default_graph wd = default_graph w) by congruence.
  assert (Hitd' : iterators wd !! it = Some tf_records) by congruence.
  clear Hdd Hitd. rename Hdd' into Hdd. rename Hitd' into Hitd.
  apply initialize_weights_Ok in He
    as (ss' & Hs & Hg & Hv & Hcge & Hde & Hite).
  assert (Hsame : same_runtime we wf).
  { destruct logdir as [d|].
    - apply mbind_Ok in Hf as (g' & w2 & Hsg & Hf).
      pose proof (keeps_sess_graph (fun w => w) (sess self) we) as Hk.
      rewrite Hsg in Hk. simpl in Hk. subst w2.
      apply mbind_Ok in Hf as (logger & w3 & Hfw & Hf).
      injection Hfw as _ <-. injection Hf as _ <-. by repeat split.
    - injection Hf as _ <-. apply same_runtime_refl. }
  pose proof (same_runtime_current_graph _ _ Hsame) as Hcgf.
  assert (Hready : ready (sess self) (hd 0%nat (default_graph w)) we).
  { split; [by rewrite Hde, Hdd|]. rewrite Hcge. split.
    - rewrite Hcgd. destruct Hrun as (_ & (v & Hin & _) & _).
      intros E. rewrite E in Hin. by apply elem_of_nil in Hin.
    - exists ss'. rewrite <- Hdd. done. }
  split; [by apply (ready_same_runtime _ _ we)|].
  split; [by rewrite Hcgf, Hcge, Hcgd|].
  destruct Hsame as (_ & _ & Hdf & -> & _).
  split; [congruence|].
  exists it. split; [by rewrite Hinp|]. by rewrite Hite.
Qed.

Lemma range_length (n : Z) : length (range n) = Z.to_nat n.
Proof. unfold range. by rewrite length_map, length_seq. Qed.


End Train.

End TrainTheorems.

Module TrainExamples.
Import DualNetworkTrainer TrainTheorems.


End TrainExamples.

(** * Further properties

    ** Rounding to a power of two: domain, fixed points, order *)

Section RoundPowerOfTwoMore.
Local Open Scope R_scope.

Lemma Q2R_nonpos (n : Q) : (n <= 0)%Q -> Q2R n <= 0.
Proof. intros H. apply Qle_Rle in H. by rewrite RMicromega.Q2R_0 in H. Qed.

Lemma Q2R_pow_2 (z : Z) : Q2R (2 ^ z) = powerRZ 2 z.
Proof.
  rewrite RMicromega.Q2RpowerRZ by (left; discriminate).
  f_equal. unfold Q2R. simpl. lra.
Qed.

Lemma py_round_IZR (e : Z) : py_round (IZR e) = e.
Proof. apply py_round_unique. lra. Qed.

Lemma round_power_of_two_real (n : Q) :
  0 < Q2R n -> _round_power_of_two n = py_pow 2 (py_round (log2 (Q2R n))).
Proof. intros Hn. unfold _round_power_of_two. by rewrite math_log_2. Qed.

Lemma round_power_of_two_pos (n : Q) (v : pyval) :
  _round_power_of_two n = Ok v -> 0 < Q2R n.
Proof.
  intros H. destruct (Rle_dec (Q2R n) 0) as [Hle|Hgt]; [|lra].
  unfold _round_power_of_two in H. by rewrite math_log_domain in H.
Qed.

(** The float a number stands for is the real it stands for. *)
Lemma float_of_power (e : Z) (v : pyval) :
  py_pow 2 e = Ok v -> exists q, float_of v = Ok q /\ Q2R q = powerRZ 2 e.
Proof.
  intros Hv. destruct (py_pow_2 e) as (v' & Hv' & HR & Hform).
  rewrite Hv in Hv'. injection Hv' as <-.
  destruct Hform as [->|(_ & q & ->)]; simpl in *.
  - eexists. split; [reflexivity|]. by rewrite Q2R_inject_Z.
  - eexists. split; [reflexivity|]. exact HR.
Qed.

(** X1.  [_round_power_of_two] has no answer for zero or a negative
    number: the logarithm is outside its domain and the call raises
    [ValueError]. *)
Theorem round_power_of_two_domain (n : Q) :
  (n <= 0)%Q -> _round_power_of_two n = Raise ValueError.
Proof.
  intros Hn. unfold _round_power_of_two.
  by rewrite math_log_domain by by apply Q2R_nonpos.
Qed.

Lemma round_power_of_two_domain_witness :
  _round_power_of_two 0 = Raise ValueError /\
  _round_power_of_two (-3) = Raise ValueError.
Proof.
  split; apply round_power_of_two_domain; discriminate.
Defined.

(** X2.  A power of two, of either sign of exponent, is rounded to
    itself; so the rounding is idempotent: rounding a result once more
    gives the same result. *)
Theorem round_power_of_two_idempotent :
  (forall e : Z, _round_power_of_two (2 ^ e)%Q = py_pow 2 e) /\
  (forall (n : Q) (v : pyval),
      _round_power_of_two n = Ok v ->
      exists q, float_of v = Ok q /\ _round_power_of_two q = Ok v).
Proof.
  assert (Hfix : forall q e, Q2R q = powerRZ 2 e ->
                             _round_power_of_two q = py_pow 2 e).
  { intros q e Hq. rewrite round_power_of_two_real.
    - by rewrite Hq, log2_powerRZ, py_round_IZR.
    - rewrite Hq. apply powerRZ_lt. lra. }
  split.
  - intros e. apply Hfix, Q2R_pow_2.
  - intros n v Hv. pose proof (round_power_of_two_pos n v Hv) as Hn.
    rewrite round_power_of_two_real in Hv by done.
    destruct (float_of_power _ _ Hv) as (q & Hq & HR).
    exists q. split; [done|]. by rewrite (Hfix q _ HR).
Qed.

Lemma round_power_of_two_idempotent_witness :
  _round_power_of_two 84 = Ok (PInt 64) /\
  exists q, float_of (PInt 64) = Ok q /\ _round_power_of_two q = Ok (PInt 64).
Proof.
  split; [apply round_power_of_two_84|].
  apply (proj2 round_power_of_two_idempotent 84%Q). apply round_power_of_two_84.
Defined.

Lemma Rabs_bounds (x b : R) : Rabs x <= b -> - b <= x <= b.
Proof. unfold Rabs. destruct (Rcase_abs x); lra. Qed.

Lemma log2_le (x y : R) : 0 < x -> x <= y -> log2 x <= log2 y.
Proof.
  intros Hx Hxy. pose proof ln_2_pos. unfold log2.
  apply Rmult_le_compat_r; [left; by apply Rinv_0_lt_compat|].
  destruct Hxy as [Hlt| ->]; [left; by apply ln_increasing | right; reflexivity].
Qed.

(** [round] keeps the order. *)
Lemma py_round_le (x y : R) : x <= y -> (py_round x <= py_round y)%Z.
Proof.
  intros Hxy. destruct (Z_le_gt_dec (py_round x) (py_round y)) as [|Hgt]; [done|].
  pose proof (py_round_close x) as Hx. pose proof (py_round_close y) as Hy.
  apply Rabs_bounds in Hx, Hy.
  assert (H1 : IZR (py_round y) + 1 <= IZR (py_round x)).
  { rewrite <- plus_IZR. apply IZR_le. lia. }
  assert (x = y) by lra. subst y. lia.
Qed.

Lemma powerRZ_2_le (a b : Z) : (a <= b)%Z -> powerRZ 2 a <= powerRZ 2 b.
Proof.
  intros Hab. rewrite !powerRZ_Rpower by lra.
  apply Rle_Rpower; [lra|]. by apply IZR_le.
Qed.

(** X3.  The rounding keeps the order: a larger number is never rounded
    to a smaller power of two. *)
Theorem round_power_of_two_monotone (n m : Q) :
  (0 < n)%Q -> (n <= m)%Q ->
  exists v u,
    _round_power_of_two n = Ok v /\ _round_power_of_two m = Ok u /\
    to_R v <= to_R u.
Proof.
  intros Hn Hnm. pose proof (Q2R_pos n Hn) as Hx.
  assert (Hy : Q2R n <= Q2R m) by by apply Qle_Rle.
  rewrite !round_power_of_two_real by lra.
  destruct (py_pow_2 (py_round (log2 (Q2R n)))) as (v & -> & Hv & _).
  destruct (py_pow_2 (py_round (log2 (Q2R m)))) as (u & -> & Hu & _).
  exists v, u. split; [done|]. split; [done|]. rewrite Hv, Hu.
  apply powerRZ_2_le, py_round_le, log2_le; lra.
Qed.

Lemma round_power_of_two_monotone_witness :
  exists v u,
    _round_power_of_two 84 = Ok v /\ _round_power_of_two 120 = Ok u /\
    to_R v <= to_R u.
Proof. apply (round_power_of_two_monotone 84%Q 120%Q); [reflexivity|discriminate]. Defined.

Lemma log2_sign (n : Q) :
  (0 < n)%Q ->
  ((1 # 2 < n * n)%Q -> - (1 / 2) < log2 (Q2R n)) /\
  ((n * n < 1 # 2)%Q -> log2 (Q2R n) < - (1 / 2)).
Proof.
  intros Hn. pose proof (Q2R_pos n Hn) as Hx. pose proof ln_2_pos as H2.
  assert (Hhalf : Q2R (1 # 2) = / 2) by (unfold Q2R; simpl; lra).
  assert (Hln : ln (/ 2) = - ln 2) by (apply ln_Rinv; lra).
  assert (Hsq : ln (Q2R n * Q2R n) = 2 * ln (Q2R n)) by (rewrite ln_mult by done; lra).
  assert (Hdiv : log2 (Q2R n) * ln 2 = ln (Q2R n)) by (unfold log2; field; lra).
  split; intros H; apply Qlt_Rlt in H; rewrite Q2R_mult, Hhalf in H.
  - apply ln_increasing in H; [|lra]. rewrite Hln, Hsq in H.
    apply (Rmult_lt_reg_r (ln 2)); [done|]. lra.
  - apply ln_increasing in H; [|nra]. rewrite Hln, Hsq in H.
    apply (Rmult_lt_reg_r (ln 2)); [done|]. lra.
Qed.

Lemma round_power_of_two_large (n : Q) :
  (0 < n)%Q -> (1 # 2 < n * n)%Q ->
  exists e, (0 <= e)%Z /\ _round_power_of_two n = Ok (PInt (2 ^ e)).
Proof.
  intros Hn H. pose proof (Q2R_pos n Hn) as Hx.
  destruct (log2_sign n Hn) as [Hhi _]. specialize (Hhi H).
  pose proof (py_round_close (log2 (Q2R n))) as Hc. apply Rabs_bounds in Hc.
  rewrite round_power_of_two_real by done.
  set (e := py_round (log2 (Q2R n))) in *. exists e.
  assert (He : (0 <= e)%Z).
  { assert (-1 < e)%Z by (apply lt_IZR; lra). lia. }
  split; [done|]. unfold py_pow. by destruct (Z.leb_spec 0 e); [|lia].
Qed.

Lemma round_power_of_two_small (n : Q) :
  (0 < n)%Q -> (n * n < 1 # 2)%Q ->
  exists e, (e < 0)%Z /\
            _round_power_of_two n = Ok (PFloat (/ inject_Z (2 ^ (- e)))).
Proof.
  intros Hn H. pose proof (Q2R_pos n Hn) as Hx.
  destruct (log2_sign n Hn) as [_ Hlo]. specialize (Hlo H).
  pose proof (py_round_close (log2 (Q2R n))) as Hc. apply Rabs_bounds in Hc.
  rewrite round_power_of_two_real by done.
  set (e := py_round (log2 (Q2R n))) in *. exists e.
  assert (He : (e < 0)%Z) by (apply lt_IZR; lra).
  split; [done|]. unfold py_pow. by destruct (Z.leb_spec 0 e); [lia|].
Qed.

(** X4.  For a positive number, the result is a Python integer when the
    square of the number exceeds one half, so for every number from one
    on; when the square is below one half the exponent is negative and
    the result is a float, the inverse of a power of two. *)
Theorem round_power_of_two_int (n : Q) :
  (0 < n)%Q ->
  ((1 # 2 < n * n)%Q ->
     exists e, (0 <= e)%Z /\ _round_power_of_two n = Ok (PInt (2 ^ e))) /\
  ((n * n < 1 # 2)%Q ->
     exists e, (e < 0)%Z /\
               _round_power_of_two n = Ok (PFloat (/ inject_Z (2 ^ (- e))))).
Proof.
  intros Hn. split.
  - by apply round_power_of_two_large.
  - by apply round_power_of_two_small.
Qed.

Lemma round_power_of_two_int_witness :
  (exists e, (0 <= e)%Z /\ _round_power_of_two 1 = Ok (PInt (2 ^ e))) /\
  (exists e, (e < 0)%Z /\
             _round_power_of_two (1 # 3) = Ok (PFloat (/ inject_Z (2 ^ (- e))))).
Proof.
  split.
  - apply (proj1 (round_power_of_two_int 1%Q eq_refl)). reflexivity.
  - apply (proj2 (round_power_of_two_int (1 # 3) eq_refl)). reflexivity.
Defined.

End RoundPowerOfTwoMore.

(** ** The hyperparameter resolver: failure, idempotence, integer widths *)

Section HyperparamsMore.

Lemma get_default_hyperparams_Ok (go_N : Z) (overrides : gmap string pyval) :
  go_N <> 0 ->
  exists k fc_width,
    _round_power_of_two (inject_Z (go_N ^ 2) / 3) = Ok k /\
    py_mul_int 2 k = Ok fc_width /\
    get_default_hyperparams go_N overrides =
    Ok (overrides ∪
        <["k"%string := k]>
        (<["fc_width"%string := fc_width]>
        (<["num_shared_layers"%string := PInt go_N]>
        (<["l2_strength"%string := PFloat 2e-4]>
        (<["momentum"%string := PFloat 0.9]> ∅))))).
Proof.
  intros HN. pose proof (board_cells_pos go_N HN) as Hpos.
  pose proof (round_power_of_two_eq _ Hpos) as Heq.
  destruct (py_pow_2 (py_round (log2 (Q2R (inject_Z (go_N ^ 2) / 3)))))
    as (k & Hk & HR & Hform).
  rewrite Hk in Heq.
  destruct (py_mul_int_2 k _ HR Hform) as (fc_width & Hfc & _).
  exists k, fc_width. split; [done|]. split; [done|].
  unfold get_default_hyperparams. rewrite Heq. simpl. by rewrite Hfc.
Qed.

(** X5.  The resolver raises exactly when the board dimension is zero,
    and then it raises [ValueError], from the logarithm of zero.  No
    override prevents this, not even one that supplies [k]: the default
    width is computed before the overrides are looked at. *)
Theorem get_default_hyperparams_fails_iff (go_N : Z)
    (overrides : gmap string pyval) (e : exn) :
  get_default_hyperparams go_N overrides = Raise e <->
  go_N = 0 /\ e = ValueError.
Proof.
  split.
  - intros H. destruct (decide (go_N = 0)) as [->|HN].
    + rewrite get_default_hyperparams_0 in H. by injection H as <-.
    + destruct (get_default_hyperparams_Ok go_N overrides HN)
        as (k & fc & _ & _ & Hok).
      rewrite Hok in H. discriminate.
  - intros [-> ->]. apply get_default_hyperparams_0.
Qed.

Lemma get_default_hyperparams_fails_iff_witness :
  get_default_hyperparams 0 {[ "k"%string := PInt 32 ]} = Raise ValueError.
Proof.
  apply (get_default_hyperparams_fails_iff 0 {[ "k"%string := PInt 32 ]}).
  split; reflexivity.
Defined.

(** X6.  Resolving is idempotent: a resolved mapping passed again as the
    overrides comes back as it is. *)
Theorem get_default_hyperparams_idempotent (go_N : Z)
    (overrides hparams : gmap string pyval) :
  get_default_hyperparams go_N overrides = Ok hparams ->
  get_default_hyperparams go_N hparams = Ok hparams.
Proof.
  intros H. destruct (decide (go_N = 0)) as [->|HN].
  { by rewrite get_default_hyperparams_0 in H. }
  destruct (get_default_hyperparams_Ok go_N overrides HN)
    as (k & fc & Hk & Hfc & Hok).
  rewrite Hok in H. injection H as <-.
  unfold get_default_hyperparams. rewrite Hk. simpl. rewrite Hfc. simpl.
  by rewrite <- (assoc_L (∪)), (idemp_L (∪)).
Qed.

Lemma get_default_hyperparams_idempotent_witness :
  exists hparams,
    get_default_hyperparams 9 {[ "k"%string := PInt 1 ]} = Ok hparams /\
    get_default_hyperparams 9 hparams = Ok hparams.
Proof.
  eexists. split; [apply get_default_hyperparams_9|].
  apply (get_default_hyperparams_idempotent 9 {[ "k"%string := PInt 1 ]}).
  apply get_default_hyperparams_9.
Defined.

Lemma board_cells_large (go_N : Z) :
  2 <= Z.abs go_N ->
  (1 # 2 < (inject_Z (go_N ^ 2) / 3) * (inject_Z (go_N ^ 2) / 3))%Q.
Proof.
  intros HN. assert (4 <= go_N ^ 2) by nia.
  unfold Qlt, Qdiv, Qmult, Qinv, inject_Z; simpl. nia.
Qed.

(** X7.  On a board of dimension two or more the default widths are
    Python integers: [k] is a power of two, at least one, and
    [fc_width] is twice [k].  On a board of one cell they are the floats
    0.25 and 0.5. *)
Theorem default_widths_are_integers (go_N : Z) :
  (2 <= Z.abs go_N ->
   exists e hparams,
     0 <= e /\
     get_default_hyperparams go_N ∅ = Ok hparams /\
     hparams !! "k"%string = Some (PInt (2 ^ e)) /\
     hparams !! "fc_width"%string = Some (PInt (2 * 2 ^ e))) /\
  (Z.abs go_N = 1 ->
   exists hparams,
     get_default_hyperparams go_N ∅ = Ok hparams /\
     hparams !! "k"%string = Some (PFloat (/ 4)) /\
     hparams !! "fc_width"%string = Some (PFloat (2 * / 4))).
Proof.
  split.
  - intros HN.
    destruct (round_power_of_two_large (inject_Z (go_N ^ 2) / 3))
      as (e & He & Hk).
    { apply board_cells_pos. lia. }
    { by apply board_cells_large. }
    exists e. eexists. split; [done|]. unfold get_default_hyperparams.
    rewrite Hk. simpl. split; [reflexivity|].
    rewrite (left_id_L ∅ (∪)). by simplify_map_eq.
  - intros HN.
    assert (Hsq : go_N ^ 2 = 1 ^ 2) by nia.
    eexists. unfold get_default_hyperparams. rewrite Hsq, round_power_of_two_1.
    simpl. split; [reflexivity|].
    rewrite (left_id_L ∅ (∪)). by simplify_map_eq.
Qed.

Lemma default_widths_are_integers_witness :
  (exists e hparams,
     0 <= e /\
     get_default_hyperparams 19 ∅ = Ok hparams /\
     hparams !! "k"%string = Some (PInt (2 ^ e)) /\
     hparams !! "fc_width"%string = Some (PInt (2 * 2 ^ e))) /\
  (exists hparams,
     get_default_hyperparams (-1) ∅ = Ok hparams /\
     hparams !! "k"%string = Some (PFloat (/ 4)) /\
     hparams !! "fc_width"%string = Some (PFloat (2 * / 4))).
Proof.
  split.
  - apply (proj1 (default_widths_are_integers 19)). simpl. lia.
  - apply (proj2 (default_widths_are_integers (-1))). reflexivity.
Defined.

End HyperparamsMore.

(** ** The network: what [dual_net] declares *)

Section Builders.

Lemma grows_ret {A : Type} (a : A) : grows (bret a).
Proof. by intros G. Qed.

Lemma grows_blift {A : Type} (r : result A) : grows (blift r).
Proof. by intros G. Qed.

Lemma grows_bind {A B : Type} (m : Build A) (k : A -> Build B) :
  grows m -> (forall a, grows (k a)) -> grows (bbind m k).
Proof.
  intros Hm Hk G. unfold bbind. specialize (Hm G).
  destruct (m G) as [[a|e] G1]; simpl in *; [|exact Hm].
  etransitivity; [exact Hm|]. apply Hk.
Qed.

Lemma grows_unique_name (base : string) : grows (unique_name base).
Proof. by intros G. Qed.

Lemma grows_add_variable (v : variable) : grows (add_variable v).
Proof. intros G. by apply prefix_app_r. Qed.

Lemma grows_trainable_variables : grows trainable_variables.
Proof. by intros G. Qed.

Lemma grows_fold {A B : Type} (f : A -> Build A) (l : list B) (acc : Build A) :
  grows acc -> (forall a, grows (f a)) ->
  grows (fold_left (fun acc _ => bbind acc f) l acc).
Proof.
  revert acc. induction l as [|b l IH]; intros acc Hacc Hf; simpl; [exact Hacc|].
  apply IH; [|exact Hf]. by apply grows_bind.
Qed.

Lemma gives_ret {A : Type} (a : A) : gives 0 a (bret a).
Proof. intros G. exists G. split; [reflexivity | lia]. Qed.

Lemma gives_weaken {A : Type} (n n' : nat) (a : A) (m : Build A) :
  gives n a m -> n = n' -> gives n' a m.
Proof. by intros H <-. Qed.

Lemma gives_bind {A B : Type} (i j : nat) (a : A) (b : B) (m : Build A)
    (k : A -> Build B) :
  gives i a m -> gives j b (k a) -> gives (i + j) b (bbind m k).
Proof.
  intros Hm Hk G. destruct (Hm G) as (G1 & Hm1 & Hl1).
  destruct (Hk G1) as (G2 & Hk2 & Hl2).
  exists G2. unfold bbind. rewrite Hm1. split; [exact Hk2 | lia].
Qed.

Lemma gives_blift {A : Type} (r : result A) (a : A) :
  r = Ok a -> gives 0 a (blift r).
Proof. intros ->. intros G. exists G. split; [reflexivity | lia]. Qed.

(** A loop whose body gives back the value it is given. *)
Lemma gives_fold {A B : Type} (i j : nat) (a : A) (f : A -> Build A)
    (l : list B) (acc : Build A) :
  gives i a acc -> gives j a (f a) ->
  gives (i + length l * j) a (fold_left (fun acc _ => bbind acc f) l acc).
Proof.
  revert i acc. induction l as [|b l IH]; intros i acc Hacc Hf; simpl.
  - eapply gives_weaken; [exact Hacc | lia].
  - eapply gives_weaken;
      [apply (IH (i + j)%nat); [by eapply gives_bind | exact Hf]|].
    lia.
Qed.

Lemma alike_refl {A : Type} (m : Build A) : builds_alike eq m m.
Proof. intros G. split; [reflexivity|]. by destruct (m G).1. Qed.

Lemma alike_ret {A : Type} (R : A -> A -> Prop) (a a' : A) :
  R a a' -> builds_alike R (bret a) (bret a').
Proof. intros H G. by split. Qed.

Lemma alike_bind {A B : Type} (R : A -> A -> Prop) (S : B -> B -> Prop)
    (m m' : Build A) (k k' : A -> Build B) :
  builds_alike R m m' ->
  (forall a a', R a a' -> builds_alike S (k a) (k' a')) ->
  builds_alike S (bbind m k) (bbind m' k').
Proof.
  intros Hm Hk G. unfold bbind. destruct (Hm G) as [HG Hr].
  destruct (m G) as [[a|e] G1], (m' G) as [[a'|e'] G1']; simpl in *;
    try contradiction; subst G1'.
  - by apply Hk.
  - by subst e'.
Qed.

Lemma alike_fold {A B : Type} (R : A -> A -> Prop) (f f' : A -> Build A)
    (l : list B) (acc acc' : Build A) :
  builds_alike R acc acc' ->
  (forall a a', R a a' -> builds_alike R (f a) (f' a')) ->
  builds_alike R (fold_left (fun acc _ => bbind acc f) l acc)
                 (fold_left (fun acc _ => bbind acc f') l acc').
Proof.
  revert acc acc'. induction l as [|b l IH]; intros acc acc' Hacc Hf; simpl.
  - exact Hacc.
  - apply IH; [|exact Hf]. by apply (alike_bind R).
Qed.

Lemma alike_weaken {A : Type} (R S : A -> A -> Prop) (m m' : Build A) :
  builds_alike R m m' -> (forall a a', R a a' -> S a a') -> builds_alike S m m'.
Proof.
  intros H HRS G. destruct (H G) as [HG Hr]. split; [exact HG|].
  destruct (m G).1, (m' G).1; auto.
Qed.

End Builders.

(** The layers: each returns, declares a fixed number of variables, and
    reads of its input only the number of channels. *)
Section Layers.

Lemma channels_snoc (s : shape) (c : Z) : channels (s ++ [c]) = c.
Proof. unfold channels. apply last_last. Qed.

Lemma grows_conv2d (inputs : shape) (filters : Z) (ks : Z * Z) :
  grows (layers.conv2d inputs filters ks).
Proof.
  unfold layers.conv2d.
  apply grows_bind; [apply grows_unique_name|]. intros scope.
  destruct (filters <? 0); [by intros G|].
  apply grows_bind; [apply grows_add_variable|]. intros _.
  apply grows_bind; [apply grows_add_variable|]. intros _. apply grows_ret.
Qed.

Lemma grows_batch_normalization (inputs : shape) (center scale training : bool) :
  grows (layers.batch_normalization inputs center scale training).
Proof.
  unfold layers.batch_normalization.
  apply grows_bind; [apply grows_unique_name|]. intros scope.
  apply grows_bind.
  { destruct scale; [apply grows_add_variable | apply grows_ret]. }
  intros _. apply grows_bind.
  { destruct center; [apply grows_add_variable | apply grows_ret]. }
  intros _. apply grows_bind; [apply grows_add_variable|]. intros _.
  apply grows_bind; [apply grows_add_variable|]. intros _. apply grows_ret.
Qed.

Lemma grows_dense (inputs : shape) (units : Z) : grows (layers.dense inputs units).
Proof.
  unfold layers.dense.
  apply grows_bind; [apply grows_unique_name|]. intros scope.
  destruct (units <? 0); [by intros G|].
  apply grows_bind; [apply grows_add_variable|]. intros _.
  apply grows_bind; [apply grows_add_variable|]. intros _. apply grows_ret.
Qed.

(** With a size that is not negative, a layer returns, and its output
    has the shape of its input with the last dimension replaced. *)
Lemma gives_conv2d (inputs : shape) (filters : Z) (ks : Z * Z) :
  0 <= filters ->
  gives 2 (removelast inputs ++ [filters]) (layers.conv2d inputs filters ks).
Proof.
  intros Hf G. unfold layers.conv2d, bbind, unique_name.
  destruct (Z.ltb_spec filters 0) as [?|_]; [lia|].
  eexists. split; [reflexivity|]. simpl.
  rewrite !length_app. simpl. lia.
Qed.

Lemma gives_batch_normalization (inputs : shape) (center scale training : bool) :
  gives (2 + Nat.b2n scale + Nat.b2n center) inputs
        (layers.batch_normalization inputs center scale training).
Proof.
  intros G. destruct scale, center; (eexists; split; [reflexivity|]);
    simpl; rewrite !length_app; simpl; lia.
Qed.

Lemma gives_dense (inputs : shape) (units : Z) :
  0 <= units ->
  gives 2 (removelast inputs ++ [units]) (layers.dense inputs units).
Proof.
  intros Hu G. unfold layers.dense, bbind, unique_name.
  destruct (Z.ltb_spec units 0) as [?|_]; [lia|].
  eexists. split; [reflexivity|]. simpl.
  rewrite !length_app. simpl. lia.
Qed.

Lemma conv2d_Ok (s : shape) (filters : Z) (ks : Z * Z) (G G' : Graph) (o : shape) :
  layers.conv2d s filters ks G = (Ok o, G') ->
  0 <= filters /\ o = removelast s ++ [filters].
Proof.
  unfold layers.conv2d, bbind, unique_name, add_variable, bret, braise.
  destruct (Z.ltb_spec filters 0); [discriminate|]. intros [= <- _]. by split.
Qed.

Lemma dense_Ok (s : shape) (units : Z) (G G' : Graph) (o : shape) :
  layers.dense s units G = (Ok o, G') ->
  0 <= units /\ o = removelast s ++ [units].
Proof.
  unfold layers.dense, bbind, unique_name, add_variable, bret, braise.
  destruct (Z.ltb_spec units 0); [discriminate|]. intros [= <- _]. by split.
Qed.

(** A layer reads of its input only the number of channels: on two
    inputs that differ in the batch dimension it declares the same
    variables and fails alike. *)
Lemma alike_conv2d (b b' : Z) (t : shape) (s s' : shape) (filters : Z)
    (ks : Z * Z) :
  t <> [] -> batches b b' t s s' ->
  builds_alike (batches b b' (removelast t ++ [filters]))
               (layers.conv2d s filters ks) (layers.conv2d s' filters ks).
Proof.
  intros Ht [-> ->] G.
  unfold layers.conv2d, bbind, unique_name, add_variable, bret, braise.
  assert (Hc : channels (b :: t) = channels (b' :: t)).
  { unfold channels. by destruct t. }
  destruct (filters <? 0); simpl; [by split|].
  rewrite Hc. split; [reflexivity|]. by destruct t.
Qed.

Lemma alike_batch_normalization (b b' : Z) (t : shape) (s s' : shape)
    (center scale tm tm' : bool) :
  t <> [] -> batches b b' t s s' ->
  builds_alike (batches b b' t)
               (layers.batch_normalization s center scale tm)
               (layers.batch_normalization s' center scale tm').
Proof.
  intros Ht [-> ->] G.
  unfold layers.batch_normalization, bbind, unique_name, add_variable, bret.
  assert (Hc : channels (b :: t) = channels (b' :: t)).
  { unfold channels. by destruct t. }
  destruct scale, center; simpl; rewrite Hc; by split.
Qed.

Lemma alike_dense (b b' : Z) (t : shape) (s s' : shape) (units : Z) :
  t <> [] -> batches b b' t s s' ->
  builds_alike (batches b b' (removelast t ++ [units]))
               (layers.dense s units) (layers.dense s' units).
Proof.
  intros Ht [-> ->] G.
  unfold layers.dense, bbind, unique_name, add_variable, bret, braise.
  assert (Hc : channels (b :: t) = channels (b' :: t)).
  { unfold channels. by destruct t. }
  destruct (units <? 0); simpl; [by split|].
  rewrite Hc. split; [reflexivity|]. by destruct t.
Qed.

End Layers.

(** What [tf.reshape] accepts when the graph is built. *)
Section Reshape.

Lemma reshape_Ok (x s r : shape) : reshape x s = Ok r -> r = s.
Proof.
  unfold reshape. destruct (existsb _ s); [discriminate|].
  destruct (unknown_dims x) as [|[|?]], (unknown_dims s) as [|[|?]];
    repeat case_match; congruence.
Qed.

(** Flattening a feature map of a square board: the batch dimension is
    kept, open or not, and the rest is multiplied out. *)
Lemma reshape_flat (b batch_size n c m : Z) :
  batch_fits b batch_size -> 0 <= c -> m = n * n * c ->
  reshape [b; n; n; c] [batch_size; m] = Ok [batch_size; m].
Proof.
  intros [Hb Hbs] Hc ->. unfold reshape.
  assert (Hm : 0 <= n * n * c) by nia.
  cbn [existsb orb].
  destruct (Z.ltb_spec batch_size (-1)) as [?|_]; [lia|].
  destruct (Z.ltb_spec (n * n * c) (-1)) as [?|_]; [lia|].
  cbn [unknown_dims known_elements].
  destruct (Z.ltb_spec (n * n * c) 0) as [?|_]; [lia|].
  destruct (Z.ltb_spec c 0) as [?|_]; [lia|].
  destruct (Z.ltb_spec b 0) as [Hb0|Hb0], (Z.ltb_spec n 0) as [Hn0|Hn0],
           (Z.ltb_spec batch_size 0) as [Hs0|Hs0]; try reflexivity; try lia.
  - (* the batch is open in the input only *)
    destruct (Z.eqb_spec (1 * (n * (n * (c * 1)))) 0) as [E|E]; [reflexivity|].
    replace (batch_size * (n * n * c * 1)) with
      (batch_size * (1 * (n * (n * (c * 1))))) by ring.
    rewrite Z.mod_mul by exact E. reflexivity.
  - (* everything is known *)
    assert (b = batch_size) as -> by lia.
    destruct (Z.eqb_spec (batch_size * (n * (n * (c * 1))))
                         (batch_size * (n * n * c * 1))) as [_|E];
      [reflexivity|]. exfalso. apply E. ring.
Qed.

Lemma reshape_column (batch_size : Z) :
  -1 <= batch_size -> reshape [batch_size; 1] [batch_size] = Ok [batch_size].
Proof.
  intros Hbs. unfold reshape. cbn [existsb orb].
  destruct (Z.ltb_spec batch_size (-1)) as [?|_]; [lia|].
  cbn [unknown_dims known_elements]. change (1 <? 0) with false. cbv iota.
  destruct (Z.ltb_spec batch_size 0); [reflexivity|].
  destruct (Z.eqb_spec (batch_size * (1 * 1)) (batch_size * 1)) as [_|E];
    [reflexivity|]. exfalso. apply E. ring.
Qed.

End Reshape.

Ltac grows_tac :=
  repeat match goal with
    | |- grows (bret _) => apply grows_ret
    | |- grows (blift _) => apply grows_blift
    | |- grows (layers.conv2d _ _ _) => apply grows_conv2d
    | |- grows (layers.batch_normalization _ _ _ _) =>
        apply grows_batch_normalization
    | |- grows (layers.dense _ _) => apply grows_dense
    | |- grows (fold_left _ _ _) => apply grows_fold; [|intros ?]
    | |- grows (bbind _ _) => apply grows_bind; [|intros ?]
    end.

(** Steps through graph-building code that returns, layer by layer; what
    is left are the conditions on the sizes. *)
Ltac gives_tac :=
  repeat (unfold relu, tf_add, softmax, tanh;
          cbn [int_of bind removelast app];
          match goal with
          | |- gives _ _ (bret _) => apply gives_ret
          | |- gives _ _ (blift (Ok _)) => apply gives_blift; reflexivity
          | |- gives _ _ (blift (reshape [_; _; _; _] _)) =>
              apply gives_blift, reshape_flat
          | |- gives _ _ (blift (reshape [_; _] _)) =>
              apply gives_blift, reshape_column
          | |- gives _ _ (layers.conv2d _ _ _) => apply gives_conv2d
          | |- gives _ _ (layers.batch_normalization _ _ _ _) =>
              apply gives_batch_normalization
          | |- gives _ _ (layers.dense _ _) => apply gives_dense
          | |- gives _ _ (fold_left _ _ _) => eapply gives_fold
          | |- gives _ _ (bbind _ _) => eapply gives_bind
          end).

Section DualNet.
Variable go_N : Z.

Lemma dual_net_grows (input_tensors : InputTensors) (batch_size : Z)
    (train_mode : bool) (hparams : gmap string pyval) :
  grows (dual_net go_N input_tensors batch_size train_mode hparams).
Proof. unfold dual_net. cbv zeta. grows_tac. Qed.

(** With integer sizes that are not negative, on an input for a square
    board whose batch dimension fits the batch size, [dual_net] returns:
    no layer and no reshape refuses. *)
Lemma dual_net_gives (input_tensors : InputTensors) (batch_size : Z)
    (train_mode : bool) (hparams : gmap string pyval) (k n fc_width b c : Z) :
  hparams !! "k"%string = Some (PInt k) ->
  hparams !! "num_shared_layers"%string = Some (PInt n) ->
  hparams !! "fc_width"%string = Some (PInt fc_width) ->
  0 <= k -> 0 <= fc_width ->
  pos_tensor input_tensors = [b; go_N; go_N; c] ->
  batch_fits b batch_size ->
  gives (20 + 12 * Z.to_nat n)
        (mkOutput [batch_size; go_N * go_N + 1] [batch_size; go_N * go_N + 1]
                  [batch_size])
        (dual_net go_N input_tensors batch_size train_mode hparams).
Proof.
  intros Hk Hn Hf Hk0 Hf0 Hpos Hfits.
  unfold dual_net, getitem. cbv zeta. rewrite Hk, Hn, Hf, Hpos.
  eapply gives_weaken.
  - gives_tac; try assumption; try lia; try nia; try ring;
      try exact (proj2 Hfits).
  - rewrite length_seq. simpl. lia.
Qed.

(** X8.  When [dual_net] returns, the tensors have the shapes that its
    documentation gives: [logits] and [policy_output] have one entry per
    move of the board and one for the pass move, per example, and
    [value_output] has one entry per example. *)
Theorem dual_net_shapes (input_tensors : InputTensors) (batch_size : Z)
    (train_mode : bool) (hparams : gmap string pyval) (G G' : Graph)
    (output_tensors : OutputTensors) :
  dual_net go_N input_tensors batch_size train_mode hparams G
    = (Ok output_tensors, G') ->
  logits output_tensors = [batch_size; go_N * go_N + 1] /\
  policy_output output_tensors = [batch_size; go_N * go_N + 1] /\
  value_output output_tensors = [batch_size].
Proof.
  unfold dual_net. cbv zeta. intros H.
  apply bbind_Ok in H as (k & G1 & _ & H).
  apply bbind_Ok in H as (c0 & G2 & _ & H).
  apply bbind_Ok in H as (b0 & G3 & _ & H).
  apply bbind_Ok in H as (n & G4 & _ & H).
  apply bbind_Ok in H as (shared_output & G5 & _ & H).
  apply bbind_Ok in H as (pc & G6 & _ & H).
  apply bbind_Ok in H as (pb & G7 & _ & H).
  apply bbind_Ok in H as (pf & G8 & Hpf & H).
  apply bbind_Ok in H as (lg & G9 & Hlogits & H).
  apply bbind_Ok in H as (vc & G10 & _ & H).
  apply bbind_Ok in H as (vb & G11 & _ & H).
  apply bbind_Ok in H as (vf & G12 & _ & H).
  apply bbind_Ok in H as (fc & G13 & _ & H).
  apply bbind_Ok in H as (vh & G14 & _ & H).
  apply bbind_Ok in H as (vo & G15 & _ & H).
  apply bbind_Ok in H as (vr & G16 & Hvr & H).
  injection H as <- <-.
  injection Hpf as Hpf _. apply reshape_Ok in Hpf. subst pf.
  injection Hvr as Hvr _. apply reshape_Ok in Hvr. subst vr.
  apply dense_Ok in Hlogits as [_ ->].
  unfold softmax, tanh. cbn [logits policy_output value_output removelast app].
  split; [reflexivity|]. split; reflexivity.
Qed.

End DualNet.

Lemma dual_net_shapes_witness :
  exists output_tensors G',
    dual_net 9 (mkInput [16; 9; 9; 17] [16; 82] [16] Placeholders) 16 true
             quick_hparams empty_graph = (Ok output_tensors, G') /\
    logits output_tensors = [16; 82] /\
    policy_output output_tensors = [16; 82] /\
    value_output output_tensors = [16].
Proof.
  destruct (dual_net 9 (mkInput [16; 9; 9; 17] [16; 82] [16] Placeholders) 16 true
              quick_hparams empty_graph) as [r G'] eqn:E.
  assert (Hr : exists out, r = Ok out).
  { apply (f_equal fst) in E. vm_compute in E. rewrite <- E. eauto. }
  destruct Hr as [out ->]. exists out, G'. split; [reflexivity|].
  exact (dual_net_shapes 9 _ _ _ _ _ _ _ E).
Defined.

Section DualNetVariables.
Variable go_N : Z.

(** X9.  [dual_net] only adds to the graph: whether it returns or
    raises, the variables the graph had are still there, in the same
    order, in front of the new ones.  With positive integers [k] and
    [fc_width], an integer [num_shared_layers], and an input for the
    board whose batch dimension is the batch size or is open, it
    returns, and it has declared twenty variables and twelve more for
    each shared layer; a negative number of layers counts as none. *)
Theorem dual_net_variables (input_tensors : InputTensors) (batch_size : Z)
    (train_mode : bool) (hparams : gmap string pyval) (G : Graph) :
  variables G `prefix_of`
    variables (dual_net go_N input_tensors batch_size train_mode hparams G).2 /\
  (forall k n fc_width b planes : Z,
      hparams !! "k"%string = Some (PInt k) ->
      hparams !! "num_shared_layers"%string = Some (PInt n) ->
      hparams !! "fc_width"%string = Some (PInt fc_width) ->
      0 < k -> 0 < fc_width ->
      pos_tensor input_tensors = [b; go_N; go_N; planes] ->
      b = -1 \/ b = batch_size ->
      -1 <= batch_size ->
      exists output_tensors G' declared,
        dual_net go_N input_tensors batch_size train_mode hparams G
          = (Ok output_tensors, G') /\
        variables G' = variables G ++ declared /\
        length declared = (20 + 12 * Z.to_nat n)%nat).
Proof.
  split; [apply dual_net_grows|].
  intros k n fc_width b planes Hk Hn Hf Hk0 Hf0 Hpos Hb Hbs.
  destruct (dual_net_gives go_N input_tensors batch_size train_mode hparams
              k n fc_width b planes Hk Hn Hf ltac:(lia) ltac:(lia) Hpos
              (conj Hb Hbs) G) as (G' & Hnet & Hlen).
  pose proof (dual_net_grows go_N input_tensors batch_size train_mode hparams G)
    as [declared Hd].
  rewrite Hnet in Hd. simpl in Hd.
  eexists. exists G', declared. split; [exact Hnet|]. split; [done|].
  rewrite Hd, length_app in Hlen. lia.
Qed.

Lemma alike_reshape_flat (b b' batch_size batch_size' n c m : Z) (s s' : shape) :
  batches b b' [n; n; c] s s' ->
  batch_fits b batch_size -> batch_fits b' batch_size' ->
  0 <= c -> m = n * n * c ->
  builds_alike (batches batch_size batch_size' [m])
               (blift (reshape s [batch_size; m]))
               (blift (reshape s' [batch_size'; m])).
Proof.
  intros [-> ->] Hb Hb' Hc Hm G. unfold blift.
  rewrite !(reshape_flat _ _ n c m) by done. by split.
Qed.

Lemma alike_reshape_column (batch_size batch_size' : Z) (s s' : shape) :
  batches batch_size batch_size' [1] s s' ->
  -1 <= batch_size -> -1 <= batch_size' ->
  builds_alike (fun _ _ => True)
               (blift (reshape s [batch_size]))
               (blift (reshape s' [batch_size'])).
Proof.
  intros [-> ->] Hb Hb' G. unfold blift.
  rewrite !reshape_column by done. by split.
Qed.

(** The network for one input and the network for another, on the same
    board and features and with the same hyperparameters: the batch
    sizes and the training modes may differ. *)
Lemma dual_net_alike (input_tensors input_tensors' : InputTensors)
    (batch_size batch_size' : Z) (train_mode train_mode' : bool)
    (hparams : gmap string pyval) (b b' planes : Z) :
  pos_tensor input_tensors = [b; go_N; go_N; planes] ->
  pos_tensor input_tensors' = [b'; go_N; go_N; planes] ->
  batch_fits b batch_size -> batch_fits b' batch_size' ->
  builds_alike (fun _ _ => True)
    (dual_net go_N input_tensors batch_size train_mode hparams)
    (dual_net go_N input_tensors' batch_size' train_mode' hparams).
Proof.
  intros Hpos Hpos' Hb Hb'. unfold dual_net. cbv zeta. rewrite Hpos, Hpos'.
  unfold relu, tf_add, softmax, tanh.
  eapply alike_bind; [apply alike_refl|]. intros k ? <-.
  destruct (int_of k) as [kz|e].
  2:{ intros G. by split. }
  cbn [int_of].
  assert (Hconv : forall bx by' x y c z ks s s',
    batches bx by' [x; y; c] s s' ->
    builds_alike (batches bx by' [x; y; z])
      (bbind (blift (Ok z)) (fun f => layers.conv2d s f ks))
      (bbind (blift (Ok z)) (fun f => layers.conv2d s' f ks))).
  { intros bx by' x y c z ks s s' Hs G.
    exact (alike_conv2d bx by' [x; y; c] s s' z ks ltac:(done) Hs G). }
  assert (Hbn : forall x y c cn sc tm tm' s s',
    batches b b' [x; y; c] s s' ->
    builds_alike (batches b b' [x; y; c])
      (layers.batch_normalization s cn sc tm)
      (layers.batch_normalization s' cn sc tm')).
  { intros. by apply alike_batch_normalization. }
  eapply alike_bind; [by apply (Hconv b b' go_N go_N planes)|].
  intros c0 c0' Hc0.
  eapply alike_bind; [by apply Hbn|]. intros b0 b0' Hb0.
  eapply alike_bind; [apply alike_refl|]. intros n ? <-.
  eapply alike_bind.
  { apply (alike_fold (batches b b' [go_N; go_N; kz])).
    - by apply alike_ret.
    - intros s s' Hs.
      eapply alike_bind; [by apply (Hconv b b' go_N go_N kz)|].
      intros c1 c1' Hc1.
      eapply alike_bind; [by apply Hbn|]. intros i1 i1' Hi1.
      eapply alike_bind; [by apply (Hconv b b' go_N go_N kz)|].
      intros c2 c2' Hc2.
      eapply alike_bind; [by apply Hbn|]. intros i2 i2' Hi2.
      by apply alike_ret. }
  intros so so' Hso.
  eapply alike_bind; [by apply (Hconv b b' go_N go_N kz)|].
  intros pc pc' Hpc.
  eapply alike_bind; [by apply Hbn|]. intros pb pb' Hpb.
  eapply alike_bind.
  { apply (alike_reshape_flat b b' _ _ go_N 2); [done|done|done|lia|ring]. }
  intros pf pf' Hpf.
  eapply alike_bind.
  { by apply (alike_dense batch_size batch_size' [go_N * go_N * 2]). }
  intros lg lg' Hlg.
  eapply alike_bind; [by apply (Hconv b b' go_N go_N kz)|].
  intros vc vc' Hvc.
  eapply alike_bind; [by apply Hbn|]. intros vb vb' Hvb.
  eapply alike_bind.
  { apply (alike_reshape_flat b b' _ _ go_N 1); [done|done|done|lia|ring]. }
  intros vf vf' Hvf.
  eapply alike_bind; [apply alike_refl|]. intros fc ? <-.
  eapply alike_bind.
  { by apply (alike_dense batch_size batch_size' [go_N * go_N]). }
  intros vh vh' Hvh.
  eapply alike_bind.
  { by apply (alike_dense batch_size batch_size' [fc]). }
  intros vo vo' Hvo.
  eapply alike_bind.
  { apply alike_reshape_column; [exact Hvo | apply Hb | apply Hb']. }
  intros vr vr' _. by apply alike_ret.
Qed.

(** X10.  The variables that [dual_net] declares do not depend on the
    batch size or on the training mode.  Called on two inputs for the
    same board and feature planes, each with a batch dimension that is
    its batch size or is open, as the input for training and the input
    for inference are, it leaves the same graph behind, and it returns
    in the one case exactly when it returns in the other. *)
Theorem dual_net_same_variables (input_tensors input_tensors' : InputTensors)
    (batch_size batch_size' : Z) (train_mode train_mode' : bool)
    (hparams : gmap string pyval) (G : Graph) (b b' planes : Z) :
  pos_tensor input_tensors = [b; go_N; go_N; planes] ->
  pos_tensor input_tensors' = [b'; go_N; go_N; planes] ->
  b = -1 \/ b = batch_size -> -1 <= batch_size ->
  b' = -1 \/ b' = batch_size' -> -1 <= batch_size' ->
  (dual_net go_N input_tensors batch_size train_mode hparams G).2 =
  (dual_net go_N input_tensors' batch_size' train_mode' hparams G).2 /\
  ((exists output_tensors,
      (dual_net go_N input_tensors batch_size train_mode hparams G).1
      = Ok output_tensors) <->
   (exists output_tensors,
      (dual_net go_N input_tensors' batch_size' train_mode' hparams G).1
      = Ok output_tensors)).
Proof.
  intros Hpos Hpos' Hb Hbs Hb' Hbs'.
  destruct (dual_net_alike input_tensors input_tensors' batch_size batch_size'
              train_mode train_mode' hparams b b' planes Hpos Hpos'
              (conj Hb Hbs) (conj Hb' Hbs') G) as [HG Hr].
  split; [exact HG|].
  destruct (dual_net go_N input_tensors batch_size train_mode hparams G).1,
           (dual_net go_N input_tensors' batch_size' train_mode' hparams G).1;
    try contradiction.
  - split; eauto.
  - split; intros [? ?]; discriminate.
Qed.

End DualNetVariables.

Lemma dual_net_variables_witness :
  exists output_tensors G' declared,
    dual_net 9 (mkInput [16; 9; 9; 17] [16; 82] [16] Placeholders) 16 true
             quick_hparams small_graph = (Ok output_tensors, G') /\
    variables G' = variables small_graph ++ declared /\
    length declared = 32%nat.
Proof.
  apply (proj2 (dual_net_variables 9
                  (mkInput [16; 9; 9; 17] [16; 82] [16] Placeholders) 16 true
                  quick_hparams small_graph) 1 1 2 16 17);
    try reflexivity; lia.
Defined.

Lemma dual_net_same_variables_witness :
  (dual_net 9 (mkInput [16; 9; 9; 17] [16; 82] [16] (Iterator 0)) 16 true
            quick_hparams empty_graph).2 =
  (dual_net 9 (mkInput [-1; 9; 9; 17] [-1; 82] [-1] Placeholders) (-1) false
            quick_hparams empty_graph).2.
Proof.
  apply (dual_net_same_variables 9
           (mkInput [16; 9; 9; 17] [16; 82] [16] (Iterator 0))
           (mkInput [-1; 9; 9; 17] [-1; 82] [-1] Placeholders)
           16 (-1) true false quick_hparams empty_graph 16 (-1) 17);
    try reflexivity; lia.
Defined.

(** ** The training objective: what [train_ops] declares *)

Section TrainOps.

Lemma trainable_snoc (l : list variable) (x : string) (s : shape) (i : initializer) :
  filter (fun v => var_trainable v = true) (l ++ [Var x false s i]) =
  filter (fun v => var_trainable v = true) l.
Proof. rewrite filter_app. simpl. apply app_nil_r. Qed.

Lemma trainable_slots (l : list variable) :
  filter (fun v => var_trainable v = true)
         (map (fun v => Var (var_op v +:+ "/Momentum") false (var_shape v) Zeros) l)
  = [].
Proof. induction l as [|v l IH]; [reflexivity | exact IH]. Qed.

(** [train_ops] step by step: the step counter is declared first, the
    regulariser is formed over the variables that were there before it,
    then the momentum is read, and the accumulators are declared last. *)
Lemma train_ops_eq (input_tensors : InputTensors) (output_tensors : OutputTensors)
    (hparams : gmap string pyval) (G : Graph) :
  let step := (unique_name "global_step" G).1 in
  let G1 := mkGraph (variables G ++
                     match step with
                     | Ok s => [Var s false [] Zeros]
                     | Raise _ => []
                     end)
                    (<["global_step"%string :=
                         S (default 0%nat (scopes G !! "global_step"%string))]>
                       (scopes G)) in
  train_ops input_tensors output_tensors hparams G =
  match step, regularised G,
        (v <- getitem hparams "momentum" ;; float_of v)%result with
  | Ok s, _ :: _, Ok m =>
      (Ok (mkTrain input_tensors (mkL2 1e-4 (map name (regularised G))) m
                   (s +:+ ":0")),
       mkGraph (variables G1 ++
                map (fun v => Var (var_op v +:+ "/Momentum") false (var_shape v) Zeros)
                    (filter (fun v => var_trainable v = true) (variables G)))
               (scopes G1))
  | Ok s, [], _ => (Raise ValueError, G1)
  | Ok s, _ :: _, Raise e => (Raise e, G1)
  | Raise e, _, _ => (Raise e, G)
  end.
Proof.
  unfold train_ops, regularised. cbn zeta.
  unfold bbind at 1. unfold unique_name. cbn [fst].
  unfold bbind at 1. unfold add_variable.
  unfold bbind at 1. unfold trainable_variables at 1. cbn [variables].
  rewrite trainable_snoc.
  unfold bbind at 1, blift at 1.
  destruct (filter _ (filter _ (variables G))) as [|v l] eqn:E; [reflexivity|].
  cbn [map add_n].
  unfold bbind at 1, blift at 1.
  destruct (v0 <- getitem hparams "momentum";; float_of v0)%result as [m|e];
    [|reflexivity].
  unfold bbind at 1. unfold trainable_variables at 1. cbn [variables].
  rewrite trainable_snoc.
  unfold bbind at 1.
  rewrite (momentum_slots _ (bret tt) _ _ eq_refl). reflexivity.
Qed.

(** X11.  On a graph without a trainable variable outside the biases,
    [train_ops] raises [ValueError], whatever the hyperparameters: the
    sum of the regulariser has no term.  The step counter it has
    declared by then is not trainable and does not count. *)
Theorem train_ops_nothing_to_regularise (input_tensors : InputTensors)
    (output_tensors : OutputTensors) (hparams : gmap string pyval) (G : Graph) :
  regularised G = [] ->
  exists step,
    train_ops input_tensors output_tensors hparams G =
    (Raise ValueError,
     mkGraph (variables G ++ [Var step false [] Zeros])
             (<["global_step"%string :=
                  S (default 0%nat (scopes G !! "global_step"%string))]>
                (scopes G))).
Proof.
  intros Hr. rewrite train_ops_eq. cbn zeta. rewrite Hr.
  unfold unique_name. cbn [fst]. eauto.
Qed.

Lemma train_ops_nothing_to_regularise_witness :
  (train_ops no_input no_output quick_hparams empty_graph).1 = Raise ValueError /\
  (train_ops no_input no_output quick_hparams
             (mkGraph [Var "dense/bias" true [1] Zeros;
                       Var "moving_mean" false [1] Zeros] ∅)).1
  = Raise ValueError.
Proof.
  split.
  - destruct (train_ops_nothing_to_regularise no_input no_output quick_hparams
                empty_graph eq_refl) as [step ->]. reflexivity.
  - destruct (train_ops_nothing_to_regularise no_input no_output quick_hparams
                (mkGraph [Var "dense/bias" true [1] Zeros;
                          Var "moving_mean" false [1] Zeros] ∅) eq_refl)
      as [step ->]. reflexivity.
Defined.

Lemma train_ops_inv (input_tensors : InputTensors) (output_tensors : OutputTensors)
    (hparams : gmap string pyval) (G G' : Graph) (tensors : TrainTensors) :
  train_ops input_tensors output_tensors hparams G = (Ok tensors, G') ->
  exists step m,
    (v <- getitem hparams "momentum" ;; float_of v)%result = Ok m /\
    regularised G <> [] /\
    tensors = mkTrain input_tensors (mkL2 1e-4 (map name (regularised G))) m
                      (step +:+ ":0") /\
    variables G' =
      variables G ++ Var step false [] Zeros ::
      map (fun v => Var (var_op v +:+ "/Momentum") false (var_shape v) Zeros)
          (filter (fun v => var_trainable v = true) (variables G)).
Proof.
  rewrite train_ops_eq. cbn zeta. unfold unique_name. cbn [fst].
  destruct (regularised G) as [|v l] eqn:E; [discriminate|].
  destruct (v0 <- getitem hparams "momentum";; float_of v0)%result as [m|e];
    [|discriminate].
  intros [= <- <-]. eexists. exists m. split; [done|]. split; [done|].
  split; [reflexivity|]. cbn [variables]. by rewrite <- app_assoc.
Qed.

Lemma train_ops_returns (input_tensors : InputTensors)
    (output_tensors : OutputTensors) (hparams : gmap string pyval) (G : Graph)
    (m : Q) :
  regularised G <> [] ->
  (v <- getitem hparams "momentum" ;; float_of v)%result = Ok m ->
  exists tensors G',
    train_ops input_tensors output_tensors hparams G = (Ok tensors, G').
Proof.
  intros Hr Hm. rewrite train_ops_eq. cbn zeta. unfold unique_name. cbn [fst].
  destruct (regularised G) as [|v l]; [done|]. rewrite Hm. eauto.
Qed.

(** X12.  When [train_ops] returns it has declared the step counter and
    one momentum accumulator for each trainable variable, and nothing
    else; none of them is trainable.  So the trainable variables are
    those of the network: the regulariser ranges over the ones among
    them that are not biases, and [logging_ops] called afterwards makes
    one histogram for each, as it would have before. *)
Theorem train_ops_declares (input_tensors : InputTensors)
    (output_tensors : OutputTensors) (hparams : gmap string pyval)
    (G G' : Graph) (tensors : TrainTensors) :
  train_ops input_tensors output_tensors hparams G = (Ok tensors, G') ->
  let trainable := filter (fun v => var_trainable v = true) in
  (exists step,
      global_step tensors = step +:+ ":0" /\
      variables G' =
        variables G ++ Var step false [] Zeros ::
        map (fun v => Var (var_op v +:+ "/Momentum") false (var_shape v) Zeros)
            (trainable (variables G))) /\
  trainable (variables G') = trainable (variables G) /\
  terms (l2_cost tensors) = map name (regularised G) /\
  regularised G' = regularised G /\
  (logging_ops G').1 = Ok (map name (trainable (variables G))).
Proof.
  intros H trainable.
  apply train_ops_inv in H as (step & m & _ & _ & -> & HG').
  assert (Htr : trainable (variables G') = trainable (variables G)).
  { rewrite HG'. unfold trainable.
    rewrite filter_app, filter_cons_False by done.
    by rewrite trainable_slots, app_nil_r. }
  split; [by exists step|]. split; [exact Htr|]. split; [reflexivity|].
  split.
  - unfold regularised. fold trainable. by rewrite Htr.
  - rewrite logging_ops_eq. cbn [fst]. fold trainable. by rewrite Htr.
Qed.

Lemma train_ops_declares_witness :
  exists tensors G',
    train_ops no_input no_output quick_hparams small_graph = (Ok tensors, G') /\
    filter (fun v => var_trainable v = true) (variables G') =
      variables small_graph /\
    terms (l2_cost tensors) = ["dense/kernel:0"%string] /\
    (logging_ops G').1 = Ok ["dense/kernel:0"; "dense/bias:0"]%string.
Proof.
  destruct (train_ops no_input no_output quick_hparams small_graph)
    as [r G'] eqn:E.
  assert (Hr : exists tensors, r = Ok tensors).
  { apply (f_equal fst) in E. vm_compute in E. rewrite <- E. eauto. }
  destruct Hr as [tensors ->]. exists tensors, G'. split; [reflexivity|].
  destruct (train_ops_declares _ _ _ _ _ _ E) as (_ & Htr & Hterms & _ & Hlog).
  split; [exact Htr|]. split; [exact Hterms|]. exact Hlog.
Defined.

End TrainOps.

(** ** The trainer: saving and restoring the weights *)

Module WeightsFacts.
Import DualNetworkTrainer InitializeWeightsFacts InitializeWeightsTheorems.

(** Saving through a fresh saver writes, under the path, the value that
    each variable of the default graph has in the session, and changes
    no session. *)
Lemma Saver_save_ready (s g : nat) (f : string) (w : World) :
  ready s g w ->
  exists w' vals ss,
    mbind Saver (fun sv => save sv s (Some f)) w = (Ok tt, w') /\
    sessions w !! s = Some ss /\
    files w' = <[f +:+ ".index" := TensorBundle vals]>
               (<[f +:+ ".meta" := MetaGraphDef (current_graph w)]> (files w)) /\
    (forall v, v ∈ variables (current_graph w) ->
       is_Some (vals !! name v) /\ vals !! name v = values ss !! name v) /\
    sessions w' = sessions w /\
    default_graph w' = default_graph w /\
    current_graph w' = current_graph w /\
    iterators w' = iterators w /\
    history w' = history w ++ [Saved s f].
Proof.
  intros (Hd & Hne & ss & Hs & Hg & Hv).
  unfold mbind. rewrite Saver_nonempty by done.
  unfold save. cbn [sessions set_graphs]. rewrite Hs.
  cbn [saver_graph saver_vars]. rewrite Hg, Hd, Nat.eqb_refl. cbn [negb].
  destruct (lookup_all_is_Some (values ss) (variables (current_graph w)) Hv)
    as [kvs Hkvs].
  rewrite Hkvs. eexists. exists (list_to_map kvs), ss.
  split; [reflexivity|]. split; [done|]. cbn.
  rewrite lookup_insert_eq. cbn. split; [reflexivity|]. split.
  - intros v Hin. destruct (lookup_all_Some _ _ _ Hkvs v Hin) as (t & Ht & Hl).
    rewrite Hl, Ht. eauto.
  - split; [reflexivity|]. split; [reflexivity|]. split; [|by split].
    unfold current_graph. cbn. by rewrite Hd, lookup_insert_eq.
Qed.

Lemma ready_in_block (s g : nat) (w : World) (ss : Session) :
  sessions w !! s = Some ss -> graph ss = g ->
  variables (default empty_graph (graphs w !! g)) <> [] ->
  (forall v, v ∈ variables (default empty_graph (graphs w !! g)) ->
             is_Some (values ss !! name v)) ->
  ready s g (set_default_graph (cons g) w).
Proof.
  intros Hs Hg Hne Hv. split; [reflexivity|].
  unfold current_graph. cbn. split; [exact Hne|]. by exists ss.
Qed.

End WeightsFacts.

Module WeightsTheorems.
Import DualNetworkTrainer InitializeWeightsFacts InitializeWeightsTheorems
       TrainFacts WeightsFacts.

(** X13.  What [save_weights] writes, [initialize_weights] reads back.
    With every variable initialised, [save_weights] returns, and a call
    of [initialize_weights] after it returns too, whatever [init_from]
    is: it restores from the trainer's own save location, and every
    variable of the graph has again the value it had when it was
    saved. *)
Theorem save_then_initialize (self : t) (g : nat) (f : string)
    (init_from : option string) (w : World) :
  ready (sess self) g w ->
  save_file self = Some f ->
  exists w1 w2 ss ss2,
    save_weights self w = (Ok tt, w1) /\
    initialize_weights self init_from w1 = (Ok tt, w2) /\
    sessions w !! sess self = Some ss /\
    sessions w2 !! sess self = Some ss2 /\
    (forall v, v ∈ variables (current_graph w) ->
       is_Some (values ss !! name v) /\
       values ss2 !! name v = values ss !! name v) /\
    history w2 = history w ++ [Saved (sess self) f; Restored (sess self) f].
Proof.
  intros Hr Hf. pose proof Hr as (Hd & Hne & ss & Hs & Hg & Hv).
  unfold save_weights, mbind at 1, sess_graph. rewrite Hs, Hg. unfold as_default.
  set (wp := set_default_graph (cons g) w).
  assert (Hcg : current_graph wp = current_graph w).
  { unfold current_graph, wp. simpl. by rewrite Hd. }
  assert (Hrp : ready (sess self) g wp).
  { split; [reflexivity|]. rewrite Hcg. split; [done|]. by exists ss. }
  rewrite Hf.
  destruct (Saver_save_ready (sess self) g f wp Hrp)
    as (w1 & vals & ss' & Hsave & Hs' & Hfiles & Hvals & Hss & Hdg & Hcg1 & _ & Hh).
  rewrite Hsave. cbn [sessions wp set_default_graph] in Hs'.
  rewrite Hs in Hs'. injection Hs' as <-.
  set (w1' := set_default_graph (drop 1) w1).
  assert (Hdg' : default_graph w1' = default_graph w).
  { unfold w1'. cbn. rewrite Hdg. reflexivity. }
  assert (Hcg' : current_graph w1' = current_graph w).
  { unfold current_graph in *. rewrite Hdg'. cbn [graphs w1' set_default_graph].
    rewrite Hdg in Hcg1. cbn [hd wp default_graph set_default_graph] in Hcg1.
    rewrite Hd. rewrite Hcg1. cbn [wp graphs set_default_graph hd default_graph].
    reflexivity. }
  assert (Hown : own_checkpoint self w1' = true).
  { unfold own_checkpoint. rewrite Hf. cbn [files w1' set_default_graph].
    rewrite Hfiles. apply bool_decide_eq_true.
    apply lookup_insert_is_Some'. right. rewrite lookup_insert_eq. eauto. }
  assert (Hret : exists w2,
    initialize_weights self init_from w1' = (Ok tt, w2)).
  { rewrite initialize_weights_own by done. rewrite Hf.
    apply (Saver_restore_returns _ f _ ss vals).
    - cbn [sessions w1' set_default_graph]. by rewrite Hss.
    - by rewrite Hdg', Hd.
    - by rewrite Hcg'.
    - cbn [files w1' set_default_graph]. rewrite Hfiles. apply lookup_insert_eq.
    - rewrite Hcg'. intros v Hin. rewrite <- Hcg in Hin.
      by destruct (Hvals v Hin). }
  destruct Hret as [w2 Hinit].
  exists w1', w2, ss. pose proof Hinit as Hinit'.
  rewrite initialize_weights_own in Hinit' by done.
  apply Saver_restore_Ok in Hinit'
    as (f' & vals' & ss2 & Hp & Hf' & Hs2 & _ & Hv2 & _ & _ & _ & _ & _ & _ & Hh2).
  rewrite Hf in Hp. injection Hp as <-.
  cbn [files w1' set_default_graph] in Hf'. rewrite Hfiles in Hf'.
  rewrite lookup_insert_eq in Hf'. injection Hf' as <-.
  exists ss2. split; [reflexivity|]. split; [exact Hinit|]. split; [done|].
  split; [done|]. split.
  - intros v Hin. split; [by apply Hv|].
    assert (Hin' : v ∈ variables (current_graph w1')) by by rewrite Hcg'.
    destruct (Hv2 v Hin') as [_ ->].
    rewrite <- Hcg in Hin. by destruct (Hvals v Hin) as [_ ->].
  - rewrite Hh2. cbn [history w1' set_default_graph]. rewrite Hh.
    by rewrite <- app_assoc.
Qed.

Lemma save_then_initialize_witness :
  exists w1 w2 ss2,
    save_weights model_trainer
      (mkWorld {[ 1%nat := mkGraph [Var "w" true [1] Zeros] ∅ ]}
               {[ 0%nat := mkSession 1 {[ "w:0"%string := [5%Q] ]} ]}
               [1%nat] ∅ ∅ ∅ [] [] (fun _ _ => [1%Q]) 0 (fun _ => 0%nat) 0)
    = (Ok tt, w1) /\
    initialize_weights model_trainer (Some "old"%string) w1 = (Ok tt, w2) /\
    sessions w2 !! 0%nat = Some ss2 /\
    values ss2 !! "w:0"%string = Some [5%Q].
Proof.
  set (w := mkWorld _ _ _ _ _ _ _ _ _ _ _ _).
  assert (Hr : ready (sess model_trainer) 1 w).
  { split; [reflexivity|]. split; [discriminate|].
    eexists. split; [reflexivity|]. split; [reflexivity|].
    intros v Hin. apply list_elem_of_singleton in Hin as ->.
    by eexists. }
  destruct (save_then_initialize model_trainer 1 "model" (Some "old"%string)
              w Hr eq_refl)
    as (w1 & w2 & ss & ss2 & Hsave & Hinit & Hs & Hs2 & Hv & _).
  exists w1, w2, ss2. split; [exact Hsave|]. split; [exact Hinit|].
  split; [exact Hs2|].
  assert (Hin : Var "w" true [1] Zeros ∈ variables (current_graph w))
    by apply list_elem_of_here.
  etransitivity; [exact (proj2 (Hv _ Hin))|].
  vm_compute in Hs. injection Hs as <-. reflexivity.
Defined.

End WeightsTheorems.

Module WeightsErrors.
Import DualNetworkTrainer InitializeWeightsFacts InitializeWeightsTheorems.

Lemma Saver_empty (w : World) :
  variables (current_graph w) = [] ->
  Saver w =
  (Raise ValueError,
   set_graphs (insert (hd 0%nat (default_graph w)) (current_graph w)) w).
Proof.
  intros E. unfold Saver, mbind, get_default_graph.
  rewrite build_global_variables. by rewrite E.
Qed.

(** No saver can be made on a graph without variables, so nothing is
    restored there. *)
Lemma Saver_restore_empty (s : nat) (p : option string) (w : World) :
  variables (current_graph w) = [] ->
  exists w',
    mbind Saver (fun sv => restore sv s p) w = (Raise ValueError, w') /\
    sessions w' = sessions w /\ files w' = files w /\ history w' = history w.
Proof. intros E. unfold mbind. rewrite Saver_empty by done. eauto. Qed.

Lemma initializer_run_mismatch (s : nat) (w : World) :
  (forall ss, sessions w !! s = Some ss -> graph ss <> hd 0%nat (default_graph w)) ->
  exists w',
    mbind global_variables_initializer (fun op => run_init s op) w
      = (Raise ValueError, w') /\
    sessions w' = sessions w /\ files w' = files w /\ history w' = history w.
Proof.
  intros Hctx. unfold mbind at 1. rewrite global_variables_initializer_eq.
  unfold run_init, mbind at 1, sess_graph. cbn [sessions set_graphs].
  destruct (sessions w !! s) as [ss|] eqn:Hs; [|eauto].
  cbn [init_graph].
  destruct (Nat.eqb_spec (graph ss) (hd 0%nat (default_graph w))) as [Heq|_].
  - by destruct (Hctx ss eq_refl).
  - cbn [negb]. unfold raise. eauto.
Qed.

End WeightsErrors.

Module WeightsErrorTheorems.
Import DualNetworkTrainer InitializeWeightsFacts InitializeWeightsTheorems
       WeightsErrors.

(** X14.  [initialize_weights] works on the default graph, which has to
    be the one that holds the network.  Called while the default graph
    has no variables, it raises [ValueError] whenever it is to restore,
    from the trainer's own checkpoint or from [init_from]: there is
    nothing to make a saver for.  Called while the default graph is not
    the one that the trainer's session is open on, it raises
    [ValueError] when it is to initialise at random.  In both cases no
    session, no file and no entry of the history has changed. *)
Theorem initialize_weights_needs_context (self : t) (init_from : option string)
    (w : World) :
  (variables (current_graph w) = [] ->
   own_checkpoint self w = true \/ is_Some init_from ->
   exists w',
     initialize_weights self init_from w = (Raise ValueError, w') /\
     sessions w' = sessions w /\ files w' = files w /\ history w' = history w) /\
  ((forall ss, sessions w !! sess self = Some ss ->
               graph ss <> hd 0%nat (default_graph w)) ->
   own_checkpoint self w = false -> init_from = None ->
   exists w',
     initialize_weights self init_from w = (Raise ValueError, w') /\
     sessions w' = sessions w /\ files w' = files w /\ history w' = history w).
Proof.
  split.
  - intros E Hpath. destruct (own_checkpoint self w) eqn:Hown.
    + rewrite initialize_weights_own by done. by apply Saver_restore_empty.
    + rewrite initialize_weights_other by done.
      destruct Hpath as [?|[p ->]]; [done|].
      unfold mbind at 1, print_stderr.
      by apply (Saver_restore_empty _ _ (set_stderr _ w)).
  - intros Hctx Hown ->. rewrite initialize_weights_other by done.
    unfold mbind at 1, print_stderr.
    by apply (initializer_run_mismatch _ (set_stderr _ w)).
Qed.

Lemma initialize_weights_needs_context_witness :
  (exists w',
      initialize_weights model_trainer None
        (set_default_graph (fun _ => []) two_checkpoints) = (Raise ValueError, w') /\
      sessions w' = sessions two_checkpoints) /\
  (exists w',
      initialize_weights (mk ∅ None 0) None
        (set_default_graph (fun _ => []) two_checkpoints) = (Raise ValueError, w') /\
      sessions w' = sessions two_checkpoints).
Proof.
  split.
  - destruct (proj1 (initialize_weights_needs_context model_trainer None
                       (set_default_graph (fun _ => []) two_checkpoints)))
      as (w' & H & Hs & _).
    + reflexivity.
    + left. vm_compute. reflexivity.
    + exists w'. split; [exact H | exact Hs].
  - destruct (proj2 (initialize_weights_needs_context (mk ∅ None 0) None
                       (set_default_graph (fun _ => []) two_checkpoints)))
      as (w' & H & Hs & _).
    + intros ss Hss. vm_compute in Hss. injection Hss as <-. discriminate.
    + reflexivity.
    + reflexivity.
    + exists w'. split; [exact H | exact Hs].
Defined.

(** X15.  [save_weights] writes nothing when it fails.  On a graph
    without variables it raises [ValueError], there being nothing to
    save; with variables but no save location it raises [TypeError];
    with a variable that has no value yet it raises
    [FailedPreconditionError].  In each case the files are as they were,
    and so is the stack of default graphs. *)
Theorem save_weights_errors (self : t) (w : World) (ss : Session) :
  sessions w !! sess self = Some ss ->
  let G := default empty_graph (graphs w !! graph ss) in
  (variables G = [] ->
   exists w', save_weights self w = (Raise ValueError, w') /\
              files w' = files w /\ default_graph w' = default_graph w) /\
  (variables G <> [] -> save_file self = None ->
   exists w', save_weights self w = (Raise TypeError, w') /\
              files w' = files w /\ default_graph w' = default_graph w) /\
  (forall f v, save_file self = Some f -> v ∈ variables G ->
               values ss !! name v = None ->
   exists w', save_weights self w = (Raise FailedPreconditionError, w') /\
              files w' = files w /\ default_graph w' = default_graph w).
Proof.
  intros Hs G.
  set (wp := set_default_graph (cons (graph ss)) w).
  assert (Hcg : current_graph wp = G) by reflexivity.
  assert (Heq : save_weights self w =
                ((mbind Saver (fun sv => save sv (sess self) (save_file self)) wp).1,
                 set_default_graph (drop 1)
                   (mbind Saver (fun sv => save sv (sess self) (save_file self)) wp).2)).
  { unfold save_weights, mbind at 1, sess_graph. rewrite Hs. unfold as_default.
    fold wp. by destruct (mbind Saver _ wp). }
  rewrite Heq. clear Heq.
  split; [|split].
  - intros HG. unfold mbind. rewrite Saver_empty by by rewrite Hcg. eauto.
  - intros HG Hf. unfold mbind. rewrite Saver_nonempty by by rewrite Hcg.
    rewrite Hf. unfold save. eauto.
  - intros f v Hf Hin Hv. unfold mbind.
    rewrite Saver_nonempty.
    2:{ rewrite Hcg. intros E. rewrite E in Hin. by apply elem_of_nil in Hin. }
    rewrite Hf. unfold save. cbn [sessions set_graphs wp set_default_graph].
    rewrite Hs. cbn [saver_graph hd default_graph]. rewrite Nat.eqb_refl.
    cbn [negb saver_vars]. rewrite Hcg.
    destruct (lookup_all (values ss) (variables G)) as [kvs|] eqn:E; [|eauto].
    destruct (lookup_all_Some _ _ _ E v Hin) as (t & Ht & _). congruence.
Qed.

Lemma save_weights_errors_witness :
  (exists w', save_weights quick_trainer quick_world = (Raise ValueError, w') /\
              files w' = files quick_world) /\
  (exists w', save_weights (mk ∅ None 0) two_checkpoints = (Raise TypeError, w') /\
              files w' = files two_checkpoints) /\
  (exists w', save_weights model_trainer two_checkpoints
              = (Raise FailedPreconditionError, w') /\
              files w' = files two_checkpoints).
Proof.
  split; [|split].
  - destruct (proj1 (save_weights_errors quick_trainer quick_world
                       (mkSession 1 ∅) eq_refl) eq_refl) as (w' & H & Hf & _).
    eauto.
  - destruct (proj1 (proj2 (save_weights_errors (mk ∅ None 0) two_checkpoints
                              (mkSession 1 ∅) eq_refl)))
      as (w' & H & Hf & _); [discriminate | reflexivity | eauto].
  - destruct (proj2 (proj2 (save_weights_errors model_trainer two_checkpoints
                              (mkSession 1 ∅) eq_refl))
                "model"%string (Var "w" true [1] Zeros))
      as (w' & H & Hf & _);
      [reflexivity | apply list_elem_of_here | reflexivity | eauto].
Defined.

End WeightsErrorTheorems.

(** ** The trainer: [bootstrap] from start to end *)

Lemma mbind_assoc {A B C : Type} (m : M A) (k : A -> M B) (h : B -> M C) (w : World) :
  mbind (mbind m k) h w = mbind m (fun a => mbind (k a) h) w.
Proof. unfold mbind. by destruct (m w) as [[a|e] w1]. Qed.

Lemma mbind_Ok_eq {A B : Type} (m : M A) (k : A -> M B) (w w1 : World) (a : A) :
  m w = (Ok a, w1) -> mbind m k w = k a w1.
Proof. intros H. unfold mbind. by rewrite H. Qed.

Lemma mbind_Raise_eq {A B : Type} (m : M A) (k : A -> M B) (w w1 : World) (e : exn) :
  m w = (Raise e, w1) -> mbind m k w = (Raise e, w1).
Proof. intros H. unfold mbind. by rewrite H. Qed.

(** Graph-building code that returns leaves its graph as the default one
    and touches nothing else. *)
Lemma build_returns {A : Type} (b : Build A) (w : World) (a : A) (G' : Graph) :
  b (current_graph w) = (Ok a, G') ->
  exists w',
    build b w = (Ok a, w') /\
    current_graph w' = G' /\
    default_graph w' = default_graph w /\
    sessions w' = sessions w /\
    files w' = files w /\
    history w' = history w /\
    iterators w' = iterators w /\
    (forall g0, g0 <> hd 0%nat (default_graph w) -> graphs w' !! g0 = graphs w !! g0).
Proof.
  intros Hb. rewrite build_eq, Hb. eexists. split; [reflexivity|].
  split; [unfold current_graph; cbn; by rewrite lookup_insert_eq|].
  do 5 (split; [reflexivity|]). intros g0 Hne. cbn. by rewrite lookup_insert_ne.
Qed.

Section NetworkOnEmptyGraph.
Variable go_N : Z.

(** On an empty graph the first variable that [dual_net] declares is the
    kernel of the first convolution, which the regulariser counts. *)
Lemma dual_net_regularised (input_tensors : InputTensors) (batch_size : Z)
    (train_mode : bool) (hparams : gmap string pyval)
    (output_tensors : OutputTensors) (G' : Graph) :
  dual_net go_N input_tensors batch_size train_mode hparams empty_graph
    = (Ok output_tensors, G') ->
  regularised G' <> [] /\ variables G' <> [].
Proof.
  unfold dual_net. cbv zeta. intros H.
  apply bbind_Ok in H as (k & G1 & Hk & H). injection Hk as _ <-.
  apply bbind_Ok in H as (c0 & G2 & Hc0 & H).
  apply bbind_Ok in Hc0 as (f & G1' & Hf & Hc0). injection Hf as _ <-.
  unfold layers.conv2d, bbind, unique_name, add_variable, bret, braise in Hc0.
  destruct (f <? 0); [discriminate|].
  cbn in Hc0. injection Hc0 as _ <-.
  match type of H with
  | ?m ?G = _ => assert (Hg : grows m) by grows_tac; specialize (Hg G)
  end.
  rewrite H in Hg. destruct Hg as [rest Hrest]. cbn in Hrest.
  unfold regularised. rewrite Hrest. split; [|discriminate].
  rewrite filter_cons_True by reflexivity.
  rewrite filter_cons_True by reflexivity. discriminate.
Qed.

End NetworkOnEmptyGraph.

Module BootstrapRun.
Import DualNetworkTrainer InitializeWeightsFacts InitializeWeightsTheorems
       WeightsFacts.

Section Block.
Variable go_N : Z.
Variable NEW_FEATURES_PLANES : Z.

(** The block of [bootstrap], given that the network and the training
    tensors can be built on the default graph. *)
Lemma bootstrap_block_runs (self : t) (s g : nat) (f : string) (w : World)
    (ss : Session) (output_tensors : OutputTensors) (G1 G2 : Graph)
    (tensors : TrainTensors) :
  hd 0%nat (default_graph w) = g ->
  sessions w !! s = Some ss -> graph ss = g ->
  save_file self = Some f ->
  dual_net go_N (mkInput [-1; go_N; go_N; NEW_FEATURES_PLANES]
                         [-1; go_N * go_N + 1] [-1] Placeholders)
           TRAIN_BATCH_SIZE true (hparams self) (current_graph w)
    = (Ok output_tensors, G1) ->
  train_ops (mkInput [-1; go_N; go_N; NEW_FEATURES_PLANES]
                     [-1; go_N * go_N + 1] [-1] Placeholders)
            output_tensors (hparams self) G1 = (Ok tensors, G2) ->
  exists w' vals,
    bootstrap_block go_N NEW_FEATURES_PLANES self s w = (Ok tt, w') /\
    files w' = <[f +:+ ".index" := TensorBundle vals]>
               (<[f +:+ ".meta" := MetaGraphDef G2]> (files w)) /\
    (forall v, v ∈ variables G2 -> is_Some (vals !! name v)) /\
    history w' = history w ++ [Initialized s; Saved s f].
Proof.
  intros Hd Hs Hg Hf Hnet Hops. unfold bootstrap_block.
  destruct (build_returns (get_inference_input go_N NEW_FEATURES_PLANES) w
              _ _ eq_refl)
    as (wa & Ha & Hcga & Hda & Hsa & Hfa & Hha & _).
  unfold mbind at 1. rewrite Ha. rewrite <- Hcga in Hnet.
  destruct (build_returns _ wa _ _ Hnet)
    as (wb & Hb & Hcgb & Hdb & Hsb & Hfb & Hhb & _).
  unfold mbind at 1. rewrite Hb. rewrite <- Hcgb in Hops.
  destruct (build_returns _ wb _ _ Hops)
    as (wc & Hc & Hcgc & Hdc & Hsc & Hfc & Hhc & _).
  unfold mbind at 1. rewrite Hc.
  assert (Hsc' : sessions wc !! s = Some ss) by congruence.
  assert (Hdc' : hd 0%nat (default_graph wc) = g) by congruence.
  rewrite <- (mbind_assoc global_variables_initializer
                (fun op => run_init s op)).
  destruct (initializer_run_returns s wc ss Hsc') as [wd Hinit]; [congruence|].
  unfold mbind at 1. rewrite Hinit.
  apply initializer_run_Ok in Hinit
    as (ss' & Hs' & Hg' & Hv' & _ & Hcgd & Hdd & _ & Hfd & Hhd).
  assert (Hready : ready s g wd).
  { split; [congruence|]. rewrite Hcgd, Hcgc. split.
    - apply train_ops_inv in Hops as (step & m & _ & _ & _ & ->).
      intros E. by apply app_eq_nil in E as [_ ?].
    - exists ss'. split; [done|]. split; [congruence|].
      rewrite <- Hcgc. exact Hv'. }
  rewrite Hf.
  destruct (Saver_save_ready s g f wd Hready)
    as (w' & vals & ss'' & Hsave & _ & Hfiles & Hvals & _ & _ & _ & _ & Hh).
  rewrite Hsave. exists w', vals. split; [reflexivity|]. split; [|split].
  - rewrite Hfiles, Hcgd, Hcgc. congruence.
  - intros v Hin. apply Hvals. by rewrite Hcgd, Hcgc.
  - rewrite Hh, Hhd, Hhc, Hhb, Hha. by rewrite <- app_assoc.
Qed.

(** When the block returns, the network and the training tensors were
    built on the default graph. *)
Lemma bootstrap_block_inv (self : t) (s : nat) (w w' : World) :
  bootstrap_block go_N NEW_FEATURES_PLANES self s w = (Ok tt, w') ->
  exists output_tensors G1 tensors G2,
    dual_net go_N (mkInput [-1; go_N; go_N; NEW_FEATURES_PLANES]
                           [-1; go_N * go_N + 1] [-1] Placeholders)
             TRAIN_BATCH_SIZE true (hparams self) (current_graph w)
      = (Ok output_tensors, G1) /\
    train_ops (mkInput [-1; go_N; go_N; NEW_FEATURES_PLANES]
                       [-1; go_N * go_N + 1] [-1] Placeholders)
              output_tensors (hparams self) G1 = (Ok tensors, G2) /\
    exists ss, sessions w !! s = Some ss /\
               graph ss = hd 0%nat (default_graph w).
Proof.
  unfold bootstrap_block. intros H.
  apply mbind_Ok in H as (input_tensors & wa & Ha & H).
  apply mbind_Ok in H as (output_tensors & wb & Hb & H).
  apply mbind_Ok in H as (tensors & wc & Hc & H).
  apply mbind_Ok in H as (op & wd & Hd & H).
  apply mbind_Ok in H as ([] & we & He & _).
  apply build_Ok in Ha as (Ga & Ha & Hcga & Hda & _ & Hsa).
  injection Ha as <- <-.
  apply build_Ok in Hb as (G1 & Hb & Hcgb & Hdb & _ & Hsb).
  apply build_Ok in Hc as (G2 & Hc & Hcgc & Hdc & _ & Hsc).
  rewrite Hcga in Hb. rewrite Hcgb in Hc.
  exists output_tensors, G1, tensors, G2. split; [done|]. split; [done|].
  rewrite global_variables_initializer_eq in Hd. injection Hd as <- <-.
  unfold run_init in He. apply mbind_Ok in He as (g' & w0 & Hsg & He).
  unfold sess_graph in Hsg. cbn [sessions set_graphs] in Hsg.
  destruct (sessions wc !! s) as [ss|] eqn:Hs; [|discriminate].
  injection Hsg as <- <-. cbn [init_graph] in He.
  destruct (Nat.eqb_spec (graph ss) (hd 0%nat (default_graph wc))) as [Hg|];
    [|discriminate].
  exists ss. split; congruence.
Qed.

End Block.

End BootstrapRun.

Module BootstrapRunTheorems.
Import DualNetworkTrainer BootstrapFacts BootstrapRun.

Section Returns.
Variable go_N : Z.
Variable NEW_FEATURES_PLANES : Z.

Lemma bootstrap_runs (self : t) (w : World) (f : string)
    (k n fc_width : Z) (m : Q) :
  save_file self = Some f ->
  hparams self !! "k"%string = Some (PInt k) ->
  hparams self !! "num_shared_layers"%string = Some (PInt n) ->
  hparams self !! "fc_width"%string = Some (PInt fc_width) ->
  hparams self !! "momentum"%string = Some (PFloat m) ->
  0 < k -> 0 < fc_width ->
  exists w' vals G s,
    bootstrap go_N NEW_FEATURES_PLANES self w = (Ok tt, w') /\
    sessions w !! s = None /\
    files w' = <[f +:+ ".index" := TensorBundle vals]>
               (<[f +:+ ".meta" := MetaGraphDef G]> (files w)) /\
    (20 + 12 * Z.to_nat n < length (variables G))%nat /\
    (forall v, v ∈ variables G -> is_Some (vals !! name v)) /\
    history w' = history w ++ [Initialized s; Saved s f].
Proof.
  intros Hf Hk Hn Hfc Hm Hk0 Hfc0. rewrite bootstrap_eq.
  set (g := fresh ({[0%nat]} ∪ dom (graphs w))).
  set (s := fresh (dom (sessions w))).
  set (w2 := set_sessions _ _). unfold as_default.
  set (wp := set_default_graph (cons g) w2).
  assert (Hcg : current_graph wp = empty_graph).
  { unfold current_graph. cbn. by rewrite lookup_insert_eq. }
  destruct (dual_net_gives go_N
              (mkInput [-1; go_N; go_N; NEW_FEATURES_PLANES]
                       [-1; go_N * go_N + 1] [-1] Placeholders)
              TRAIN_BATCH_SIZE true (hparams self) k n fc_width
              (-1) NEW_FEATURES_PLANES Hk Hn Hfc ltac:(lia) ltac:(lia)
              eq_refl ltac:(by split; [left|]) empty_graph)
    as (G1 & Hnet & Hlen).
  set (out := mkOutput _ _ _) in Hnet.
  destruct (dual_net_regularised _ _ _ _ _ _ _ Hnet) as [Hreg _].
  destruct (train_ops_returns
              (mkInput [-1; go_N; go_N; NEW_FEATURES_PLANES]
                       [-1; go_N * go_N + 1] [-1] Placeholders)
              out (hparams self) G1 m Hreg) as (tensors & G2 & Hops).
  { unfold getitem. by rewrite Hm. }
  rewrite <- Hcg in Hnet.
  destruct (bootstrap_block_runs go_N NEW_FEATURES_PLANES self s g f wp
              (mkSession g ∅) out G1 G2 tensors)
    as (w' & vals & Hblock & Hfiles & Hvals & Hh); try done.
  { cbn. apply lookup_insert_eq. }
  rewrite Hblock. eexists. exists vals, G2, s. split; [reflexivity|].
  split; [apply not_elem_of_dom, is_fresh|]. split; [exact Hfiles|].
  split; [|split; [exact Hvals | exact Hh]].
  apply train_ops_inv in Hops as (step & m' & _ & _ & _ & ->).
  rewrite length_app. simpl in *. lia.
Qed.

(** X16.  With a save location, positive integers [k] and [fc_width],
    an integer [num_shared_layers] and a momentum, [bootstrap] returns
    from every state of the world.  It has then initialised a session
    of its own and written a checkpoint under the save location that
    holds a value for every variable of the network and of the
    optimizer. *)
Theorem bootstrap_returns (self : t) (w : World) (f : string)
    (k n fc_width : Z) (m : Q) :
  save_file self = Some f ->
  hparams self !! "k"%string = Some (PInt k) ->
  hparams self !! "num_shared_layers"%string = Some (PInt n) ->
  hparams self !! "fc_width"%string = Some (PInt fc_width) ->
  hparams self !! "momentum"%string = Some (PFloat m) ->
  0 < k -> 0 < fc_width ->
  exists w' vals G s,
    bootstrap go_N NEW_FEATURES_PLANES self w = (Ok tt, w') /\
    sessions w !! s = None /\
    files w' = <[f +:+ ".index" := TensorBundle vals]>
               (<[f +:+ ".meta" := MetaGraphDef G]> (files w)) /\
    (20 + 12 * Z.to_nat n < length (variables G))%nat /\
    (forall v, v ∈ variables G -> is_Some (vals !! name v)) /\
    history w' = history w ++ [Initialized s; Saved s f].
Proof. apply bootstrap_runs. Qed.

(** X17.  On every board of dimension two or more, a trainer that was
    constructed with a save location and no overrides bootstraps: the
    constructor and then [bootstrap] return, and the checkpoint is
    there. *)
Theorem default_trainer_bootstraps (f : string) (w : World) :
  2 <= Z.abs go_N ->
  exists self w1 w2,
    __init__ go_N (Some f) ∅ w = (Ok self, w1) /\
    bootstrap go_N NEW_FEATURES_PLANES self w1 = (Ok tt, w2) /\
    is_Some (files w2 !! (f +:+ ".index")) /\
    is_Some (files w2 !! (f +:+ ".meta")).
Proof.
  intros HN.
  destruct (round_power_of_two_large (inject_Z (go_N ^ 2) / 3))
    as (e & He & Hk).
  { apply board_cells_pos. lia. }
  { by apply board_cells_large. }
  unfold __init__, mbind at 1, lift, get_default_hyperparams.
  rewrite Hk. cbn [bind py_mul_int].
  unfold mbind, tf_Graph, tf_Session, ret.
  eexists. eexists.
  edestruct (bootstrap_runs) as (w2 & vals & G & s & Hb & _ & Hfiles & _);
    [..|exists w2; split; [reflexivity|]; split; [exact Hb|]].
  - reflexivity.
  - cbn [hparams]. rewrite (left_id_L ∅ (∪)). by simplify_map_eq.
  - cbn [hparams]. rewrite (left_id_L ∅ (∪)). by simplify_map_eq.
  - cbn [hparams]. rewrite (left_id_L ∅ (∪)). by simplify_map_eq.
  - cbn [hparams]. rewrite (left_id_L ∅ (∪)). by simplify_map_eq.
  - by apply Z.pow_pos_nonneg.
  - pose proof (Z.pow_pos_nonneg 2 e). lia.
  - rewrite Hfiles. split.
    + rewrite lookup_insert_eq. eauto.
    + apply lookup_insert_is_Some'. right. rewrite lookup_insert_eq. eauto.
Qed.

End Returns.

Lemma bootstrap_returns_witness :
  exists w' vals,
    bootstrap 9 17 quick_trainer quick_world = (Ok tt, w') /\
    files w' !! "model.index"%string = Some (TensorBundle vals).
Proof.
  destruct (bootstrap_returns 9 17 quick_trainer quick_world "model" 1 1 2 0.9)
    as (w' & vals & G & s & H & _ & Hf & _); try reflexivity; try lia.
  exists w', vals. split; [exact H|]. rewrite Hf. apply lookup_insert_eq.
Defined.

Lemma default_trainer_bootstraps_witness :
  exists self w1 w2,
    __init__ 19 (Some "model"%string) ∅ empty_world = (Ok self, w1) /\
    bootstrap 19 17 self w1 = (Ok tt, w2) /\
    is_Some (files w2 !! "model.index"%string).
Proof.
  destruct (default_trainer_bootstraps 19 17 "model" empty_world)
    as (self & w1 & w2 & Hi & Hb & Hf & _).
  - simpl. lia.
  - exists self, w1, w2. split; [exact Hi|]. split; [exact Hb | exact Hf].
Defined.

End BootstrapRunTheorems.

(** ** From [bootstrap] to the inference engine and to [train] *)

Module CheckpointFacts.
Import DualNetworkTrainer BootstrapFacts BootstrapRun.

Section Checkpoint.
Variable go_N : Z.
Variable NEW_FEATURES_PLANES : Z.

(** What a successful [bootstrap] leaves on disk: a value for every
    variable of the graph that [dual_net] and then [train_ops] build
    from an empty graph. *)
Lemma bootstrap_checkpoint (self : t) (w w1 : World) :
  bootstrap go_N NEW_FEATURES_PLANES self w = (Ok tt, w1) ->
  exists f vals output_tensors G1 tensors G2 s,
    save_file self = Some f /\
    dual_net go_N (mkInput [-1; go_N; go_N; NEW_FEATURES_PLANES]
                           [-1; go_N * go_N + 1] [-1] Placeholders)
             TRAIN_BATCH_SIZE true (hparams self) empty_graph
      = (Ok output_tensors, G1) /\
    train_ops (mkInput [-1; go_N; go_N; NEW_FEATURES_PLANES]
                       [-1; go_N * go_N + 1] [-1] Placeholders)
              output_tensors (hparams self) G1 = (Ok tensors, G2) /\
    files w1 = <[f +:+ ".index" := TensorBundle vals]>
               (<[f +:+ ".meta" := MetaGraphDef G2]> (files w)) /\
    (forall v, v ∈ variables G2 -> is_Some (vals !! name v)) /\
    sessions w !! s = None /\
    history w1 = history w ++ [Initialized s; Saved s f].
Proof.
  rewrite bootstrap_eq.
  set (g := fresh ({[0%nat]} ∪ dom (graphs w))).
  set (s := fresh (dom (sessions w))).
  set (w2 := set_sessions _ _). unfold as_default.
  set (wp := set_default_graph (cons g) w2).
  assert (Hcg : current_graph wp = empty_graph).
  { unfold current_graph. cbn. by rewrite lookup_insert_eq. }
  destruct (bootstrap_block _ _ self s wp) as [r w3] eqn:Hb.
  intros [= -> <-].
  destruct (block_Ok _ _ _ _ _ _ Hb) as (f & Hf & _).
  destruct (bootstrap_block_inv _ _ _ _ _ _ Hb)
    as (out & G1 & tensors & G2 & Hnet & Hops & _).
  destruct (bootstrap_block_runs go_N NEW_FEATURES_PLANES self s g f wp
              (mkSession g ∅) out G1 G2 tensors)
    as (w' & vals & Hblock & Hfiles & Hvals & Hh); try done.
  { cbn. apply lookup_insert_eq. }
  rewrite Hb in Hblock. injection Hblock as <-.
  rewrite Hcg in Hnet.
  exists f, vals, out, G1, tensors, G2, s. repeat split; try done.
  apply not_elem_of_dom, is_fresh.
Qed.

End Checkpoint.

End CheckpointFacts.

Module LoadTheorems.
Import InitializeWeightsFacts WeightsFacts CheckpointFacts.

Section Load.
Variable go_N : Z.
Variable NEW_FEATURES_PLANES : Z.

(** X18.  A checkpoint written by [bootstrap] can be loaded for
    inference.  After [bootstrap] has returned, the constructor of
    [DualNetwork], given the same save location and overrides that
    resolve to the trainer's hyperparameters, returns: the network it
    builds for inference, without a batch size and not in training
    mode, has variables that the checkpoint all holds, and each of
    them gets the value saved for it. *)
Theorem bootstrap_then_load (trainer : DualNetworkTrainer.t)
    (overrides : gmap string pyval) (w w1 : World) :
  DualNetworkTrainer.bootstrap go_N NEW_FEATURES_PLANES trainer w = (Ok tt, w1) ->
  get_default_hyperparams go_N overrides = Ok (DualNetworkTrainer.hparams trainer) ->
  exists f vals engine w2 ss,
    DualNetworkTrainer.save_file trainer = Some f /\
    files w1 !! (f +:+ ".index") = Some (TensorBundle vals) /\
    DualNetwork.__init__ go_N NEW_FEATURES_PLANES (Some f) overrides w1
      = (Ok engine, w2) /\
    is_Some (DualNetwork.inference_output engine) /\
    sessions w1 !! DualNetwork.sess engine = None /\
    sessions w2 !! DualNetwork.sess engine = Some ss /\
    (forall v, v ∈ variables (default empty_graph (graphs w2 !! graph ss)) ->
       is_Some (vals !! name v) /\ values ss !! name v = vals !! name v) /\
    variables (default empty_graph (graphs w2 !! graph ss)) <> [] /\
    history w2 = history w1 ++ [Restored (DualNetwork.sess engine) f].
Proof.
  intros Hboot Hhp.
  apply bootstrap_checkpoint in Hboot
    as (f & vals & out & G1 & tensors & G2 & s0 & Hf & Hnet & Hops & Hfiles
        & Hvals & _ & _).
  assert (Hidx : files w1 !! (f +:+ ".index") = Some (TensorBundle vals)).
  { rewrite Hfiles. apply lookup_insert_eq. }
  exists f, vals.
  unfold DualNetwork.__init__, mbind at 1, lift. rewrite Hhp.
  unfold mbind at 1, tf_Graph.
  set (g := fresh ({[0%nat]} ∪ dom (graphs w1))).
  unfold mbind at 1, tf_Session. cbn [sessions set_graphs].
  set (s := fresh (dom (sessions w1))).
  set (wa := set_sessions _ _).
  unfold DualNetwork.initialize_graph, mbind at 1, sess_graph.
  cbn [DualNetwork.sess]. unfold wa at 1. cbn [sessions set_sessions].
  rewrite lookup_insert_eq. cbn [graph]. unfold as_default.
  set (wp := set_default_graph (cons g) wa).
  assert (Hcg : current_graph wp = empty_graph).
  { unfold current_graph. cbn. by rewrite lookup_insert_eq. }
  (* the inference network has the variables of the training network *)
  destruct (dual_net_alike go_N
              (mkInput [-1; go_N; go_N; NEW_FEATURES_PLANES]
                       [-1; go_N * go_N + 1] [-1] Placeholders)
              (mkInput [-1; go_N; go_N; NEW_FEATURES_PLANES]
                       [-1; go_N * go_N + 1] [-1] Placeholders)
              TRAIN_BATCH_SIZE (-1) true false
              (DualNetworkTrainer.hparams trainer)
              (-1) (-1) NEW_FEATURES_PLANES eq_refl eq_refl
              ltac:(by split; [left|]) ltac:(by split; [left|])
              empty_graph)
    as [HG Hr].
  rewrite Hnet in HG, Hr. cbn [fst snd] in HG, Hr.
  destruct (dual_net go_N _ (-1) false (DualNetworkTrainer.hparams trainer)
              empty_graph) as [[out'|e] G1'] eqn:Hnet'; [|done].
  cbn [snd] in HG. subst G1'.
  destruct (build_returns (get_inference_input go_N NEW_FEATURES_PLANES) wp
              _ _ eq_refl)
    as (wb & Hb & Hcgb & Hdb & Hsb & Hfb & Hhb & _).
  unfold mbind at 1. rewrite Hb. rewrite <- Hcg, <- Hcgb in Hnet'.
  destruct (build_returns _ wb _ _ Hnet')
    as (wc & Hc & Hcgc & Hdc & Hsc & Hfc & Hhc & _).
  unfold mbind at 1. cbn [DualNetwork.hparams]. rewrite Hc.
  cbn [DualNetwork.save_file DualNetwork.sess].
  unfold DualNetwork.initialize_weights. cbn [DualNetwork.sess].
  destruct (dual_net_regularised _ _ _ _ _ _ _ Hnet) as [_ Hne].
  assert (Hcover : forall v, v ∈ variables G1 -> is_Some (vals !! name v)).
  { intros v Hin. apply Hvals.
    apply train_ops_inv in Hops as (step & m & _ & _ & _ & ->).
    apply elem_of_app. by left. }
  assert (Hsc' : sessions wc !! s = Some (mkSession g ∅)).
  { rewrite Hsc, Hsb. cbn. apply lookup_insert_eq. }
  destruct (Saver_restore_returns s f wc (mkSession g ∅) vals Hsc')
    as [wd Hload].
  { by rewrite Hdc, Hdb. }
  { by rewrite Hcgc. }
  { by rewrite Hfc, Hfb. }
  { by rewrite Hcgc. }
  unfold mbind at 1. rewrite Hload. unfold mbind, ret.
  eexists. eexists.
  apply Saver_restore_Ok in Hload
    as (f' & vals' & ss' & Hp & Hf' & Hs' & Hg' & Hv' & _ & _ & Hcgd & Hdd
        & _ & _ & Hhd).
  injection Hp as <-. rewrite Hfc, Hfb in Hf'. cbn in Hf'.
  rewrite Hidx in Hf'. injection Hf' as <-.
  exists ss'. split; [done|]. split; [done|]. split; [reflexivity|].
  cbn [DualNetwork.inference_output DualNetwork.sess].
  split; [eauto|]. split; [apply not_elem_of_dom, is_fresh|].
  cbn [sessions set_default_graph]. split; [exact Hs'|].
  assert (HG : default empty_graph (graphs wd !! graph ss') = G1).
  { rewrite Hg', Hdc, Hdb. cbn [hd wp default_graph set_default_graph].
    unfold current_graph in Hcgd, Hcgc. rewrite Hdd in Hcgd.
    rewrite Hdc, Hdb in Hcgd, Hcgc.
    cbn [hd wp default_graph set_default_graph] in Hcgd, Hcgc. congruence. }
  cbn [graphs set_default_graph]. rewrite HG.
  split; [|split; [done|]].
  - intros v Hin. apply Hv'. by rewrite Hcgc.
  - cbn [history set_default_graph]. rewrite Hhd, Hhc, Hhb. reflexivity.
Qed.

End Load.

Lemma bootstrap_then_load_witness :
  exists w1 engine w2,
    DualNetworkTrainer.bootstrap 9 17
      (DualNetworkTrainer.mk
         (<["k"%string := PInt 32]>
          (<["fc_width"%string := PInt 64]>
          (<["num_shared_layers"%string := PInt 9]>
          (<["l2_strength"%string := PFloat 2e-4]>
          (<["momentum"%string := PFloat 0.9]> ∅)))))
         (Some "model"%string) 0)
      quick_world = (Ok tt, w1) /\
    DualNetwork.__init__ 9 17 (Some "model"%string) ∅ w1 = (Ok engine, w2) /\
    is_Some (DualNetwork.inference_output engine).
Proof.
  set (trainer := DualNetworkTrainer.mk _ _ _).
  destruct (BootstrapRunTheorems.bootstrap_runs 9 17 trainer quick_world
              "model" 32 9 64 0.9)
    as (w1 & vals & G & s & Hb & _); try reflexivity.
  destruct (bootstrap_then_load 9 17 trainer ∅ quick_world w1 Hb)
    as (f & vals' & engine & w2 & ss & Hf & _ & Hinit & Hout & _).
  - rewrite get_default_hyperparams_9. by rewrite (left_id_L ∅ (∪)).
  - injection Hf as <-. exists w1, engine, w2.
    split; [exact Hb|]. split; [exact Hinit | exact Hout].
Defined.

End LoadTheorems.

Module ResumeFacts.
Import DualNetworkTrainer InitializeWeightsFacts WeightsFacts TrainFacts.

(** The graph that [train_ops] leaves behind, and whether it returns, do
    not depend on the input and output tensors. *)
Lemma train_ops_graph (input_tensors input_tensors' : InputTensors)
    (output_tensors output_tensors' : OutputTensors)
    (hparams : gmap string pyval) (G G' : Graph) (tensors : TrainTensors) :
  train_ops input_tensors output_tensors hparams G = (Ok tensors, G') ->
  exists tensors',
    train_ops input_tensors' output_tensors' hparams G = (Ok tensors', G').
Proof.
  rewrite !train_ops_eq. cbn zeta. unfold unique_name. cbn [fst].
  destruct (regularised G) as [|v l]; [discriminate|].
  destruct (v0 <- getitem hparams "momentum";; float_of v0)%result as [m|e];
    [|discriminate].
  intros [= <- <-]. eauto.
Qed.

Section Setup.
Variable go_N : Z.
Variable NEW_FEATURES_PLANES : Z.

(** The part of [train] before the loop returns when the network can
    be built on the session's graph and the weights can be had for the
    graph that results. *)
Lemma train_setup_with (self : t) (tf_records : list Batch)
    (init_from logdir : option string) (w : World)
    (input_tensors : InputTensors) (b batch_size : Z) (train_mode : bool)
    (output_tensors : OutputTensors) (tensors : TrainTensors)
    (G1 G2 : Graph) (calls : list tf_call) :
  pos_tensor input_tensors = [b; go_N; go_N; NEW_FEATURES_PLANES] ->
  batch_fits b batch_size ->
  dual_net go_N input_tensors batch_size train_mode (hparams self)
           (current_graph w) = (Ok output_tensors, G1) ->
  train_ops input_tensors output_tensors (hparams self) G1 = (Ok tensors, G2) ->
  (forall wd,
      current_graph wd = G2 -> sessions wd = sessions w ->
      files wd = files w -> default_graph wd = default_graph w ->
      history wd = history w ->
      exists we,
        initialize_weights self init_from wd = (Ok tt, we) /\
        is_Some (sessions we !! sess self) /\
        history we = history w ++ calls) ->
  exists ctx w',
    train_setup go_N NEW_FEATURES_PLANES self tf_records init_from logdir w
      = (Ok ctx, w') /\
    history w' = history w ++ calls.
Proof.
  intros Hpos Hfits Hnet Hops Hinit. unfold train_setup.
  unfold mbind at 1, get_input_tensors.
  set (it := mkInput _ _ _ _). set (wa := set_iterators _ w).
  assert (Hcga : current_graph wa = current_graph w) by reflexivity.
  destruct (dual_net_alike go_N input_tensors it batch_size TRAIN_BATCH_SIZE
              train_mode true (hparams self) b TRAIN_BATCH_SIZE
              NEW_FEATURES_PLANES Hpos eq_refl Hfits
              ltac:(by split; [right|]) (current_graph w))
    as [HG Hr].
  rewrite Hnet in HG, Hr. cbn [fst snd] in HG, Hr.
  destruct (dual_net go_N it TRAIN_BATCH_SIZE true (hparams self)
              (current_graph w)) as [[out'|e] G1'] eqn:Hnet'; [|done].
  cbn [snd] in HG. subst G1'. rewrite <- Hcga in Hnet'.
  destruct (build_returns _ wa _ _ Hnet')
    as (wb & Hb & Hcgb & Hdb & Hsb & Hfb & Hhb & _).
  unfold mbind at 1. rewrite Hb.
  destruct (train_ops_graph _ it _ out' _ _ _ _ Hops) as [tensors' Hops'].
  rewrite <- Hcgb in Hops'.
  destruct (build_returns _ wb _ _ Hops')
    as (wc & Hc & Hcgc & Hdc & Hsc & Hfc & Hhc & _).
  unfold mbind at 1. rewrite Hc.
  destruct (build_returns logging_ops wc _ _ (logging_ops_eq _))
    as (wd & Hd & Hcgd & Hdd & Hsd & Hfd & Hhd & _).
  unfold mbind at 1. rewrite Hd.
  destruct (Hinit wd) as (we & Hload & [ss' Hs'] & Hh).
  { by rewrite Hcgd, Hcgc. }
  { by rewrite Hsd, Hsc, Hsb. }
  { by rewrite Hfd, Hfc, Hfb. }
  { by rewrite Hdd, Hdc, Hdb. }
  { by rewrite Hhd, Hhc, Hhb. }
  unfold mbind at 1. rewrite Hload.
  destruct logdir as [d|].
  - unfold mbind at 1. unfold mbind at 1, sess_graph. rewrite Hs'.
    unfold mbind, FileWriter, ret. eexists. eexists.
    split; [reflexivity|]. exact Hh.
  - unfold mbind, ret. eexists. eexists. split; [reflexivity|]. exact Hh.
Qed.

(** With the trainer's own checkpoint holding every variable of the
    graph, the weights are restored from it. *)
Lemma train_setup_returns (self : t) (tf_records : list Batch)
    (init_from logdir : option string) (w : World) (ss : Session)
    (f : string) (vals : gmap string tensor)
    (input_tensors : InputTensors) (b batch_size : Z) (train_mode : bool)
    (output_tensors : OutputTensors) (tensors : TrainTensors)
    (G1 G2 : Graph) :
  sessions w !! sess self = Some ss ->
  graph ss = hd 0%nat (default_graph w) ->
  save_file self = Some f ->
  pos_tensor input_tensors = [b; go_N; go_N; NEW_FEATURES_PLANES] ->
  batch_fits b batch_size ->
  dual_net go_N input_tensors batch_size train_mode (hparams self)
           (current_graph w) = (Ok output_tensors, G1) ->
  train_ops input_tensors output_tensors (hparams self) G1 = (Ok tensors, G2) ->
  is_Some (files w !! (f +:+ ".meta")) ->
  files w !! (f +:+ ".index") = Some (TensorBundle vals) ->
  (forall v, v ∈ variables G2 -> is_Some (vals !! name v)) ->
  exists ctx w',
    train_setup go_N NEW_FEATURES_PLANES self tf_records init_from logdir w
      = (Ok ctx, w') /\
    history w' = history w ++ [Restored (sess self) f].
Proof.
  intros Hs Hg Hf Hpos Hfits Hnet Hops Hmeta Hidx Hvals.
  apply (train_setup_with self tf_records init_from logdir w
           input_tensors b batch_size train_mode output_tensors tensors G1 G2);
    try done.
  intros wd Hcgd Hsd Hfd Hdd Hhd.
  assert (Hown : own_checkpoint self wd = true).
  { unfold own_checkpoint. rewrite Hf. apply bool_decide_eq_true.
    by rewrite Hfd. }
  assert (Hne : variables G2 <> []).
  { apply train_ops_inv in Hops as (step & m & _ & _ & _ & ->).
    intros E. by apply app_eq_nil in E as [_ ?]. }
  destruct (Saver_restore_returns (sess self) f wd ss vals) as [we Hload].
  { by rewrite Hsd. }
  { by rewrite Hdd. }
  { by rewrite Hcgd. }
  { by rewrite Hfd. }
  { by rewrite Hcgd. }
  exists we. rewrite initialize_weights_own by done. rewrite Hf.
  split; [exact Hload|].
  apply Saver_restore_Ok in Hload
    as (f' & vals' & ss' & Hp & _ & Hs' & _ & _ & _ & _ & _ & _ & _ & _ & Hhe).
  injection Hp as <-. split; [eauto|]. by rewrite Hhe, Hhd.
Qed.

(** When neither the trainer's own checkpoint nor [init_from] is
    there, the weights are initialised at random. *)
Lemma train_setup_from_scratch (self : t) (tf_records : list Batch)
    (logdir : option string) (w : World) (ss : Session)
    (input_tensors : InputTensors) (b batch_size : Z) (train_mode : bool)
    (output_tensors : OutputTensors) (tensors : TrainTensors)
    (G1 G2 : Graph) :
  sessions w !! sess self = Some ss ->
  graph ss = hd 0%nat (default_graph w) ->
  own_checkpoint self w = false ->
  pos_tensor input_tensors = [b; go_N; go_N; NEW_FEATURES_PLANES] ->
  batch_fits b batch_size ->
  dual_net go_N input_tensors batch_size train_mode (hparams self)
           (current_graph w) = (Ok output_tensors, G1) ->
  train_ops input_tensors output_tensors (hparams self) G1 = (Ok tensors, G2) ->
  exists ctx w',
    train_setup go_N NEW_FEATURES_PLANES self tf_records None logdir w
      = (Ok ctx, w') /\
    history w' = history w ++ [Initialized (sess self)].
Proof.
  intros Hs Hg Hown Hpos Hfits Hnet Hops.
  apply (train_setup_with self tf_records None logdir w
           input_tensors b batch_size train_mode output_tensors tensors G1 G2);
    try done.
  intros wd Hcgd Hsd Hfd Hdd Hhd.
  assert (Hown' : own_checkpoint self wd = false).
  { unfold own_checkpoint in *. by rewrite Hfd. }
  rewrite initialize_weights_other by done.
  unfold mbind at 1, print_stderr.
  set (wd' := set_stderr _ wd).
  destruct (initializer_run_returns (sess self) wd' ss) as [we Hinit].
  { cbn. by rewrite Hsd. }
  { cbn. by rewrite Hdd. }
  exists we. split; [exact Hinit|].
  apply initializer_run_Ok in Hinit
    as (ss' & Hs' & _ & _ & _ & _ & _ & _ & _ & Hhe).
  split; [eauto|]. rewrite Hhe. cbn. by rewrite Hhd.
Qed.

End Setup.

Section Run.
Variable go_N : Z.
Variable NEW_FEATURES_PLANES : Z.
Variable policy_cost_of : gmap string tensor -> Batch -> Q.
Variable value_cost_of : gmap string tensor -> Batch -> Q.
Variable apply_gradients :
  Q -> Batch -> gmap string tensor -> string -> tensor -> tensor.

(** From a successful setup to the end of [train]. *)
Lemma train_after_setup (self : t) (tf_records : list Batch)
    (init_from logdir : option string) (num_steps : option Z)
    (w w1 : World) (ss : Session) (ctx : context) (f : string) :
  sessions w !! sess self = Some ss ->
  save_file self = Some f ->
  train_setup go_N NEW_FEATURES_PLANES self tf_records init_from logdir
              (set_default_graph (cons (graph ss)) w) = (Ok ctx, w1) ->
  exists w2,
    train go_N NEW_FEATURES_PLANES policy_cost_of value_cost_of apply_gradients
          self tf_records init_from logdir num_steps w = (Ok tt, w2) /\
    history w2 =
      history w1 ++
      replicate (length tf_records `min`
                 Z.to_nat (match num_steps with
                           | None => EXAMPLES_PER_GENERATION / TRAIN_BATCH_SIZE
                           | Some n => n
                           end))
                (TrainStep (sess self)) ++
      (if (length tf_records <?
           Z.to_nat (match num_steps with
                     | None => EXAMPLES_PER_GENERATION / TRAIN_BATCH_SIZE
                     | Some n => n
                     end))%nat
       then [Exhausted (sess self)] else []) ++
      [Saved (sess self) f].
Proof.
  intros Hs Hf Hsetup.
  unfold train, mbind at 1, sess_graph. rewrite Hs. unfold as_default.
  unfold mbind at 1. rewrite Hsetup.
  apply TrainTheorems.train_setup_Ok in Hsetup
    as (Hready & Hrun & Hd1 & it & Hsrc & Hit).
  cbn [hd default_graph set_default_graph] in Hready, Hd1.
  destruct (TrainTheorems.train_loop_spec policy_cost_of value_cost_of
              apply_gradients self (graph ss) it (ctx_train_tensors ctx)
              (ctx_weight_tensors ctx) Hsrc
              (range (match num_steps with
                      | None => EXAMPLES_PER_GENERATION / TRAIN_BATCH_SIZE
                      | Some n => n
                      end))
              tf_records (ctx_logging ctx) w1 Hready Hrun Hit)
    as (wl & Hloop & Hrl & _ & _ & _ & Hhl).
  rewrite TrainTheorems.range_length in Hhl.
  unfold mbind at 1. rewrite Hloop.
  destruct (save_weights_Ok self (graph ss) f wl Hrl Hf)
    as (w2 & vals & ss2 & Hsave & _ & _ & _ & _ & _ & Hh2).
  rewrite Hsave. eexists. split; [reflexivity|].
  cbn [history set_default_graph]. rewrite Hh2, Hhl.
  by rewrite <- !app_assoc.
Qed.

End Run.

End ResumeFacts.

Module ResumeTheorems.
Import DualNetworkTrainer CheckpointFacts ResumeFacts.

Section Resume.
Variable go_N : Z.
Variable NEW_FEATURES_PLANES : Z.
Variable policy_cost_of : gmap string tensor -> Batch -> Q.
Variable value_cost_of : gmap string tensor -> Batch -> Q.
Variable apply_gradients :
  Q -> Batch -> gmap string tensor -> string -> tensor -> tensor.

(** X19.  Training resumes from a bootstrap.  After [bootstrap] has
    returned, [train] on a trainer with the same save location and
    hyperparameters, whose session is open on an empty graph, returns
    for every list of records, every [init_from], every [logdir] and
    every [num_steps]: it restores the weights of the bootstrap, does
    one step per batch until the steps or the batches run out, and
    saves to the same location. *)
Theorem bootstrap_then_train (trainer other : t) (tf_records : list Batch)
    (init_from logdir : option string) (num_steps : option Z)
    (w w1 : World) (ss : Session) :
  bootstrap go_N NEW_FEATURES_PLANES trainer w = (Ok tt, w1) ->
  save_file other = save_file trainer ->
  hparams other = hparams trainer ->
  sessions w1 !! sess other = Some ss ->
  default empty_graph (graphs w1 !! graph ss) = empty_graph ->
  let n := Z.to_nat (match num_steps with
                     | None => EXAMPLES_PER_GENERATION / TRAIN_BATCH_SIZE
                     | Some n => n
                     end) in
  let m := length tf_records in
  exists f w2,
    save_file trainer = Some f /\
    train go_N NEW_FEATURES_PLANES policy_cost_of value_cost_of apply_gradients
          other tf_records init_from logdir num_steps w1 = (Ok tt, w2) /\
    history w2 =
      history w1 ++ [Restored (sess other) f] ++
      replicate (m `min` n) (TrainStep (sess other)) ++
      (if (m <? n)%nat then [Exhausted (sess other)] else []) ++
      [Saved (sess other) f].
Proof.
  intros Hboot Hsf Hhp Hs Hempty n m.
  apply bootstrap_checkpoint in Hboot
    as (f & vals & out & G1 & tensors & G2 & s0 & Hf & Hnet & Hops & Hfiles
        & Hvals & _ & _).
  rewrite Hf in Hsf. rewrite <- Hhp in Hnet, Hops.
  set (wp := set_default_graph (cons (graph ss)) w1).
  assert (Hcg : current_graph wp = empty_graph) by exact Hempty.
  rewrite <- Hcg in Hnet.
  destruct (train_setup_returns go_N NEW_FEATURES_PLANES other tf_records
              init_from logdir wp ss f vals
              (mkInput [-1; go_N; go_N; NEW_FEATURES_PLANES]
                       [-1; go_N * go_N + 1] [-1] Placeholders)
              (-1) TRAIN_BATCH_SIZE true out tensors G1 G2
              Hs eq_refl Hsf eq_refl ltac:(by split; [left|]) Hnet Hops)
    as (ctx & w1' & Hsetup & Hh).
  { cbn. rewrite Hfiles. apply lookup_insert_is_Some'. right.
    rewrite lookup_insert_eq. eauto. }
  { cbn. rewrite Hfiles. apply lookup_insert_eq. }
  { exact Hvals. }
  destruct (train_after_setup go_N NEW_FEATURES_PLANES policy_cost_of
              value_cost_of apply_gradients other tf_records init_from logdir
              num_steps w1 w1' ss ctx f Hs Hsf Hsetup) as (w2 & Htrain & Hh2).
  exists f, w2. split; [done|]. split; [exact Htrain|].
  rewrite Hh2, Hh. cbn [history wp set_default_graph]. fold n m.
  by rewrite <- !app_assoc.
Qed.

(** X20.  Training from scratch.  On a trainer whose session is open
    on an empty graph, with a save location under which no checkpoint
    exists yet, positive integers [k] and [fc_width], an integer
    [num_shared_layers] and a momentum, [train] without [init_from]
    returns for every list of records, every [logdir] and every
    [num_steps]: every variable is given the value of its initializer,
    the steps are done, and the first checkpoint is written. *)
Theorem train_from_scratch (self : t) (tf_records : list Batch)
    (logdir : option string) (num_steps : option Z) (w : World)
    (ss : Session) (f : string) (k layers fc_width : Z) (momentum : Q) :
  sessions w !! sess self = Some ss ->
  default empty_graph (graphs w !! graph ss) = empty_graph ->
  save_file self = Some f ->
  files w !! (f +:+ ".meta") = None ->
  hparams self !! "k"%string = Some (PInt k) ->
  hparams self !! "num_shared_layers"%string = Some (PInt layers) ->
  hparams self !! "fc_width"%string = Some (PInt fc_width) ->
  hparams self !! "momentum"%string = Some (PFloat momentum) ->
  0 < k -> 0 < fc_width ->
  let n := Z.to_nat (match num_steps with
                     | None => EXAMPLES_PER_GENERATION / TRAIN_BATCH_SIZE
                     | Some n => n
                     end) in
  let m := length tf_records in
  exists w2,
    train go_N NEW_FEATURES_PLANES policy_cost_of value_cost_of apply_gradients
          self tf_records None logdir num_steps w = (Ok tt, w2) /\
    history w2 =
      history w ++ [Initialized (sess self)] ++
      replicate (m `min` n) (TrainStep (sess self)) ++
      (if (m <? n)%nat then [Exhausted (sess self)] else []) ++
      [Saved (sess self) f].
Proof.
  intros Hs Hempty Hf Hmeta Hk Hn Hfc Hm Hk0 Hfc0 n m.
  set (wp := set_default_graph (cons (graph ss)) w).
  assert (Hcg : current_graph wp = empty_graph) by exact Hempty.
  destruct (dual_net_gives go_N
              (mkInput [-1; go_N; go_N; NEW_FEATURES_PLANES]
                       [-1; go_N * go_N + 1] [-1] Placeholders)
              TRAIN_BATCH_SIZE true (hparams self) k layers fc_width
              (-1) NEW_FEATURES_PLANES Hk Hn Hfc ltac:(lia) ltac:(lia)
              eq_refl ltac:(by split; [left|]) empty_graph)
    as (G1 & Hnet & _).
  set (out := mkOutput _ _ _) in Hnet.
  destruct (dual_net_regularised _ _ _ _ _ _ _ Hnet) as [Hreg _].
  destruct (train_ops_returns
              (mkInput [-1; go_N; go_N; NEW_FEATURES_PLANES]
                       [-1; go_N * go_N + 1] [-1] Placeholders)
              out (hparams self) G1 momentum Hreg) as (tensors & G2 & Hops).
  { unfold getitem. by rewrite Hm. }
  rewrite <- Hcg in Hnet.
  destruct (train_setup_from_scratch go_N NEW_FEATURES_PLANES self tf_records
              logdir wp ss
              (mkInput [-1; go_N; go_N; NEW_FEATURES_PLANES]
                       [-1; go_N * go_N + 1] [-1] Placeholders)
              (-1) TRAIN_BATCH_SIZE true out tensors G1 G2
              Hs eq_refl)
    as (ctx & w1' & Hsetup & Hh); try done.
  { unfold own_checkpoint. rewrite Hf. apply bool_decide_eq_false.
    cbn. rewrite Hmeta. by intros [? ?]. }
  { by split; [left|]. }
  destruct (train_after_setup go_N NEW_FEATURES_PLANES policy_cost_of
              value_cost_of apply_gradients self tf_records None logdir
              num_steps w w1' ss ctx f Hs Hf Hsetup) as (w2 & Htrain & Hh2).
  exists w2. split; [exact Htrain|].
  rewrite Hh2, Hh. cbn [history wp set_default_graph]. fold n m.
  by rewrite <- !app_assoc.
Qed.

End Resume.

Lemma bootstrap_then_train_witness :
  exists w1 w2 h,
    bootstrap 9 17 quick_trainer quick_world = (Ok tt, w1) /\
    train 9 17 unit_cost unit_cost keep_weights quick_trainer three_batches
          None None (Some 10) w1 = (Ok tt, w2) /\
    history w2 =
      h ++ [Restored 0 "model"; TrainStep 0; TrainStep 0; TrainStep 0;
            Exhausted 0; Saved 0 "model"].
Proof.
  destruct (BootstrapRunTheorems.bootstrap_runs 9 17 quick_trainer quick_world
              "model" 1 1 2 0.9)
    as (w1 & vals & G & s & Hb & _); try reflexivity; try lia.
  destruct (BootstrapFacts.bootstrap_frame 9 17 quick_trainer quick_world w1
              (Ok tt) Hb) as (Hss & Hgs & _).
  destruct (bootstrap_then_train 9 17 unit_cost unit_cost keep_weights
              quick_trainer quick_trainer three_batches None None (Some 10)
              quick_world w1 (mkSession 1 ∅) Hb eq_refl eq_refl)
    as (f & w2 & Hf & Htrain & Hh).
  - apply Hss. reflexivity.
  - cbn [graph]. rewrite (Hgs 1%nat empty_graph); reflexivity.
  - injection Hf as <-. exists w1, w2, (history w1).
    split; [exact Hb|]. split; [exact Htrain | exact Hh].
Defined.

Lemma train_from_scratch_witness :
  exists w2,
    train 9 17 unit_cost unit_cost keep_weights quick_trainer three_batches
          None (Some "logs"%string) (Some 2) quick_world = (Ok tt, w2) /\
    history w2 = [Initialized 0; TrainStep 0; TrainStep 0; Saved 0 "model"].
Proof.
  apply (train_from_scratch 9 17 unit_cost unit_cost keep_weights quick_trainer
           three_batches (Some "logs"%string) (Some 2) quick_world
           (mkSession 1 ∅) "model" 1 1 2 0.9); try reflexivity; lia.
Defined.

End ResumeTheorems.

(** ** The inference engine: construction *)

Module EngineFacts.
Import DualNetwork InitializeWeightsFacts WeightsFacts WeightsErrors.

Section Construct.
Variable go_N : Z.
Variable NEW_FEATURES_PLANES : Z.

(** The constructor up to the point where the weights are obtained:
    a session of its own on a graph of its own, with the network for
    inference built on it. *)
Lemma init_builds (file : option string) (overrides hp : gmap string pyval)
    (w : World) (output_tensors : OutputTensors) (G1 : Graph) :
  get_default_hyperparams go_N overrides = Ok hp ->
  dual_net go_N (mkInput [-1; go_N; go_N; NEW_FEATURES_PLANES]
                         [-1; go_N * go_N + 1] [-1] Placeholders)
           (-1) false hp empty_graph = (Ok output_tensors, G1) ->
  let g := fresh ({[0%nat]} ∪ dom (graphs w)) in
  let s := fresh (dom (sessions w)) in
  let self := mk file hp
                 (Some (mkInput [-1; go_N; go_N; NEW_FEATURES_PLANES]
                                [-1; go_N * go_N + 1] [-1] Placeholders))
                 (Some output_tensors) s in
  exists wc,
    current_graph wc = G1 /\
    hd 0%nat (default_graph wc) = g /\
    sessions wc !! s = Some (mkSession g ∅) /\
    files wc = files w /\ history wc = history w /\
    default_graph wc = g :: default_graph w /\
    __init__ go_N NEW_FEATURES_PLANES file overrides w =
    ((mbind (match file with
             | Some f => initialize_weights self f
             | None => mbind global_variables_initializer
                             (fun op => run_init s op)
             end) (fun _ => ret self) wc).1,
     set_default_graph (drop 1)
       (mbind (match file with
               | Some f => initialize_weights self f
               | None => mbind global_variables_initializer
                               (fun op => run_init s op)
               end) (fun _ => ret self) wc).2).
Proof.
  intros Hhp Hnet g s self.
  unfold __init__, mbind at 1, lift. rewrite Hhp.
  unfold mbind at 1, tf_Graph. fold g.
  unfold mbind at 1, tf_Session. cbn [sessions set_graphs]. fold s.
  set (wa := set_sessions _ _).
  unfold initialize_graph, mbind at 1, sess_graph.
  cbn [sess]. unfold wa at 1. cbn [sessions set_sessions].
  rewrite lookup_insert_eq. cbn [graph]. unfold as_default.
  set (wp := set_default_graph (cons g) wa).
  assert (Hcg : current_graph wp = empty_graph).
  { unfold current_graph. cbn. by rewrite lookup_insert_eq. }
  destruct (build_returns (get_inference_input go_N NEW_FEATURES_PLANES) wp
              _ _ eq_refl)
    as (wb & Hb & Hcgb & Hdb & Hsb & Hfb & Hhb & _).
  unfold mbind at 1. rewrite Hb. rewrite <- Hcg, <- Hcgb in Hnet.
  destruct (build_returns _ wb _ _ Hnet)
    as (wc & Hc & Hcgc & Hdc & Hsc & Hfc & Hhc & _).
  unfold mbind at 1. cbn [hparams]. rewrite Hc.
  cbn [save_file sess]. exists wc.
  split; [exact Hcgc|]. split; [by rewrite Hdc, Hdb|].
  split; [rewrite Hsc, Hsb; cbn; apply lookup_insert_eq|].
  split; [by rewrite Hfc, Hfb|]. split; [by rewrite Hhc, Hhb|].
  split; [by rewrite Hdc, Hdb|].
  fold self. by destruct (mbind _ _ wc).
Qed.

End Construct.

End EngineFacts.

Module EngineTheorems.
Import DualNetwork InitializeWeightsFacts InitializeWeightsTheorems
       WeightsFacts WeightsErrors EngineFacts.

Section Construct.
Variable go_N : Z.
Variable NEW_FEATURES_PLANES : Z.

(** X21.  Without a save file the constructor of [DualNetwork]
    returns whenever the hyperparameters resolve to positive integers
    [k] and [fc_width] and an integer [num_shared_layers]: it opens a
    session of its own, builds the network for inference, whose
    outputs have one row per example, and gives every variable the
    value of its initializer.  The stack of default graphs is as it
    was. *)
Theorem engine_without_save_file (overrides hp : gmap string pyval)
    (w : World) (k layers fc_width : Z) :
  get_default_hyperparams go_N overrides = Ok hp ->
  hp !! "k"%string = Some (PInt k) ->
  hp !! "num_shared_layers"%string = Some (PInt layers) ->
  hp !! "fc_width"%string = Some (PInt fc_width) ->
  0 < k -> 0 < fc_width ->
  exists engine w' ss output_tensors,
    __init__ go_N NEW_FEATURES_PLANES None overrides w = (Ok engine, w') /\
    sessions w !! sess engine = None /\
    sessions w' !! sess engine = Some ss /\
    graphs w !! graph ss = None /\
    inference_output engine = Some output_tensors /\
    policy_output output_tensors = [-1; go_N * go_N + 1] /\
    value_output output_tensors = [-1] /\
    length (variables (default empty_graph (graphs w' !! graph ss)))
      = (20 + 12 * Z.to_nat layers)%nat /\
    (forall v, v ∈ variables (default empty_graph (graphs w' !! graph ss)) ->
               is_Some (values ss !! name v)) /\
    default_graph w' = default_graph w /\
    history w' = history w ++ [Initialized (sess engine)].
Proof.
  intros Hhp Hk Hn Hfc Hk0 Hfc0.
  destruct (dual_net_gives go_N
              (mkInput [-1; go_N; go_N; NEW_FEATURES_PLANES]
                       [-1; go_N * go_N + 1] [-1] Placeholders)
              (-1) false hp k layers fc_width (-1) NEW_FEATURES_PLANES
              Hk Hn Hfc ltac:(lia) ltac:(lia) eq_refl
              ltac:(by split; [left|]) empty_graph)
    as (G1 & Hnet & Hlen).
  set (out := mkOutput _ _ _) in Hnet.
  destruct (init_builds go_N NEW_FEATURES_PLANES None overrides hp w out G1
              Hhp Hnet) as (wc & Hcg & Hd & Hs & Hf & Hh & Hdg & ->).
  set (g := fresh ({[0%nat]} ∪ dom (graphs w))) in *.
  set (s := fresh (dom (sessions w))) in *.
  destruct (initializer_run_returns s wc (mkSession g ∅) Hs) as [wd Hinit];
    [by rewrite Hd|].
  rewrite (mbind_Ok_eq _ _ _ _ _ Hinit). cbn [fst snd ret].
  apply initializer_run_Ok in Hinit
    as (ss' & Hs' & Hg' & Hv' & _ & Hcgd & Hdd & _ & _ & Hhd).
  eexists. eexists. exists ss', out. split; [reflexivity|]. cbn [sess].
  split; [apply not_elem_of_dom, is_fresh|].
  split; [exact Hs'|].
  assert (Hgs : graph ss' = g) by congruence.
  split.
  { rewrite Hgs. apply not_elem_of_dom.
    pose proof (is_fresh ({[0%nat]} ∪ dom (graphs w))) as Hfr.
    fold g in Hfr. set_solver. }
  cbn [inference_output]. split; [reflexivity|].
  destruct (dual_net_shapes go_N _ _ _ _ _ _ _ Hnet) as (_ & Hpol & Hval).
  split; [exact Hpol|]. split; [exact Hval|].
  assert (HG : default empty_graph
                 (graphs (set_default_graph (drop 1) wd) !! graph ss') = G1).
  { cbn [graphs set_default_graph]. rewrite Hgs.
    unfold current_graph in Hcgd, Hcg. rewrite Hdd, Hd in Hcgd.
    rewrite Hd in Hcg. congruence. }
  rewrite HG. split; [simpl in Hlen; lia|]. split.
  { intros v Hin. apply Hv'. by rewrite Hcg. }
  cbn [default_graph history set_default_graph]. rewrite Hdd, Hdg, Hhd, Hh.
  done.
Qed.

(** X22.  With a save file under which nothing was saved, and
    hyperparameters with which the network can be built (positive
    integers [k] and [fc_width]), the constructor of [DualNetwork]
    raises [NotFoundError]: unlike the trainer, the engine does not
    fall back to random weights.  No file has been written. *)
Theorem engine_missing_checkpoint (overrides hp : gmap string pyval)
    (w : World) (f : string) (k layers fc_width : Z) :
  get_default_hyperparams go_N overrides = Ok hp ->
  hp !! "k"%string = Some (PInt k) ->
  hp !! "num_shared_layers"%string = Some (PInt layers) ->
  hp !! "fc_width"%string = Some (PInt fc_width) ->
  0 < k -> 0 < fc_width ->
  files w !! (f +:+ ".index") = None ->
  exists w',
    __init__ go_N NEW_FEATURES_PLANES (Some f) overrides w
      = (Raise NotFoundError, w') /\
    files w' = files w /\ history w' = history w.
Proof.
  intros Hhp Hk Hn Hfc Hk0 Hfc0 Hmissing.
  destruct (dual_net_gives go_N
              (mkInput [-1; go_N; go_N; NEW_FEATURES_PLANES]
                       [-1; go_N * go_N + 1] [-1] Placeholders)
              (-1) false hp k layers fc_width (-1) NEW_FEATURES_PLANES
              Hk Hn Hfc ltac:(lia) ltac:(lia) eq_refl
              ltac:(by split; [left|]) empty_graph)
    as (G1 & Hnet & Hlen).
  set (out := mkOutput _ _ _) in Hnet.
  destruct (init_builds go_N NEW_FEATURES_PLANES (Some f) overrides hp w out G1
              Hhp Hnet) as (wc & Hcg & Hd & Hs & Hf & Hh & Hdg & ->).
  destruct (dual_net_regularised _ _ _ _ _ _ _ Hnet) as [_ Hne].
  match goal with
  | |- context [mbind (initialize_weights ?self f) _ wc] =>
      assert (Hload : exists wd,
                initialize_weights self f wc = (Raise NotFoundError, wd) /\
                files wd = files wc /\ history wd = history wc)
  end.
  { unfold initialize_weights, mbind. cbn [sess].
    rewrite Saver_nonempty by by rewrite Hcg.
    unfold restore. cbn [sessions set_graphs files saver_graph].
    rewrite Hs, Hd. cbn [graph]. rewrite Nat.eqb_refl. cbn [negb].
    rewrite Hf, Hmissing. eauto. }
  destruct Hload as (wd & Hload & Hfd & Hhd).
  rewrite (mbind_Raise_eq _ _ _ _ _ Hload). cbn [fst snd].
  eexists. split; [reflexivity|]. cbn [files history set_default_graph].
  split; congruence.
Qed.

End Construct.

(** X23.  [DualNetwork.initialize_weights] makes its saver on the
    default graph, not on the graph of the engine's session.  Called
    while the default graph has no variables, as it is when the
    networks were all built by constructors of engines, each inside the
    graph of its session, it raises [ValueError], whatever the file
    holds, and leaves the weights as they were. *)
Theorem engine_reload_needs_context (self : t) (f : string) (w : World) :
  variables (current_graph w) = [] ->
  exists w',
    initialize_weights self f w = (Raise ValueError, w') /\
    sessions w' = sessions w /\ files w' = files w /\ history w' = history w.
Proof. intros E. by apply Saver_restore_empty. Qed.

Lemma engine_without_save_file_witness :
  exists engine w' ss output_tensors,
    __init__ 9 17 None ∅ empty_world = (Ok engine, w') /\
    sessions w' !! sess engine = Some ss /\
    inference_output engine = Some output_tensors /\
    policy_output output_tensors = [-1; 82] /\
    length (variables (default empty_graph (graphs w' !! graph ss))) = 128%nat.
Proof.
  destruct (engine_without_save_file 9 17 ∅ _ empty_world 32 9 64
              (get_default_hyperparams_9 ∅))
    as (engine & w' & ss & out & Hi & _ & Hs & _ & Ho & Hp & _ & Hl & _);
    try (rewrite (left_id_L ∅ (∪)); reflexivity); try lia.
  exists engine, w', ss, out. repeat split; assumption.
Defined.

Lemma engine_missing_checkpoint_witness :
  exists w',
    __init__ 9 17 (Some "nowhere"%string) ∅ two_checkpoints
      = (Raise NotFoundError, w') /\
    files w' = files two_checkpoints.
Proof.
  destruct (engine_missing_checkpoint 9 17 ∅ _ two_checkpoints "nowhere" 32 9 64
              (get_default_hyperparams_9 ∅))
    as (w' & Hi & Hf & _);
    try (rewrite (left_id_L ∅ (∪)); reflexivity); try lia.
  - reflexivity.
  - exists w'. split; assumption.
Defined.

Lemma engine_reload_needs_context_witness :
  exists w',
    initialize_weights tiny_engine "model" tiny_world = (Raise ValueError, w') /\
    sessions w' = sessions tiny_world.
Proof.
  destruct (engine_reload_needs_context tiny_engine "model" tiny_world)
    as (w' & H & Hs & _).
  - reflexivity.
  - exists w'. split; assumption.
Defined.

End EngineTheorems.

(** ** Constructors and inference: what they leave alone *)

Module ConstructorTheorems.

(** X24.  The constructor of the trainer raises exactly when the
    hyperparameters cannot be resolved, that is on a board of dimension
    zero, and then nothing was allocated: the world is as it was.
    Otherwise it returns a trainer that carries the save location and
    the resolved hyperparameters and whose session did not exist before;
    no file is read or written. *)
Theorem trainer_constructor (go_N : Z) (file : option string)
    (overrides : gmap string pyval) (w : World) :
  (go_N = 0 ->
   DualNetworkTrainer.__init__ go_N file overrides w = (Raise ValueError, w)) /\
  (go_N <> 0 ->
   exists self w',
     DualNetworkTrainer.__init__ go_N file overrides w = (Ok self, w') /\
     DualNetworkTrainer.save_file self = file /\
     get_default_hyperparams go_N overrides = Ok (DualNetworkTrainer.hparams self) /\
     sessions w !! DualNetworkTrainer.sess self = None /\
     files w' = files w /\ default_graph w' = default_graph w /\
     history w' = history w).
Proof.
  split.
  - intros ->. unfold DualNetworkTrainer.__init__, mbind at 1, lift.
    by rewrite get_default_hyperparams_0.
  - intros HN.
    destruct (get_default_hyperparams_Ok go_N overrides HN)
      as (k & fc & _ & _ & Hok).
    unfold DualNetworkTrainer.__init__, mbind at 1, lift. rewrite Hok.
    unfold mbind, tf_Graph, tf_Session, ret. eexists. eexists.
    split; [reflexivity|]. cbn. repeat split.
    apply not_elem_of_dom, is_fresh.
Qed.

Lemma trainer_constructor_witness :
  DualNetworkTrainer.__init__ 0 (Some "model"%string) ∅ two_checkpoints
    = (Raise ValueError, two_checkpoints) /\
  exists self w',
    DualNetworkTrainer.__init__ 9 (Some "model"%string) ∅ two_checkpoints
      = (Ok self, w') /\
    DualNetworkTrainer.save_file self = Some "model"%string /\
    files w' = files two_checkpoints.
Proof.
  split.
  - by apply (proj1 (trainer_constructor 0 (Some "model"%string) ∅
                       two_checkpoints)).
  - destruct (proj2 (trainer_constructor 9 (Some "model"%string) ∅
                       two_checkpoints)) as (self & w' & H & Hf & _ & _ & Hfs & _);
      [discriminate|].
    exists self, w'. split; [exact H|]. split; [exact Hf | exact Hfs].
Defined.

End ConstructorTheorems.

Module InferenceTheorems.
Import symmetries DualNetwork SymmetryFacts.

Section ReadOnly.
Variable go_N : Z.
Variable Position : Type.
Variable extract_features : Position -> feature.
Variable forward : gmap string tensor -> list feature -> list pi * list Q.

(** X25.  Inference reads and never writes.  Whether [run_many]
    returns or raises, every session, graph and file is as it was and
    the history has no new entry; without random symmetries the world
    is unchanged altogether, and with them only the state of the
    random generator has moved, by one draw per position, drawn
    before the network is run. *)
Theorem run_many_reads_only (self : t) (positions : list Position)
    (use_random_symmetry : bool) (w : World) :
  let out := run_many go_N Position extract_features forward self positions
                      use_random_symmetry w in
  out.2 = (if use_random_symmetry then after_draws (length positions) w else w) /\
  sessions out.2 = sessions w /\ graphs out.2 = graphs w /\
  files out.2 = files w /\ history out.2 = history w.
Proof.
  cbn zeta.
  assert (Heq : forall b : bool,
    run_many go_N Position extract_features forward self positions b w =
    (let (r, w0) := (if b
                     then randomize_symmetries_feat (map extract_features positions)
                     else ret ([], map extract_features positions)) w in
     match r with
     | Ok (syms, processed) =>
         mbind (run_inference forward self processed)
               (fun '(probabilities, value) =>
                  ret (if b
                       then invert_symmetries_pi (Z.to_nat go_N) syms probabilities
                       else probabilities, value)) w0
     | Raise e => (Raise e, w0)
     end)).
  { intros b. unfold run_many, mbind at 1.
    destruct b; [|reflexivity].
    by destruct (randomize_symmetries_feat (map extract_features positions) w)
      as [[[syms processed]|e] w0]. }
  rewrite Heq. clear Heq.
  assert (Hout : forall (g : list pi -> list pi) processed w0,
    (mbind (run_inference forward self processed)
           (fun '(probabilities, value) => ret (g probabilities, value))
           w0).2 = w0).
  { intros g processed w0. unfold mbind, run_inference.
    destruct (sessions w0 !! sess self) as [ss|], (inference_output self) as [o|];
      try reflexivity.
    by destruct (forward (values ss) processed). }
  destruct use_random_symmetry.
  - rewrite randomize_symmetries_feat_eq. rewrite length_map.
    destruct (after_draws_fields (length positions) w)
      as (Hs & Hg & Hf & Hh & _).
    match goal with
    | |- (?o).2 = _ /\ _ =>
        assert (E : o.2 = after_draws (length positions) w)
          by exact (Hout (invert_symmetries_pi (Z.to_nat go_N)
                            (drawn_symmetries w (length positions))) _ _);
        rewrite E
    end.
    split; [reflexivity|]. by repeat split.
  - change (ret ([], map extract_features positions) w)
      with (Ok (@nil symmetry, map extract_features positions), w).
    cbv iota.
    match goal with
    | |- (?o).2 = _ /\ _ =>
        assert (E : o.2 = w) by exact (Hout (fun p => p) _ _); rewrite E
    end.
    by repeat split.
Qed.

End ReadOnly.

End InferenceTheorems.

(** ** The trainer: what [train] writes to the log *)

Module LogFacts.
Import DualNetworkTrainer.

Lemma logs_restore (sv : saver) (s : nat) (p : option string) : keeps logs (restore sv s p).
Proof.
  intros w. unfold restore. destruct p as [f|]; [|by destruct (sessions w !! s)].
  destruct (sessions w !! s) as [ss|]; [|done]. destruct (negb _); [done|].
  destruct (files w !! _) as [[G|vals]|]; try done.
  by destruct (lookup_all _ _).
Qed.

Lemma logs_save (sv : saver) (s : nat) (p : option string) : keeps logs (save sv s p).
Proof.
  intros w. unfold save. destruct p as [f|]; [|done].
  destruct (sessions w !! s) as [ss|]; [|done]. destruct (negb _); [done|].
  by destruct (lookup_all _ _).
Qed.

Lemma logs_run_init (s : nat) (op : init_op) : keeps logs (run_init s op).
Proof.
  unfold run_init. apply keeps_bind; [apply keeps_sess_graph|]. intros g.
  destruct (negb _); [apply keeps_raise|].
  apply keeps_bind; [by apply keeps_init_all|]. by intros _ w.
Qed.

Lemma logs_initialize_weights (self : t) (init_from : option string) :
  keeps logs (initialize_weights self init_from).
Proof.
  unfold initialize_weights. apply keeps_bind.
  { destruct (save_file self); [apply keeps_os_path_exists | apply keeps_ret]. }
  intros [|].
  - apply keeps_bind; [by apply keeps_Saver|]. intros sv. apply logs_restore.
  - destruct init_from as [p|].
    + apply keeps_bind; [by apply keeps_print_stderr|]. intros _.
      apply keeps_bind; [by apply keeps_Saver|]. intros sv. apply logs_restore.
    + apply keeps_bind; [by apply keeps_print_stderr|]. intros _.
      apply keeps_bind; [by apply keeps_global_variables_initializer|].
      intros op. apply logs_run_init.
Qed.

Lemma logs_save_weights (self : t) : keeps logs (save_weights self).
Proof.
  unfold save_weights. apply keeps_bind; [apply keeps_sess_graph|]. intros g.
  apply keeps_as_default; [done|].
  apply keeps_bind; [by apply keeps_Saver|]. intros sv. apply logs_save.
Qed.

Section Loop.
Variable policy_cost_of : gmap string tensor -> Batch -> Q.
Variable value_cost_of : gmap string tensor -> Batch -> Q.
Variable apply_gradients :
  Q -> Batch -> gmap string tensor -> string -> tensor -> tensor.

Lemma logs_run_train (s : nat) (tensors : TrainTensors) :
  keeps logs (run_train policy_cost_of value_cost_of apply_gradients s tensors).
Proof.
  intros w. unfold run_train.
  destruct (sessions w !! s) as [ss|]; [|done].
  destruct (source (inputs tensors)) as [|it]; [done|].
  destruct (iterators w !! it) as [[|b rest]|]; try done.
  destruct (eval_l2_cost _ _) as [l2|e]; [|done].
  by destruct (values ss !! global_step tensors).
Qed.

(** One iteration's logging: two events when the index is a multiple
    of one hundred, none otherwise; other logs are left alone. *)
Lemma log_step_logs (self : t) (g : nat) (tensors : TrainTensors)
    (wts : list string) (i : Z) (tv : fetched.t) (st : StatisticsCollector.t)
    (logger : string) (w : World) :
  ready (sess self) g w ->
  runnable tensors wts (current_graph w) ->
  exists st' w' evs,
    log_step self wts i tv st logger w = (Ok st', w') /\
    same_runtime w w' /\
    default [] (logs w' !! logger) = default [] (logs w !! logger) ++ evs /\
    length evs = (if decide (i mod 100 = 0) then 2%nat else 0%nat) /\
    (forall d, d <> logger -> logs w' !! d = logs w !! d).
Proof.
  intros (Hd & Hne & ss & Hs & Hg & Hv) (_ & _ & Hw).
  unfold log_step.
  destruct (Z.eqb_spec (i mod 100) 0) as [Hi|Hi].
  2:{ exists (StatisticsCollector.report st (fetched.policy_cost tv)
               (fetched.value_cost tv) (fetched.l2_cost tv)
               (fetched.combined_cost tv)), w, [].
      rewrite decide_False by done. rewrite app_nil_r.
      split; [reflexivity|]. split; [apply same_runtime_refl|]. done. }
  destruct (collect_report st (fetched.policy_cost tv) (fetched.value_cost tv)
              (fetched.l2_cost tv) (fetched.combined_cost tv)) as [summary Hc].
  unfold mbind at 1, lift. rewrite Hc.
  unfold mbind at 1, run_weights. rewrite Hs.
  assert (Hm : is_Some (mapM (fun x => (fun t => (x, t)) <$> values ss !! x) wts)).
  { apply mapM_is_Some, Forall_forall. intros x Hx. unfold compose.
    destruct (Hw x Hx) as (v & Hin & <-). destruct (Hv v Hin) as [t ->].
    by eexists. }
  destruct Hm as [l ->].
  eexists. eexists.
  exists [ScalarEvent summary (hd 0%Q (fetched.global_step tv));
          HistogramEvent l (hd 0%Q (fetched.global_step tv))].
  split; [reflexivity|]. split; [by repeat split|].
  rewrite decide_True by done. cbn.
  split; [|split; [reflexivity|]].
  - rewrite !lookup_insert_eq. cbn. by rewrite <- app_assoc.
  - intros d Hne'. by rewrite !lookup_insert_ne.
Qed.

(** The loop writes two events for each index that is a multiple of
    one hundred among the steps it does. *)
Lemma train_loop_logs (self : t) (g it : nat) (tensors : TrainTensors)
    (wts : list string) (logger : string) :
  source (inputs tensors) = Iterator it ->
  forall (indices : list Z) (bs : list Batch) (st : StatisticsCollector.t)
         (w : World),
    ready (sess self) g w ->
    runnable tensors wts (current_graph w) ->
    iterators w !! it = Some bs ->
    exists w' evs,
      train_loop policy_cost_of value_cost_of apply_gradients
                 self tensors wts indices (Some (st, logger)) w = (Ok tt, w') /\
      default [] (logs w' !! logger) = default [] (logs w !! logger) ++ evs /\
      length evs =
        (2 * length (filter (fun i : Z => (i mod 100 = 0)%Z)
                            (take (length bs) indices)))%nat /\
      (forall d, d <> logger -> logs w' !! d = logs w !! d).
Proof.
  intros Hsrc. induction indices as [|i indices IH]; intros bs st w Hr Hrun Hit.
  - exists w, []. rewrite take_nil, app_nil_r. by repeat split.
  - simpl train_loop. unfold mbind at 1.
    rewrite TrainTheorems.try_run. destruct bs as [|b bs].
    + rewrite (run_train_exhausted _ _ _ _ g it _ _ Hr Hsrc Hit).
      simpl. eexists. exists []. rewrite app_nil_r. by repeat split.
    + destruct (run_train_step policy_cost_of value_cost_of apply_gradients
                  _ g it tensors wts w b bs Hr Hrun Hsrc Hit)
        as (tv & w1 & Hstep & Hr1 & Hcg1 & Hd1 & Hf1 & Hit1 & Hh1).
      pose proof (logs_run_train (sess self) tensors w) as Hl1.
      rewrite Hstep in Hl1 |- *. cbn [snd] in Hl1.
      destruct (log_step_logs self g tensors wts i tv st logger w1 Hr1)
        as (st' & w2 & evs1 & Hlog & Hsame & Hl2 & Hn2 & Ho2);
        [by rewrite Hcg1|].
      unfold mbind at 1. unfold mbind at 1. rewrite Hlog. unfold ret at 1.
      pose proof (same_runtime_current_graph _ _ Hsame) as Hcg2.
      destruct (IH bs st' w2) as (w' & evs & Hloop & Hl & Hn & Ho).
      * by apply (ready_same_runtime _ _ w1).
      * by rewrite Hcg2, Hcg1.
      * destruct Hsame as (_ & _ & _ & -> & _). rewrite Hit1.
        apply lookup_insert_eq.
      * exists w', (evs1 ++ evs). split; [exact Hloop|]. split; [|split].
        -- rewrite Hl, Hl2, Hl1. by rewrite <- app_assoc.
        -- rewrite length_app, Hn, Hn2. cbn [length take].
           rewrite filter_cons. destruct (decide (i mod 100 = 0)); simpl; lia.
        -- intros d Hne. rewrite (Ho d Hne), (Ho2 d Hne). by rewrite Hl1.
Qed.

(** Without a log directory the loop leaves every log as it was. *)
Lemma train_loop_no_logs (self : t) (tensors : TrainTensors)
    (wts : list string) (indices : list Z) (w : World) :
  logs (train_loop policy_cost_of value_cost_of apply_gradients
                   self tensors wts indices None w).2 = logs w.
Proof.
  revert w. induction indices as [|i indices IH]; intros w; [reflexivity|].
  simpl train_loop. unfold mbind at 1. rewrite TrainTheorems.try_run.
  pose proof (logs_run_train (sess self) tensors w) as Hl.
  destruct (run_train _ _ _ _ _ w) as [[tv|e] w1]; cbn [snd] in Hl.
  - unfold mbind at 1. unfold ret at 1. by rewrite IH.
  - by destruct (decide (e = OutOfRangeError)).
Qed.

End Loop.

Section Setup.
Variable go_N : Z.
Variable NEW_FEATURES_PLANES : Z.

(** What the part of [train] before the loop writes to the log: the
    graph, once, when a log directory is given. *)
Lemma train_setup_logs (self : t) (tf_records : list Batch)
    (init_from logdir : option string) (w w1 : World) (ctx : context) :
  train_setup go_N NEW_FEATURES_PLANES self tf_records init_from logdir w
    = (Ok ctx, w1) ->
  match logdir with
  | None => ctx_logging ctx = None /\ logs w1 = logs w
  | Some d =>
      ctx_logging ctx = Some (StatisticsCollector.__init__, d) /\
      logs w1 = <[d := default [] (logs w !! d)
                       ++ [GraphEvent (hd 0%nat (default_graph w))]]> (logs w)
  end.
Proof.
  unfold train_setup. intros H.
  apply mbind_Ok in H as (inp & wa & Ha & H).
  apply mbind_Ok in H as (out & wb & Hb & H).
  apply mbind_Ok in H as (tensors & wc & Hc & H).
  apply mbind_Ok in H as (wts & wd & Hd & H).
  apply mbind_Ok in H as ([] & we & He & H).
  apply mbind_Ok in H as (logging & wf & Hf & H).
  injection H as <- <-. cbn [ctx_logging].
  assert (Hla : logs wa = logs w /\ default_graph wa = default_graph w).
  { unfold get_input_tensors in Ha. by injection Ha as <- <-. }
  destruct Hla as [Hla Hda].
  pose proof (keeps_at logs _ _ _ _ (keeps_build logs _ ltac:(done)) Hb) as Hlb.
  pose proof (keeps_at logs _ _ _ _ (keeps_build logs _ ltac:(done)) Hc) as Hlc.
  pose proof (keeps_at logs _ _ _ _ (keeps_build logs _ ltac:(done)) Hd) as Hld.
  pose proof (keeps_at logs _ _ _ _ (logs_initialize_weights _ _) He) as Hle.
  apply build_Ok in Hb as (Gb & _ & _ & Hdb & _ & _).
  apply build_Ok in Hc as (Gc & _ & _ & Hdc & _ & _).
  apply build_Ok in Hd as (Gd & _ & _ & Hdd & _ & _).
  apply TrainFacts.initialize_weights_Ok in He
    as (ss' & Hs' & Hg' & _ & _ & _ & _).
  destruct logdir as [d|].
  - apply mbind_Ok in Hf as (g' & w2 & Hsg & Hf).
    unfold sess_graph in Hsg. rewrite Hs' in Hsg. injection Hsg as <- <-.
    apply mbind_Ok in Hf as (logger & w3 & Hfw & Hf).
    injection Hfw as <- <-. injection Hf as <- <-.
    split; [reflexivity|]. cbn [logs set_logs].
    rewrite Hg', Hdd, Hdc, Hdb, Hda. by rewrite Hle, Hld, Hlc, Hlb, Hla.
  - injection Hf as <- <-. split; [reflexivity|]. congruence.
Qed.

End Setup.

(** The indices below a number of steps at which [train] logs. *)
Lemma multiples_below (k : nat) :
  Z.of_nat (length (filter (fun i : Z => i mod 100 = 0) (range (Z.of_nat k))))
  = (Z.of_nat k + 99) / 100.
Proof.
  unfold range. rewrite Nat2Z.id. induction k as [|k IH]; [reflexivity|].
  rewrite seq_S, map_app, filter_app, length_app, Nat2Z.inj_add, IH.
  cbn [map Nat.add]. rewrite filter_cons, filter_nil.
  destruct (decide (Z.of_nat k mod 100 = 0)) as [Hk|Hk]; cbn [length];
    Z.to_euclidean_division_equations; lia.
Qed.

Lemma take_range (m : nat) (n : Z) :
  take m (range n) = range (Z.of_nat (m `min` Z.to_nat n)).
Proof.
  unfold range. rewrite Nat2Z.id.
  change (map Z.of_nat) with (fmap (M := list) Z.of_nat).
  by rewrite <- fmap_take, take_seq.
Qed.

End LogFacts.

Module LogTheorems.
Import DualNetworkTrainer TrainFacts LogFacts.

Section Logs.
Variable go_N : Z.
Variable NEW_FEATURES_PLANES : Z.
Variable policy_cost_of : gmap string tensor -> Batch -> Q.
Variable value_cost_of : gmap string tensor -> Batch -> Q.
Variable apply_gradients :
  Q -> Batch -> gmap string tensor -> string -> tensor -> tensor.

(** X26.  What [train] logs.  Once the part of [train] before its
    loop has succeeded, [train] returns, and: without a log directory
    no log is touched; with one, the graph of the session is written
    to it first, and after it two summaries for every step done whose
    index is a multiple of one hundred, the first step included, so
    one pair for every hundred steps begun.  Other log directories are
    left alone. *)
Theorem train_logs (self : t) (tf_records : list Batch)
    (init_from logdir : option string) (num_steps : option Z)
    (w w1 : World) (ss : Session) (ctx : context) (f : string) :
  sessions w !! sess self = Some ss ->
  save_file self = Some f ->
  train_setup go_N NEW_FEATURES_PLANES self tf_records init_from logdir
              (set_default_graph (cons (graph ss)) w) = (Ok ctx, w1) ->
  let n := Z.to_nat (match num_steps with
                     | None => EXAMPLES_PER_GENERATION / TRAIN_BATCH_SIZE
                     | Some n => n
                     end) in
  let steps := (length tf_records `min` n)%nat in
  exists w2,
    train go_N NEW_FEATURES_PLANES policy_cost_of value_cost_of apply_gradients
          self tf_records init_from logdir num_steps w = (Ok tt, w2) /\
    match logdir with
    | None => logs w2 = logs w
    | Some d =>
        (exists evs,
            default [] (logs w2 !! d) =
              default [] (logs w !! d) ++ GraphEvent (graph ss) :: evs /\
            Z.of_nat (length evs) = 2 * ((Z.of_nat steps + 99) / 100)) /\
        (forall d', d' <> d -> logs w2 !! d' = logs w !! d')
    end.
Proof.
  intros Hs Hf Hsetup n steps.
  unfold train, mbind at 1, sess_graph. rewrite Hs. unfold as_default.
  unfold mbind at 1. rewrite Hsetup.
  pose proof (train_setup_logs _ _ _ _ _ _ _ _ _ Hsetup) as Hlogs.
  apply TrainTheorems.train_setup_Ok in Hsetup
    as (Hready & Hrun & Hd1 & it & Hsrc & Hit).
  cbn [hd default_graph set_default_graph logs] in Hready, Hd1, Hlogs.
  destruct logdir as [d|].
  - destruct Hlogs as [Hctx Hl1]. rewrite Hctx.
    destruct (train_loop_logs policy_cost_of value_cost_of apply_gradients
                self (graph ss) it (ctx_train_tensors ctx)
                (ctx_weight_tensors ctx) d Hsrc
                (range (match num_steps with
                        | None => EXAMPLES_PER_GENERATION / TRAIN_BATCH_SIZE
                        | Some n => n
                        end))
                tf_records StatisticsCollector.__init__ w1 Hready Hrun Hit)
      as (wl & evs & Hloop & Hl & Hn & Ho).
    pose proof Hloop as Hloop'.
    destruct (TrainTheorems.train_loop_spec policy_cost_of value_cost_of
                apply_gradients self (graph ss) it (ctx_train_tensors ctx)
                (ctx_weight_tensors ctx) Hsrc
                (range (match num_steps with
                        | None => EXAMPLES_PER_GENERATION / TRAIN_BATCH_SIZE
                        | Some n => n
                        end))
                tf_records (Some (StatisticsCollector.__init__, d)) w1
                Hready Hrun Hit)
      as (wl' & Hloop2 & Hrl & _).
    rewrite Hloop in Hloop2. injection Hloop2 as <-.
    unfold mbind at 1. rewrite Hloop.
    destruct (save_weights_Ok self (graph ss) f wl Hrl Hf)
      as (w2 & vals & ss2 & Hsave & _).
    pose proof (logs_save_weights self wl) as Hl2.
    rewrite Hsave in Hl2 |- *. cbn [snd] in Hl2.
    eexists. split; [reflexivity|]. cbn [logs set_default_graph].
    rewrite Hl2. split.
    + exists evs. split.
      * rewrite Hl, Hl1, lookup_insert_eq. cbn. by rewrite <- app_assoc.
      * rewrite Hn, take_range. fold n steps.
        rewrite Nat2Z.inj_mul, multiples_below. reflexivity.
    + intros d' Hne. rewrite (Ho d' Hne), Hl1. by rewrite lookup_insert_ne.
  - destruct Hlogs as [Hctx Hl1]. rewrite Hctx.
    destruct (TrainTheorems.train_loop_spec policy_cost_of value_cost_of
                apply_gradients self (graph ss) it (ctx_train_tensors ctx)
                (ctx_weight_tensors ctx) Hsrc
                (range (match num_steps with
                        | None => EXAMPLES_PER_GENERATION / TRAIN_BATCH_SIZE
                        | Some n => n
                        end))
                tf_records None w1 Hready Hrun Hit)
      as (wl & Hloop & Hrl & _).
    pose proof (train_loop_no_logs policy_cost_of value_cost_of apply_gradients
                  self (ctx_train_tensors ctx) (ctx_weight_tensors ctx)
                  (range (match num_steps with
                          | None => EXAMPLES_PER_GENERATION / TRAIN_BATCH_SIZE
                          | Some n => n
                          end)) w1) as Hl.
    rewrite Hloop in Hl. cbn [snd] in Hl.
    unfold mbind at 1. rewrite Hloop.
    destruct (save_weights_Ok self (graph ss) f wl Hrl Hf)
      as (w2 & vals & ss2 & Hsave & _).
    pose proof (logs_save_weights self wl) as Hl2.
    rewrite Hsave in Hl2 |- *. cbn [snd] in Hl2.
    eexists. split; [reflexivity|]. cbn [logs set_default_graph].
    congruence.
Qed.

End Logs.

Lemma train_logs_witness :
  exists w2 evs,
    train 9 17 unit_cost unit_cost keep_weights quick_trainer three_batches
          None (Some "logs"%string) (Some 10) quick_world = (Ok tt, w2) /\
    default [] (logs w2 !! "logs"%string) = GraphEvent 1 :: evs /\
    length evs = 2%nat.
Proof.
  destruct (train_setup 9 17 quick_trainer three_batches None (Some "logs"%string)
              (set_default_graph (cons 1%nat) quick_world)) as [r w1] eqn:E.
  assert (Hr : exists ctx, r = Ok ctx).
  { apply (f_equal fst) in E. vm_compute in E. rewrite <- E. eauto. }
  destruct Hr as [ctx ->].
  destruct (train_logs 9 17 unit_cost unit_cost keep_weights
              quick_trainer three_batches None (Some "logs"%string) (Some 10)
              quick_world w1 (mkSession 1 ∅) ctx "model"%string
              eq_refl eq_refl E)
    as (w2 & Htrain & (evs & Hl & Hn) & _).
  exists w2, evs. split; [exact Htrain|]. split; [exact Hl|].
  apply Nat2Z.inj. rewrite Hn. reflexivity.
Defined.

End LogTheorems.

(** ** The numeric code in double precision *)

Module Binary64Facts.
Local Open Scope R_scope.

Lemma Q2R_half : Q2R (1 # 2) = 1 / 2.
Proof. unfold Q2R. simpl. lra. Qed.

Lemma Q2R_two_power (z : Z) : Q2R (2 ^ z) = powerRZ 2 z.
Proof.
  rewrite RMicromega.Q2RpowerRZ by (left; discriminate).
  f_equal. unfold Q2R. simpl. lra.
Qed.

(** [round] never moves a float by more than a half. *)
Lemma round_half_even_close (q : Q) :
  Rabs (IZR (Binary64.round_half_even q) - Q2R q) <= 1 / 2.
Proof.
  pose proof (Qfloor_le q) as Hlo. pose proof (Qlt_floor q) as Hhi.
  apply Qle_Rle in Hlo. apply Qlt_Rlt in Hhi.
  rewrite Q2R_inject_Z in Hlo, Hhi. rewrite plus_IZR in Hhi.
  unfold Binary64.round_half_even.
  destruct (Qcompare_spec (q - inject_Z (Qfloor q)) (1 # 2)) as [H|H|H].
  - apply Qeq_eqR in H. rewrite Q2R_minus, Q2R_inject_Z, Q2R_half in H.
    destruct (Z.even _); [|rewrite plus_IZR]; apply Rabs_le; lra.
  - apply Qlt_Rlt in H. rewrite Q2R_minus, Q2R_inject_Z, Q2R_half in H.
    apply Rabs_le. lra.
  - apply Qlt_Rlt in H. rewrite Q2R_minus, Q2R_inject_Z, Q2R_half in H.
    rewrite plus_IZR. apply Rabs_le. lra.
Qed.

(** [2.0 ** e] is the power itself down to the smallest subnormal
    number. *)
Lemma value_pow2 (e : Z) :
  (-1074 <= e)%Z ->
  Q2R (Binary64.value (Binary64.pow2 e)) = powerRZ 2 e.
Proof.
  intros He. unfold Binary64.pow2.
  destruct (Z.ltb_spec e (-1074)) as [?|_]; [lia|].
  destruct (Z.ltb_spec e (-1022)) as [Hs|Hn]; unfold Binary64.value.
  - rewrite Z2Pos.id by (apply Z.pow_pos_nonneg; lia).
    rewrite Q2R_mult, Q2R_inject_Z, Q2R_two_power, IZR_pow_2 by lia.
    rewrite <- powerRZ_add by lra. f_equal. lia.
  - rewrite Z2Pos.id by (apply Z.pow_pos_nonneg; lia).
    rewrite Q2R_mult, Q2R_inject_Z, Q2R_two_power, IZR_pow_2 by lia.
    rewrite <- powerRZ_add by lra. f_equal. lia.
Qed.

(** [2 ** e] is two to the power [e], as an integer or as a float. *)
Lemma pow_of_two_value (e : Z) :
  (-1074 <= e)%Z ->
  Q2R (Binary64.num_value (Binary64.pow_of_two e)) = powerRZ 2 e.
Proof.
  intros He. unfold Binary64.pow_of_two.
  destruct (Z.leb_spec 0 e) as [H|H]; simpl.
  - rewrite Q2R_inject_Z. by apply IZR_pow_2.
  - by apply value_pow2.
Qed.

Lemma of_int_2 :
  Binary64.of_int 2 = S754_finite false 4503599627370496 (-51).
Proof. vm_compute. reflexivity. Qed.

Lemma py_round_finite (l : Binary64.float) :
  Binary64.is_finite l = true ->
  Binary64.py_round l = Ok (Binary64.round_half_even (Binary64.value l)).
Proof. by destruct l. Qed.

(** The logarithm of a positive finite double is a quotient of two
    logarithms of the C library. *)
Lemma math_log_positive (libm_log : Binary64.float -> Binary64.float)
    (m : positive) (e : Z) :
  Binary64.is_zero (libm_log (Binary64.of_int 2)) = false ->
  Binary64.math_log libm_log (S754_finite false m e) (Binary64.of_int 2) =
  Ok (Binary64.div (libm_log (S754_finite false m e))
                   (libm_log (Binary64.of_int 2))).
Proof.
  intros Hz. unfold Binary64.math_log. rewrite of_int_2 in *.
  cbn [Binary64.m_log bind]. by rewrite Hz.
Qed.

(** The lists of a collector after a sequence of reports. *)
Lemma reported_snoc reports x :
  Binary64.StatisticsCollector.reported (reports ++ [x]) =
  Binary64.StatisticsCollector.report
    (Binary64.StatisticsCollector.reported reports)
    (Binary64.StatisticsCollector.pol x) (Binary64.StatisticsCollector.val x)
    (Binary64.StatisticsCollector.reg x) (Binary64.StatisticsCollector.tot x).
Proof.
  unfold Binary64.StatisticsCollector.reported. by rewrite fold_left_app.
Qed.

Lemma reported_lists reports :
  Binary64.StatisticsCollector.reported reports =
  Binary64.StatisticsCollector.mk
    (map Binary64.StatisticsCollector.pol reports)
    (map Binary64.StatisticsCollector.val reports)
    (map Binary64.StatisticsCollector.reg reports)
    (map Binary64.StatisticsCollector.tot reports).
Proof.
  induction reports as [|x reports IH] using rev_ind; [reflexivity|].
  rewrite reported_snoc, IH, !map_app. reflexivity.
Qed.

Lemma average_nonempty (l : list Binary64.float) :
  l <> [] -> Binary64.average l = Ok (Binary64.float_mean l).
Proof.
  intros Hl. unfold Binary64.average, Binary64.py_truediv.
  destruct (Z.eqb_spec (len l) 0) as [H|_]; [|reflexivity].
  by apply len_zero in H.
Qed.

Lemma average_empty : Binary64.average [] = Raise ZeroDivisionError.
Proof. reflexivity. Qed.

End Binary64Facts.

Module Binary64Theorems.
Import Binary64Facts.
Local Open Scope R_scope.

(** C7, as the code has it in double precision.  Let [n] be a positive
    finite double and [l] the double that [math.log(n, 2)] is: the
    quotient, rounded, of the two logarithms that the C library returns
    for [n] and for [2].  When the logarithm of [2] is not zero and [l]
    is finite and rounds to no less than [-1074],
    [_round_power_of_two n] returns two raised to [round(l)].  So the
    result is a power of two; its logarithm to base two is within a half
    of [l], and within a half and the error of [l] of the logarithm of
    [n]. *)
Theorem round_power_of_two_double (libm_log : Binary64.float -> Binary64.float)
    (m : positive) (e : Z) :
  let n := S754_finite false m e in
  let l := Binary64.div (libm_log n) (libm_log (Binary64.of_int 2)) in
  Binary64.is_zero (libm_log (Binary64.of_int 2)) = false ->
  Binary64.is_finite l = true ->
  (-1074 <= Binary64.round_half_even (Binary64.value l))%Z ->
  exists v : Binary64.num,
    Binary64._round_power_of_two libm_log n = Ok v /\
    v = Binary64.pow_of_two (Binary64.round_half_even (Binary64.value l)) /\
    Q2R (Binary64.num_value v) =
      powerRZ 2 (Binary64.round_half_even (Binary64.value l)) /\
    Rabs (log2 (Q2R (Binary64.num_value v)) - Q2R (Binary64.value l)) <= 1 / 2 /\
    Rabs (log2 (Q2R (Binary64.num_value v)) - log2 (Q2R (Binary64.value n)))
      <= 1 / 2 + Rabs (Q2R (Binary64.value l) - log2 (Q2R (Binary64.value n))).
Proof.
  intros n l Hz Hf He. eexists. split.
  { unfold Binary64._round_power_of_two, n.
    rewrite math_log_positive by done. cbn [bind]. fold n l.
    rewrite py_round_finite by done. reflexivity. }
  unfold Binary64.py_int. split; [reflexivity|].
  rewrite pow_of_two_value by done. split; [reflexivity|].
  rewrite log2_powerRZ.
  pose proof (round_half_even_close (Binary64.value l)) as Hc.
  split; [exact Hc|].
  set (x := log2 (Q2R (Binary64.value n))) in *.
  set (y := Q2R (Binary64.value l)) in *.
  set (z := IZR (Binary64.round_half_even (Binary64.value l))) in *.
  replace (z - x) with ((z - y) + (y - x)) by ring.
  pose proof (Rabs_triang (z - y) (y - x)). lra.
Qed.

(** With the correctly rounded logarithm, [84] gives [64]: the
    logarithm is about 6.39. *)
Lemma round_power_of_two_double_witness :
  exists v : Binary64.num,
    Binary64._round_power_of_two Binary64.log_double
      (S754_finite false 5910974510923776 (-46)) = Ok v /\
    v = Binary64.PyInt 64 /\
    Rabs (log2 (Q2R (Binary64.num_value v)) -
          Q2R (Binary64.value (S754_finite false 7197109590815088 (-50))))
      <= 1 / 2.
Proof.
  destruct (round_power_of_two_double Binary64.log_double
              5910974510923776 (-46))
    as (v & Hv & Hp & _ & Hl & _).
  - vm_compute. reflexivity.
  - vm_compute. reflexivity.
  - vm_compute. discriminate.
  - exists v. split; [exact Hv|]. split.
    + rewrite Hp. vm_compute. reflexivity.
    + assert (E : Binary64.div
                    (Binary64.log_double (S754_finite false 5910974510923776 (-46)))
                    (Binary64.log_double (Binary64.of_int 2))
                  = S754_finite false 7197109590815088 (-50))
        by (vm_compute; reflexivity).
      rewrite E in Hl. exact Hl.
Defined.

(** C7 does not hold as it stands: at [0x1.6a09e667f3bccp+1], a little
    below the square root of eight, the two logarithms of the C library
    are the correctly rounded ones, their quotient rounds to exactly one
    and a half, and [round] takes the tie to the even side.  The code
    returns [4], where two raised to [round(log2(n))] is [2], and the
    logarithm of the result is more than a half away from that of
    [n]. *)
Lemma round_power_of_two_double_counterexample :
  exists v : Binary64.num,
    (0 < Binary64.value Binary64.sqrt8)%Q /\
    Binary64._round_power_of_two Binary64.log_double Binary64.sqrt8 = Ok v /\
    Q2R (Binary64.num_value v) = 4 /\
    powerRZ 2 (py_round (log2 (Q2R (Binary64.value Binary64.sqrt8)))) = 2 /\
    ~ Rabs (log2 (Q2R (Binary64.num_value v)) -
            log2 (Q2R (Binary64.value Binary64.sqrt8))) <= 1 / 2.
Proof.
  exists (Binary64.PyInt 4).
  assert (Hpos : (0 < Binary64.value Binary64.sqrt8)%Q) by reflexivity.
  pose proof (log2_between (Binary64.value Binary64.sqrt8) 1 Hpos
                ltac:(reflexivity) ltac:(reflexivity)) as Hb.
  split; [exact Hpos|]. split; [vm_compute; reflexivity|].
  assert (H4 : Q2R (Binary64.num_value (Binary64.PyInt 4)) = powerRZ 2 2).
  { simpl. rewrite Q2R_inject_Z. lra. }
  split; [rewrite H4; simpl; lra|]. split.
  - rewrite (py_round_unique _ 1 Hb). simpl. lra.
  - rewrite H4, log2_powerRZ. intros H.
    pose proof (Rle_abs (2 - log2 (Q2R (Binary64.value Binary64.sqrt8)))). lra.
Qed.

(** C4, as the code has it in double precision.  After a sequence of
    reports that is not empty, made on a new collector or since the last
    [collect], [collect] returns the summary of the four values
    [sum(l) / len(l)], one for each list of costs: the sum taken from
    left to right and rounded at each step, the quotient rounded, and
    each value kept as the nearest number of single precision.  It
    leaves the four lists empty, as every [collect] that returns does.
    After the single [report(0.5, 0.3, 0.01, 0.81)] the four values
    computed are the reported doubles themselves; the summary holds
    [0.5] and the numbers of single precision nearest to [0.3], [0.01]
    and [0.81]. *)
Theorem collect_float_means :
  (forall reports : list (Binary64.float * Binary64.float *
                          Binary64.float * Binary64.float),
      reports <> [] ->
      Binary64.StatisticsCollector.collect
        (Binary64.StatisticsCollector.reported reports) =
      Ok (Binary64.StatisticsCollector.accuracy_summaries
            (Binary64.float_mean (map Binary64.StatisticsCollector.pol reports))
            (Binary64.float_mean (map Binary64.StatisticsCollector.val reports))
            (Binary64.float_mean (map Binary64.StatisticsCollector.reg reports))
            (Binary64.float_mean (map Binary64.StatisticsCollector.tot reports)),
          Binary64.StatisticsCollector.__init__)) /\
  (forall self s self',
      Binary64.StatisticsCollector.collect self = Ok (s, self') ->
      self' = Binary64.StatisticsCollector.__init__) /\
  (Binary64.float_mean [Binary64.d0_5] = Binary64.d0_5 /\
   Binary64.float_mean [Binary64.d0_3] = Binary64.d0_3 /\
   Binary64.float_mean [Binary64.d0_01] = Binary64.d0_01 /\
   Binary64.float_mean [Binary64.d0_81] = Binary64.d0_81) /\
  Binary64.StatisticsCollector.collect
    (Binary64.StatisticsCollector.report Binary64.StatisticsCollector.__init__
       Binary64.d0_5 Binary64.d0_3 Binary64.d0_01 Binary64.d0_81) =
  Ok ([ ("Policy error"%string, S754_finite false 8388608 (-24));
        ("Value error"%string, S754_finite false 10066330 (-25));
        ("Regularization error"%string, S754_finite false 10737418 (-30));
        ("Combined cost"%string, S754_finite false 13589545 (-24)) ],
      Binary64.StatisticsCollector.__init__).
Proof.
  split; [|split; [|split]].
  - intros reports Hne. rewrite reported_lists.
    unfold Binary64.StatisticsCollector.collect.
    cbn [Binary64.StatisticsCollector.policy_costs
         Binary64.StatisticsCollector.value_costs
         Binary64.StatisticsCollector.regularization_costs
         Binary64.StatisticsCollector.combined_costs].
    assert (Hmap : forall f : Binary64.float * Binary64.float *
                              Binary64.float * Binary64.float -> Binary64.float,
               map f reports <> []).
    { intros f H. apply map_eq_nil in H. contradiction. }
    rewrite !average_nonempty by apply Hmap. reflexivity.
  - intros self s self' H. unfold Binary64.StatisticsCollector.collect in H.
    repeat (apply bind_Ok in H; destruct H as (? & _ & H)).
    by injection H as _ <-.
  - repeat split; vm_compute; reflexivity.
  - vm_compute. reflexivity.
Qed.

(** Two reports whose sums and quotients are exact: the values of the
    summary are the arithmetic means [3], [3], [3] and [9]. *)
Lemma collect_float_means_witness :
  Binary64.StatisticsCollector.collect
    (Binary64.StatisticsCollector.reported
       [ (Binary64.of_int 4, Binary64.of_int 5, Binary64.of_int 6,
          Binary64.of_int 15);
         (Binary64.of_int 2, Binary64.of_int 1, Binary64.of_int 0,
          Binary64.of_int 3) ]) =
  Ok ([ ("Policy error"%string, S754_finite false 12582912 (-22));
        ("Value error"%string, S754_finite false 12582912 (-22));
        ("Regularization error"%string, S754_finite false 12582912 (-22));
        ("Combined cost"%string, S754_finite false 9437184 (-20)) ],
      Binary64.StatisticsCollector.__init__).
Proof.
  etransitivity.
  - apply (proj1 collect_float_means). discriminate.
  - vm_compute. reflexivity.
Defined.

(** C4 does not hold as it stands.  Three reports of [0.1] give the
    value [0.10000000000000002], which is not the arithmetic mean of the
    three costs; and after [report(0.5, 0.3, 0.01, 0.81)] the summary
    holds, but for [0.5], numbers that are not the reported ones. *)
Lemma collect_float_means_counterexample :
  (exists avg : Binary64.float,
      Binary64.StatisticsCollector.collect
        (Binary64.StatisticsCollector.reported Binary64.three_tenths) =
      Ok (Binary64.StatisticsCollector.accuracy_summaries avg avg avg avg,
          Binary64.StatisticsCollector.__init__) /\
      Binary64.average
        (map Binary64.StatisticsCollector.pol Binary64.three_tenths) = Ok avg /\
      ~ (Binary64.value avg ==
         mean (map Binary64.value
                 (map Binary64.StatisticsCollector.pol Binary64.three_tenths)))%Q) /\
  (exists p v r c : Binary64.float,
      Binary64.StatisticsCollector.collect
        (Binary64.StatisticsCollector.report
           Binary64.StatisticsCollector.__init__
           Binary64.d0_5 Binary64.d0_3 Binary64.d0_01 Binary64.d0_81) =
      Ok ([ ("Policy error"%string, p); ("Value error"%string, v);
            ("Regularization error"%string, r); ("Combined cost"%string, c) ],
          Binary64.StatisticsCollector.__init__) /\
      (Binary64.value p == Binary64.value Binary64.d0_5)%Q /\
      ~ (Binary64.value v == Binary64.value Binary64.d0_3)%Q /\
      ~ (Binary64.value r == Binary64.value Binary64.d0_01)%Q /\
      ~ (Binary64.value c == Binary64.value Binary64.d0_81)%Q).
Proof.
  split.
  - exists (S754_finite false 7205759403792795 (-56)).
    split; [vm_compute; reflexivity|]. split; [vm_compute; reflexivity|].
    vm_compute. discriminate.
  - exists (S754_finite false 8388608 (-24)), (S754_finite false 10066330 (-25)),
           (S754_finite false 10737418 (-30)), (S754_finite false 13589545 (-24)).
    split; [vm_compute; reflexivity|]. split; [vm_compute; reflexivity|].
    repeat split; vm_compute; discriminate.
Qed.

End Binary64Theorems.
